(** * The migration engine of yunohost ([src/yunohost/tools.py])

    A shallow embedding of the "Migrations management" part of
    [tools.py]: the persisted state file, the discovery of migrations,
    the listing and run commands, and the LDAP backup/rollback wrapper
    [Migration.ldap_migration], followed by the properties the
    specification states about them. *)

From Stdlib Require Import ZArith NArith Bool Ascii String List Sorted Lia.
From stdpp Require Import base option list strings gmap.

Local Open Scope string_scope.
Local Open Scope list_scope.

(** ** Python strings *)

Module Py.

(** Strings are sequences of one-byte characters (the Latin-1 range of
    Python's [str]); in that range [\d] is exactly [0-9]. *)

Definition is_digit (c : ascii) : bool :=
  let n := N_of_ascii c in ((48 <=? n) && (n <=? 57))%N.

(** The character class [a-zA-Z0-9_]. *)
Definition is_word (c : ascii) : bool :=
  let n := N_of_ascii c in
  (((97 <=? n) && (n <=? 122)) || ((65 <=? n) && (n <=? 90))
   || ((48 <=? n) && (n <=? 57)) || (n =? 95))%N.

Definition underscore : ascii := "_"%char.

(** [span p s]: the longest prefix of [s] whose characters satisfy [p],
    and the rest of [s]. *)
Fixpoint span (p : ascii -> bool) (s : string) : string * string :=
  match s with
  | EmptyString => (EmptyString, EmptyString)
  | String c r =>
      if p c then let '(a, b) := span p r in (String c a, b)
      else (EmptyString, s)
  end.

(** [s.split("_", 1)]: the text before the first underscore and, when
    there is an underscore, the text after it.  [s.split("_")[0]] is the
    first component as well. *)
Fixpoint split_first (s : string) : string * option string :=
  match s with
  | EmptyString => (EmptyString, None)
  | String c r =>
      if Ascii.eqb c underscore then (EmptyString, Some r)
      else let '(a, b) := split_first r in (String c a, b)
  end.

Definition all_digits (s : string) : bool :=
  forallb is_digit (list_ascii_of_string s).

Definition digit_val (c : ascii) : N := (N_of_ascii c - 48)%N.

Fixpoint int_acc (acc : N) (s : string) : N :=
  match s with
  | EmptyString => acc
  | String c r => int_acc (10 * acc + digit_val c)%N r
  end.

(** [int(s)] on a non-empty string of decimal digits; every other
    argument is a [ValueError] ([None]).  Discovery only builds
    migrations from file names matching [^\d+_...], so the argument of
    [int] in [Migration.__init__] is always such a string there. *)
Definition int (s : string) : option N :=
  match s with
  | EmptyString => None
  | _ => if all_digits s then Some (int_acc 0 s) else None
  end.

(** [s[:-3]] *)
Definition drop_last3 (s : string) : string :=
  substring 0 (String.length s - 3) s.

(** [", ".join(l)] *)
Fixpoint join_comma (l : list string) : string :=
  match l with
  | [] => ""
  | [x] => x
  | x :: r => x ++ ", " ++ join_comma r
  end.

(** Truth value of an optional string: [None] and [""] are false. *)
Definition truthy (d : option string) : bool :=
  match d with
  | None | Some EmptyString => false
  | Some _ => true
  end.

(** [sorted(l, key=key)] for string keys: a stable sort that compares
    keys with [<] only.  The result of a stable sort is determined by
    the input, so insertion from the right stands for the builtin.
    An element goes before the first one that is not strictly smaller,
    hence before the equal ones that followed it in the input. *)
Section Sorted.
Context {A : Type} (key : A -> string).

Fixpoint insert_sorted (x : A) (l : list A) : list A :=
  match l with
  | [] => [x]
  | y :: r =>
      if String.ltb (key y) (key x) then y :: insert_sorted x r
      else x :: l
  end.

Definition sorted (l : list A) : list A := foldr insert_sorted [] l.
End Sorted.

End Py.

(** ** Errors and the error monad *)

Definition Args := list (string * string).

(** The exceptions of the engine, all subclasses of [Exception].
    [PyException] stands for any other [Exception] a migration body or
    the runtime raises.  Interpreter exits and interrupts, which
    [except Exception] does not catch, are outside the model. *)
Inductive Exn :=
| YunohostValidationError (key : string) (args : Args)
| YunohostError (key : string) (args : Args)
| PyException (kind msg : string).

(** [str(e)] *)
Definition exn_str (e : Exn) : string :=
  match e with
  | YunohostValidationError k _ => k
  | YunohostError k _ => k
  | PyException _ msg => msg
  end.

Inductive result (A : Type) :=
| Ok (a : A)
| Raise (e : Exn).
Arguments Ok {A} a.
Arguments Raise {A} e.

Definition rbind {A B} (r : result A) (k : A -> result B) : result B :=
  match r with Ok a => k a | Raise e => Raise e end.

(** A list comprehension whose element expression may raise: the first
    exception ends it. *)
Fixpoint rmap {A B} (f : A -> result B) (l : list A) : result (list B) :=
  match l with
  | [] => Ok []
  | x :: r => rbind (f x) (fun y => rbind (rmap f r) (fun ys => Ok (y :: ys)))
  end.

(** ** The machine the migrations act on *)

Definition Path := list string.

Inductive Node :=
| Dir
| File (content : string).

(** The file tree, as the node found at each absolute path. *)
Definition FS := Path -> option Node.

(** [strip_prefix p q = Some r] when [q] is [p] followed by [r]. *)
Fixpoint strip_prefix (p q : Path) : option Path :=
  match p, q with
  | [], _ => Some q
  | a :: p', b :: q' => if String.eqb a b then strip_prefix p' q' else None
  | _ :: _, [] => None
  end.

Definition is_under (p q : Path) : bool :=
  match strip_prefix p q with Some _ => true | None => false end.

(** Every entry lies in a directory. *)
Definition fs_wf (f : FS) : Prop :=
  forall p c n, f (p ++ [c]) = Some n -> f p = Some Dir.

(** [os.makedirs(p, 0o750)]: [FileExistsError] when [p] exists,
    [NotADirectoryError] when a file is on the way; otherwise [p] and its
    missing ancestors become directories. *)
Fixpoint file_on_the_way (f : FS) (done todo : Path) : bool :=
  match todo with
  | [] => false
  | c :: r =>
      match f done with
      | Some (File _) => true
      | _ => file_on_the_way f (done ++ [c]) r
      end
  end.

Definition makedirs (p : Path) (f : FS) : result FS :=
  match f p with
  | Some _ => Raise (PyException "FileExistsError" "File exists")
  | None =>
      if file_on_the_way f [] p
      then Raise (PyException "NotADirectoryError" "Not a directory")
      else Ok (fun q =>
                 match f q with
                 | Some n => Some n
                 | None => if is_under q p then Some Dir else None
                 end)
  end.

(** The shell commands the wrapper passes to [os.system]. *)
Inductive Cmd :=
| SystemctlStop (unit_ : string)
| SystemctlStart (unit_ : string)
| CpR (src dst : Path)            (* cp -r --preserve SRC DST *)
| CpRContents (src dst : Path)    (* cp -r --preserve SRC/. DST/ *)
| RmR (p : Path).                 (* rm -r P *)

(** Copy the tree at [src] onto [dst]: entries of [src] replace those of
    [dst] at the same relative path, other entries of [dst] stay. *)
Definition cp_merge (src dst : Path) (f : FS) : FS :=
  fun q =>
    match strip_prefix dst q with
    | Some r => match f (src ++ r) with Some n => Some n | None => f q end
    | None => f q
    end.

Definition basename (p : Path) : Path :=
  match last p with Some c => [c] | None => [] end.

(** What the file commands do when they succeed.  A missing source makes
    [cp] and [rm] fail without touching the tree; [cp -r SRC DST] copies
    into [DST] when [DST] is an existing directory and onto [DST]
    otherwise.  An entry of the source replaces the entry of the
    destination whatever their kinds: the refusal of [cp] to put a file
    in the place of a directory, or a directory in the place of a file,
    is a failure and not described here. *)
Definition sh_ideal (c : Cmd) (f : FS) : FS :=
  match c with
  | CpR src dst =>
      match f src with
      | None => f
      | Some _ =>
          match f dst with
          | Some Dir => cp_merge src (dst ++ basename src) f
          | _ => cp_merge src dst f
          end
      end
  | CpRContents src dst =>
      match f src with
      | None => f
      | Some _ => cp_merge src dst f
      end
  | RmR p => fun q => if is_under p q then None else f q
  | SystemctlStop _ | SystemctlStart _ => f
  end.

(** [m18n.n(key, **params)]: the localized message, kept symbolic. *)
Definition Msg := (string * Args)%type.
Definition m18n_n (key : string) (args : Args) : Msg := (key, args).

Inductive LogEvent :=
| LogDebug (m : Msg)
| LogInfo (m : Msg)
| LogWarn (m : Msg)
| LogError (m : Msg)
| LogSuccess (m : Msg)
| OpStart (operation : string)     (* OperationLogger(...).start() *)
| OpSuccess (operation : string)   (* operation_logger.success() *)
| OpError (operation : string) (m : Msg).  (* operation_logger.error(msg) *)

(** The part of the machine the migration bodies act on: the file tree,
    whether the last action on the slapd service was a start, the current
    UTC time already formatted with [%Y%m%d-%H%M%S], and what the bodies
    and their wrapper logged. *)
Record Sys := mkSys {
  fs : FS;
  slapd_started : bool;
  clock : string;
  journal : list LogEvent;
}.

Definition set_fs (f : FS) (s : Sys) : Sys :=
  {| fs := f; slapd_started := slapd_started s; clock := clock s;
     journal := journal s |}.

Definition set_slapd (b : bool) (s : Sys) : Sys :=
  {| fs := fs s; slapd_started := b; clock := clock s;
     journal := journal s |}.

Definition logger (ev : LogEvent) (s : Sys) : Sys :=
  {| fs := fs s; slapd_started := slapd_started s; clock := clock s;
     journal := journal s ++ [ev] |}.

(** [os.system(cmd)].  It returns the exit status and never raises, and
    every caller below drops the status; [sh] gives the effect of a file
    command on the tree, whether the command succeeds or fails. *)
Definition os_system (sh : Cmd -> FS -> FS) (c : Cmd) (s : Sys) : Sys :=
  match c with
  | SystemctlStop _ => set_slapd false s
  | SystemctlStart _ => set_slapd true s
  | _ => set_fs (sh c (fs s)) s
  end.

(** ** Logging and the state of a run *)

(** The machine, the content of [MIGRATIONS_STATE_PATH] ([None] when the
    file does not exist, otherwise its ["migrations"] mapping), and what
    the engine logged so far. *)
Record World := mkWorld {
  sys : Sys;
  migrations_yaml : option (gmap string string);
  log : list LogEvent;
}.

Definition M (A : Type) := World -> result A * World.

Definition ret {A} (a : A) : M A := fun w => (Ok a, w).
Definition raise {A} (e : Exn) : M A := fun w => (Raise e, w).
Definition bind {A B} (m : M A) (k : A -> M B) : M B :=
  fun w => match m w with
           | (Ok a, w') => k a w'
           | (Raise e, w') => (Raise e, w')
           end.
Definition lift {A} (r : result A) : M A := fun w => (r, w).

Notation "'let!' x ':=' m 'in' k" := (bind m (fun x => k))
  (at level 10, x name, m at level 100, k at level 200).
Notation "'do!' m 'in' k" := (bind m (fun _ => k))
  (at level 10, m at level 100, k at level 200).

Definition emit (ev : LogEvent) : M unit :=
  fun w => (Ok tt, {| sys := sys w; migrations_yaml := migrations_yaml w;
                      log := log w ++ [ev] |}).

Definition set_yaml (y : gmap string string) : M unit :=
  fun w => (Ok tt, {| sys := sys w; migrations_yaml := Some y; log := log w |}).

(** Run a migration body on the machine; the body's exception, if any,
    is handed to the caller. *)
Definition call_body (body : Sys -> Sys * option Exn) : M (option Exn) :=
  fun w => let '(s', r) := body (sys w) in
           (Ok r, {| sys := s'; migrations_yaml := migrations_yaml w;
                     log := log w |}).

(** ** The state store *)

(** [tools_migrations_state()["migrations"]] *)
Definition tools_migrations_state (w : World) : gmap string string :=
  match migrations_yaml w with
  | None => ∅
  | Some y => y
  end.

Definition _write_migration_state (migration_id state : string) : M unit :=
  fun w =>
    let current_states := tools_migrations_state w in
    set_yaml (<[migration_id := state]> current_states) w.

(** ** Migrations and their discovery *)

(** What a module of [yunohost.data_migrations] declares in its
    [MyMigration] class.  [cls_run] is the body, an external procedure
    acting on the machine; it returns normally ([None]) or raises. *)
Record MigrationClass := mkClass {
  cls_mode : string;
  cls_dependencies : list string;
  cls_disclaimer : option string;
  cls_run : Sys -> Sys * option Exn;
}.

(** A migration object: what [Migration.__init__] sets, the class
    attributes, and [state], set by the registry. *)
Record Migration := mkMigration {
  id_ : string;
  number : N;
  name : string;
  mode : string;
  dependencies : list string;
  disclaimer : option string;
  run : Sys -> Sys * option Exn;
  state : string;
}.

Definition set_state (st : string) (m : Migration) : Migration :=
  {| id_ := id_ m; number := number m; name := name m; mode := mode m;
     dependencies := dependencies m; disclaimer := disclaimer m;
     run := run m; state := st |}.

(** [Migration.__init__]: [int] fails on a prefix that is no number and
    the index [1] on an id without underscore. *)
Definition Migration_init (cls : MigrationClass) (id : string)
  : result Migration :=
  match Py.int (fst (Py.split_first id)) with
  | None => Raise (PyException "ValueError" "invalid literal for int()")
  | Some n =>
      match snd (Py.split_first id) with
      | None => Raise (PyException "IndexError" "list index out of range")
      | Some nm =>
          Ok {| id_ := id; number := n; name := nm; mode := cls_mode cls;
                dependencies := cls_dependencies cls;
                disclaimer := cls_disclaimer cls; run := cls_run cls;
                state := "" |}
      end
  end.

(** What the import of [data_migrations] and [os.listdir] yield. *)
Inductive DataMigrations :=
| NotImportable
| PathMissing (migrations_path : string)
| Listing (files : list string).

(** The migrations shipped with the program: the package directory and
    the modules [import_module] finds ([None]: the import raises). *)
Record Env := mkEnv {
  data_migrations : DataMigrations;
  import_module : string -> option MigrationClass;
}.

(** [re.match(r"^\d+_[a-zA-Z0-9_]+\.py$", x)].  No digit is an
    underscore and no word character a dot, so the greedy runs are the
    only way to match; [$] also matches before a final newline. *)
Definition newline : string := String (ascii_of_N 10) EmptyString.

Definition migration_file_re (x : string) : bool :=
  match Py.span Py.is_digit x with
  | (EmptyString, _) => false
  | (_, String c r2) =>
      Ascii.eqb c Py.underscore &&
      match Py.span Py.is_word r2 with
      | (EmptyString, _) => false
      | (_, r3) => String.eqb r3 ".py" || String.eqb r3 (".py" ++ newline)
      end
  | (_, EmptyString) => false
  end.

Definition _load_migration (env : Env) (migration_file : string)
  : M Migration :=
  let migration_id := Py.drop_last3 migration_file in
  do! emit (LogDebug (m18n_n "migrations_loading_migration"
                        [("id", migration_id)])) in
  let loaded :=
    match import_module env migration_id with
    | None => Raise (PyException "ImportError" "No module named")
    | Some cls => Migration_init cls migration_id
    end in
  match loaded with
  | Ok m => ret m
  | Raise e =>
      raise (YunohostError "migrations_failed_to_load_migration"
               [("id", migration_id); ("error", exn_str e)])
  end.

(** The loop of [_get_migrations_list] over the matching files. *)
Fixpoint load_all (env : Env) (states : gmap string string)
  (files : list string) (migrations : list Migration)
  : M (list Migration) :=
  match files with
  | [] => ret migrations
  | migration_file :: rest =>
      let! m := _load_migration env migration_file in
      let m := set_state (default "pending" (states !! id_ m)) m in
      load_all env states rest (migrations ++ [m])
  end.

Definition _get_migrations_list (env : Env) : M (list Migration) :=
  match data_migrations env with
  | NotImportable => ret []
  | PathMissing migrations_path =>
      do! emit (LogWarn (m18n_n "migrations_cant_reach_migration_file"
                           [("", migrations_path)])) in
      ret []
  | Listing files =>
      fun w =>
        let states := tools_migrations_state w in
        (let! migrations :=
           load_all env states (filter (fun x => migration_file_re x = true)
                                  files) [] in
         ret (Py.sorted id_ migrations)) w
  end.

(** ** Listing *)

(** The dictionaries [tools_migrations_list] returns. *)
Record MigrationInfo := mkInfo {
  info_id : string;
  info_number : N;
  info_name : string;
  info_mode : string;
  info_state : string;
  info_description : Msg;
  info_disclaimer : option string;
}.

Definition description (m : Migration) : Msg :=
  m18n_n ("migration_description_" ++ id_ m) [].

Definition to_info (migration : Migration) : MigrationInfo :=
  {| info_id := id_ migration; info_number := number migration;
     info_name := name migration; info_mode := mode migration;
     info_state := state migration;
     info_description := description migration;
     info_disclaimer := disclaimer migration |}.

Definition is_pending (st : string) : bool := String.eqb st "pending".

Definition tools_migrations_list (env : Env) (pending done : bool)
  : M (list MigrationInfo) :=
  if pending && done then
    raise (YunohostValidationError "migrations_list_conflict_pending_done" [])
  else
    let! migrations := _get_migrations_list env in
    let migrations := map to_info migrations in
    let migrations :=
      if pending || done then
        let migrations :=
          if done
          then filter (fun m => is_pending (info_state m) = false) migrations
          else migrations in
        if pending
        then filter (fun m => is_pending (info_state m) = true) migrations
        else migrations
      else migrations in
    ret migrations.

(** ** Running migrations *)

Definition matches (target : string) (m : Migration) : bool :=
  String.eqb (id_ m) target || String.eqb (name m) target
  || String.eqb (fst (Py.split_first (id_ m))) target.

(** The first position of [l] (counted from [i]) whose element
    satisfies [p]. *)
Fixpoint find_index {A} (p : A -> bool) (l : list A) (i : nat) : option nat :=
  match l with
  | [] => None
  | x :: r => if p x then Some i else find_index p r (S i)
  end.

(** The closure [get_matching_migration] of [tools_migrations_run].  The
    migration objects live in the list [all_migrations] and the loop
    updates their [state] in place, so a migration is referred to by its
    position in that list. *)
Definition get_matching_migration (all_migrations : list Migration)
  (target : string) : result nat :=
  match find_index (matches target) all_migrations 0 with
  | Some i => Ok i
  | None =>
      Raise (YunohostValidationError "migrations_no_such_migration"
               [("id", target)])
  end.

(** The positions of the elements satisfying [p], in order. *)
Fixpoint indices_where {A} (p : A -> bool) (l : list A) (i : nat) : list nat :=
  match l with
  | [] => []
  | x :: r => if p x then i :: indices_where p r (S i) else indices_where p r (S i)
  end.

(** [t.id] and [t.state] for the object at position [t].  The positions
    in use come from [get_matching_migration] and [indices_where], so
    they exist; the empty string stands for the others. *)
Definition id_of (all_migrations : list Migration) (t : nat) : string :=
  from_option id_ "" (all_migrations !! t).

Definition state_of (all_migrations : list Migration) (t : nat) : string :=
  from_option state "" (all_migrations !! t).

(** The variables the loop updates: the migration objects and the
    [accept_disclaimer] argument. *)
Record Locals := mkLocals {
  all_migrations : list Migration;
  accept_disclaimer : bool;
}.

Definition operation : string := "tools_migrations_migrate_forward".

(** The check of the dependencies: [Ok true] when none is pending,
    [Ok false] after the error message, and the exception of
    [get_matching_migration] for an unknown dependency. *)
Definition check_dependencies (loc : Locals) (migration : Migration)
  : M bool :=
  let! dependencies :=
    lift (rmap (get_matching_migration (all_migrations loc))
            (dependencies migration)) in
  let pending_dependencies :=
    map (id_of (all_migrations loc))
      (filter (fun dep =>
                 is_pending (state_of (all_migrations loc) dep) = true)
         dependencies) in
  match pending_dependencies with
  | [] => ret true
  | _ =>
      do! emit (LogError (m18n_n "migrations_dependencies_not_satisfied"
                  [("id", id_ migration);
                   ("dependencies_id", Py.join_comma pending_dependencies)])) in
      ret false
  end.

(** [migration.state = st] for the object at position [i]. *)
Definition store_state (i : nat) (st : string) (loc : Locals) : Locals :=
  {| all_migrations := alter (set_state st) i (all_migrations loc);
     accept_disclaimer := accept_disclaimer loc |}.

(** The part of the loop body from the unit-of-work on. *)
Definition perform (skip : bool) (i : nat) (migration : Migration)
  (loc : Locals) : M Locals :=
  do! emit (OpStart operation) in
  if skip then
    do! emit (LogWarn (m18n_n "migrations_skip_migration"
                         [("id", id_ migration)])) in
    let loc := store_state i "skipped" loc in
    do! _write_migration_state (id_ migration) "skipped" in
    do! emit (OpSuccess operation) in
    ret loc
  else
    do! emit (LogInfo (m18n_n "migrations_running_forward"
                         [("id", id_ migration)])) in
    let! raised := call_body (run migration) in
    match raised with
    | Some e =>
        let msg := m18n_n "migrations_migration_has_failed"
                     [("exception", exn_str e); ("id", id_ migration)] in
        do! emit (LogError msg) in
        do! emit (OpError operation msg) in
        ret loc
    | None =>
        do! emit (LogSuccess (m18n_n "migrations_success_forward"
                                [("id", id_ migration)])) in
        let loc := store_state i "done" loc in
        do! _write_migration_state (id_ migration) "done" in
        do! emit (OpSuccess operation) in
        ret loc
    end.

(** One iteration of [for migration in targets]. *)
Definition migrate_one (skip auto : bool) (i : nat) (loc : Locals)
  : M Locals :=
  match all_migrations loc !! i with
  | None => ret loc
  | Some migration =>
      if auto && String.eqb (mode migration) "manual" then
        do! emit (LogWarn (m18n_n "migrations_to_be_ran_manually"
                             [("id", id_ migration)])) in
        ret loc
      else
        let! satisfied :=
          (if negb skip then check_dependencies loc migration
           else ret true) in
        if negb satisfied then ret loc
        else if Py.truthy (disclaimer migration) && negb skip then
          if negb (accept_disclaimer loc) then
            do! emit (LogWarn (m18n_n "migrations_need_to_accept_disclaimer"
                        [("id", id_ migration);
                         ("disclaimer", default "" (disclaimer migration))])) in
            ret loc
          else
            perform skip i migration
              {| all_migrations := all_migrations loc;
                 accept_disclaimer := false |}
        else perform skip i migration loc
  end.

Fixpoint run_loop (skip auto : bool) (targets : list nat) (loc : Locals)
  : M Locals :=
  match targets with
  | [] => ret loc
  | i :: rest =>
      let! loc := migrate_one skip auto i loc in
      run_loop skip auto rest loc
  end.

Definition b2n (b : bool) : nat := if b then 1 else 0.

(** The selection and validation of the targets. *)
Definition select_targets (all_migrations : list Migration)
  (targets : list string) (skip force_rerun : bool) : result (list nat) :=
  match targets with
  | [] =>
      if skip || force_rerun then
        Raise (YunohostValidationError
                 "migrations_must_provide_explicit_targets" [])
      else Ok (indices_where (fun m => is_pending (state m)) all_migrations 0)
  | _ =>
      rbind (rmap (get_matching_migration all_migrations) targets)
        (fun targets =>
           let done :=
             map (id_of all_migrations)
               (filter (fun t =>
                          is_pending (state_of all_migrations t) = false)
                  targets) in
           let pending :=
             map (id_of all_migrations)
               (filter (fun t =>
                          is_pending (state_of all_migrations t) = true)
                  targets) in
           if skip && negb (bool_decide (done = [])) then
             Raise (YunohostValidationError "migrations_not_pending_cant_skip"
                      [("ids", Py.join_comma done)])
           else if force_rerun && negb (bool_decide (pending = [])) then
             Raise (YunohostValidationError "migrations_pending_cant_rerun"
                      [("ids", Py.join_comma pending)])
           else if negb (skip || force_rerun)
                   && negb (bool_decide (done = [])) then
             Raise (YunohostValidationError "migrations_already_ran"
                      [("ids", Py.join_comma done)])
           else Ok targets)
  end.

Definition tools_migrations_run (env : Env) (targets : list string)
  (skip auto force_rerun accept_disclaimer : bool) : M unit :=
  let! all_migrations := _get_migrations_list env in
  if Nat.ltb 1 (b2n auto + b2n skip + b2n force_rerun) then
    raise (YunohostValidationError "migrations_exclusive_options" [])
  else
    let! targets :=
      lift (select_targets all_migrations targets skip force_rerun) in
    match targets with
    | [] =>
        do! emit (LogInfo (m18n_n "migrations_no_migrations_to_run" [])) in
        ret tt
    | _ =>
        do! run_loop skip auto targets
              {| all_migrations := all_migrations;
                 accept_disclaimer := accept_disclaimer |} in
        ret tt
    end.

(** ** The backup and rollback wrapper *)

Definition etc_ldap : Path := ["etc"; "ldap"].
Definition slapd_d : Path := ["etc"; "ldap"; "slapd.d"].
Definition var_lib_ldap : Path := ["var"; "lib"; "ldap"].
Definition etc_yunohost_apps : Path := ["etc"; "yunohost"; "apps"].

(** ["/home/yunohost.backup/premigration/" + time.strftime(...)] *)
Definition premigration (timestamp : string) : Path :=
  ["home"; "yunohost.backup"; "premigration"; timestamp].

(** The copies of the first [try] block, after [os.makedirs]. *)
Definition backup_before (sh : Cmd -> FS -> FS) (backup_folder : Path)
  (s : Sys) : Sys :=
  let s := os_system sh (SystemctlStop "slapd") s in
  let s := os_system sh (CpR etc_ldap (backup_folder ++ ["ldap_config"])) s in
  let s := os_system sh (CpR var_lib_ldap (backup_folder ++ ["ldap_db"])) s in
  os_system sh (CpR etc_yunohost_apps (backup_folder ++ ["apps_settings"])) s.

(** The [except Exception] block around the body, up to the [raise]. *)
Definition rollback (sh : Cmd -> FS -> FS) (backup_folder : Path)
  (s : Sys) : Sys :=
  let s := logger (LogWarn (m18n_n
             "migration_ldap_migration_failed_trying_to_rollback" [])) s in
  let s := os_system sh (SystemctlStop "slapd") s in
  let s := os_system sh (RmR slapd_d) s in
  let s := os_system sh
             (CpRContents (backup_folder ++ ["ldap_config"]) etc_ldap) s in
  let s := os_system sh
             (CpRContents (backup_folder ++ ["ldap_db"]) var_lib_ldap) s in
  let s := os_system sh
             (CpRContents (backup_folder ++ ["apps_settings"])
                etc_yunohost_apps) s in
  let s := os_system sh (SystemctlStart "slapd") s in
  let s := os_system sh (RmR backup_folder) s in
  logger (LogInfo (m18n_n "migration_ldap_rollback_success" [])) s.

(** [Migration.ldap_migration(run)]: the function [func] it returns.
    [run] takes the backup folder; [sh] is the effect of the file
    commands handed to [os.system]. *)
Definition ldap_migration (sh : Cmd -> FS -> FS)
  (run : Path -> Sys -> Sys * option Exn) : Sys -> Sys * option Exn :=
  fun s =>
    let s := logger (LogInfo (m18n_n
               "migration_ldap_backup_before_migration" [])) s in
    let backup_folder := premigration (clock s) in
    match makedirs backup_folder (fs s) with
    | Raise e =>
        (* except: raise YunohostError; finally: start slapd *)
        (os_system sh (SystemctlStart "slapd") s,
         Some (YunohostError "migration_ldap_can_not_backup_before_migration"
                 [("error", exn_str e)]))
    | Ok f =>
        let s := backup_before sh backup_folder (set_fs f s) in
        let s := os_system sh (SystemctlStart "slapd") s in  (* finally *)
        match run backup_folder s with
        | (s, Some e) => (rollback sh backup_folder s, Some e)
        | (s, None) => (os_system sh (RmR backup_folder) s, None)
        end
    end.

(** ** Vocabulary of the statements *)

(** The only error discovery raises. *)
Definition load_failure (e : Exn) : Prop :=
  exists args, e = YunohostError "migrations_failed_to_load_migration" args.

(** The filter [tools_migrations_list] applies for the given flags. *)
Definition keeps (pending done : bool) (i : MigrationInfo) : bool :=
  if done then negb (is_pending (info_state i))
  else if pending then is_pending (info_state i)
  else true.

(** How many migrations a target designates. *)
Definition count_matches (target : string) (l : list Migration) : nat :=
  length (filter (fun m => matches target m = true) l).

(** ** Concrete instances *)

Definition empty_fs : FS := fun _ => None.

Definition sys0 : Sys :=
  {| fs := empty_fs; slapd_started := true; clock := "20210101-000000";
     journal := [] |}.

Definition world0 : World :=
  {| sys := sys0; migrations_yaml := None; log := [] |}.

Definition succeed : Sys -> Sys * option Exn := fun s => (s, None).

Definition fail_with (e : Exn) : Sys -> Sys * option Exn :=
  fun s => (s, Some e).

Definition plain_class : MigrationClass :=
  {| cls_mode := "auto"; cls_dependencies := []; cls_disclaimer := None;
     cls_run := succeed |}.

(** Two migration files with the same name part. *)
Definition env_two_foo : Env :=
  {| data_migrations := Listing ["0002_foo.py"; "README.md"; "0001_foo.py"];
     import_module := fun _ => Some plain_class |}.

Definition plain (id nm : string) (n : N) (st : string) : Migration :=
  {| id_ := id; number := n; name := nm; mode := "auto"; dependencies := [];
     disclaimer := None; run := succeed; state := st |}.

(** Ascending order of the ids as Python compares strings, and of the
    integer ordinals. *)
Definition id_le (a b : Migration) : Prop := String.leb (id_ a) (id_ b) = true.
Definition number_le (a b : Migration) : Prop := (number a <= number b)%N.

(** The number of characters before the first underscore of the id. *)
Definition ordinal_width (m : Migration) : nat :=
  String.length (fst (Py.split_first (id_ m))).

(** The relation [Migration.__init__] sets up between id and number. *)
Definition numbered (m : Migration) : Prop :=
  Py.int (fst (Py.split_first (id_ m))) = Some (number m).

(** Two files whose numbers have different widths. *)
Definition env_9_10 : Env :=
  {| data_migrations := Listing ["9_a.py"; "10_b.py"];
     import_module := fun _ => Some plain_class |}.

(** ** One iteration of the run loop, by cases *)

Definition add_log (evs : list LogEvent) (w : World) : World :=
  {| sys := sys w; migrations_yaml := migrations_yaml w;
     log := log w ++ evs |}.

Definition consume (loc : Locals) : Locals :=
  {| all_migrations := all_migrations loc; accept_disclaimer := false |}.

(** The ids of the pending dependencies of a migration. *)
Definition dependencies_pending (loc : Locals) (migration : Migration)
  : result (list string) :=
  rbind (rmap (get_matching_migration (all_migrations loc))
           (dependencies migration))
    (fun deps =>
       Ok (map (id_of (all_migrations loc))
             (filter (fun dep =>
                        is_pending (state_of (all_migrations loc) dep) = true)
                deps))).

(** What the checks at the top of the loop body decide for a target. *)
Inductive Verdict :=
| NoSuchObject
| ToBeRanManually (m : Migration)
| UnknownDependency (m : Migration) (e : Exn)
| DependenciesPending (m : Migration) (ids : list string)
| NeedAcceptance (m : Migration)
| Performed (m : Migration) (loc : Locals).

Definition verdict (skip auto : bool) (i : nat) (loc : Locals) : Verdict :=
  match all_migrations loc !! i with
  | None => NoSuchObject
  | Some m =>
      if auto && String.eqb (mode m) "manual" then ToBeRanManually m
      else
        match (if negb skip then dependencies_pending loc m else Ok []) with
        | Raise e => UnknownDependency m e
        | Ok (x :: ids) => DependenciesPending m (x :: ids)
        | Ok [] =>
            if Py.truthy (disclaimer m) && negb skip then
              if accept_disclaimer loc then Performed m (consume loc)
              else NeedAcceptance m
            else Performed m loc
        end
  end.

Definition running (m : Migration) : LogEvent :=
  LogInfo (m18n_n "migrations_running_forward" [("id", id_ m)]).

Definition has_failed (m : Migration) (e : Exn) : Msg :=
  m18n_n "migrations_migration_has_failed"
    [("exception", exn_str e); ("id", id_ m)].

(** The messages that tell why a target was left aside. *)
Definition refusal (m : Migration) (v : Verdict) : list LogEvent :=
  match v with
  | ToBeRanManually _ =>
      [LogWarn (m18n_n "migrations_to_be_ran_manually" [("id", id_ m)])]
  | DependenciesPending _ ids =>
      [LogError (m18n_n "migrations_dependencies_not_satisfied"
                   [("id", id_ m); ("dependencies_id", Py.join_comma ids)])]
  | NeedAcceptance _ =>
      [LogWarn (m18n_n "migrations_need_to_accept_disclaimer"
                  [("id", id_ m);
                   ("disclaimer", default "" (disclaimer m))])]
  | _ => []
  end.

(** The world after a body ran and left the machine as [s]. *)
Definition after_body (s : Sys) (evs : list LogEvent) (w : World) : World :=
  {| sys := s; migrations_yaml := migrations_yaml w; log := log w ++ evs |}.

Definition after_write (s : Sys) (id st : string) (evs : list LogEvent)
  (w : World) : World :=
  {| sys := s;
     migrations_yaml := Some (<[id := st]> (tools_migrations_state w));
     log := log w ++ evs |}.

(** The three state conditions on which explicit targets are refused. *)
Definition refused_targets (skip force_rerun : bool)
  (all_migrations : list Migration) (targets : list nat) : bool :=
  let not_pending t := negb (is_pending (state_of all_migrations t)) in
  let pending t := is_pending (state_of all_migrations t) in
  (skip && existsb not_pending targets)
  || (force_rerun && existsb pending targets)
  || (negb skip && negb force_rerun && existsb not_pending targets).

(** The validation errors of [tools_migrations_run] about flags and
    target states. *)
Definition state_validation_error (e : Exn) : Prop :=
  exists key args,
    e = YunohostValidationError key args /\
    key ∈ ["migrations_exclusive_options";
           "migrations_not_pending_cant_skip";
           "migrations_pending_cant_rerun";
           "migrations_already_ran"].

(** A migration whose body raises. *)
Definition boom : Exn := PyException "RuntimeError" "boom".

Definition failing (id nm : string) (n : N) (st : string) : Migration :=
  {| id_ := id; number := n; name := nm; mode := "auto"; dependencies := [];
     disclaimer := None; run := fail_with boom; state := st |}.

Definition on_store (l : list Migration) (accept : bool) : Locals :=
  {| all_migrations := l; accept_disclaimer := accept |}.

(** A state file recording that 0001_foo was done. *)
Definition world_foo_done : World :=
  {| sys := sys0;
     migrations_yaml := Some (<["0001_foo" := "done"]> (∅ : gmap string string));
     log := [] |}.

(** ** Disclaimers *)

Definition carries_disclaimer (m : Migration) : Prop :=
  Py.truthy (disclaimer m) = true.

(** The ids whose body was started, read off the log. *)
Definition started_id (ev : LogEvent) : option string :=
  match ev with
  | LogInfo (key, [(_, id)]) =>
      if String.eqb key "migrations_running_forward" then Some id else None
  | _ => None
  end.

Definition executed (evs : list LogEvent) : list string :=
  omap started_id evs.

(** The log tells that the migration was left aside. *)
Definition refused_in (m : Migration) (evs : list LogEvent) : Prop :=
  exists v, refusal m v <> [] /\ refusal m v ⊆ evs.

(** The objects of [l'] are those of [l] up to their state, and those
    carrying a disclaimer are the same. *)
Definition disclaimers_kept (l l' : list Migration) : Prop :=
  forall j,
    match l !! j, l' !! j with
    | Some m, Some m' =>
        id_ m' = id_ m /\ disclaimer m' = disclaimer m /\
        (carries_disclaimer m -> m' = m)
    | None, None => True
    | _, _ => False
    end.

(** A pending migration that carries a disclaimer. *)
Definition warned (id nm : string) (n : N) (text : string) : Migration :=
  {| id_ := id; number := n; name := nm; mode := "auto"; dependencies := [];
     disclaimer := Some text; run := succeed; state := "pending" |}.

(** What a run without acceptance leaves behind, relative to the
    migration objects [l0] the run started from: it only adds to the log;
    every body it started belongs to a migration without disclaimer; the
    state entry of an id that only migrations with a disclaimer bear is
    as before; and when the loop comes to its end, the acceptance is
    still gone, the objects carrying a disclaimer are untouched, and each
    of them among the targets was logged as left aside. *)
Definition gated (l0 : list Migration) (targets : list nat)
  (w : World) (r : result Locals) (w' : World) : Prop :=
  exists evs,
    log w' = log w ++ evs /\
    (forall id, id ∈ executed evs ->
       exists m', m' ∈ l0 /\ id_ m' = id /\
                  Py.truthy (disclaimer m') = false) /\
    (forall k, (forall m', m' ∈ l0 -> id_ m' = k -> carries_disclaimer m') ->
       tools_migrations_state w' !! k = tools_migrations_state w !! k) /\
    (forall loc', r = Ok loc' ->
       accept_disclaimer loc' = false /\
       disclaimers_kept l0 (all_migrations loc') /\
       (forall j m0, j ∈ targets -> l0 !! j = Some m0 ->
          carries_disclaimer m0 -> refused_in m0 evs)).

(** ** A second run *)

(** The object as the registry annotates it from the mapping [states]. *)
Definition restate (states : gmap string string) (m : Migration)
  : Migration :=
  set_state (default "pending" (states !! id_ m)) m.

(** The state file has a decided state for the id. *)
Definition settled (w : World) (k : string) : Prop :=
  exists st, tools_migrations_state w !! k = Some st /\
             is_pending st = false.

Definition nothing_to_do : LogEvent :=
  LogInfo (m18n_n "migrations_no_migrations_to_run" []).

(** ** The wrapper *)

(** The machine as the wrapped body finds it, once [os.makedirs] has
    turned the tree into [f]. *)
Definition before_body (sh : Cmd -> FS -> FS) (f : FS) (s : Sys) : Sys :=
  let s := logger (LogInfo (m18n_n
             "migration_ldap_backup_before_migration" [])) s in
  os_system sh (SystemctlStart "slapd")
    (backup_before sh (premigration (clock s)) (set_fs f s)).

(** The paths the wrapper saves and restores. *)
Definition watched (q : Path) : bool :=
  is_under etc_ldap q || is_under var_lib_ldap q
  || is_under etc_yunohost_apps q.

(** A tree given by the list of its entries. *)
Fixpoint path_eqb (p q : Path) : bool :=
  match p, q with
  | [], [] => true
  | a :: p', b :: q' => String.eqb a b && path_eqb p' q'
  | _, _ => false
  end.

Fixpoint fs_of_list (l : list (Path * Node)) (q : Path) : option Node :=
  match l with
  | [] => None
  | (p, n) :: r => if path_eqb p q then Some n else fs_of_list r q
  end.

(** Every listed entry but the root has its parent listed as a
    directory. *)
Definition parents_listed (l : list (Path * Node)) : bool :=
  forallb (fun e : Path * Node =>
             match fst e with
             | [] => true
             | _ => match fs_of_list l (removelast (fst e)) with
                    | Some Dir => true
                    | _ => false
                    end
             end) l.

(** A machine with an LDAP database, and a body that drops a new file
    next to it before it fails. *)
Definition ldap_tree : list (Path * Node) :=
  [([], Dir); (["var"], Dir); (["var"; "lib"], Dir);
   (["var"; "lib"; "ldap"], Dir);
   (["var"; "lib"; "ldap"; "data.mdb"], File "entries")].

Definition sys_ldap : Sys :=
  {| fs := fs_of_list ldap_tree; slapd_started := true;
     clock := "20210101-000000"; journal := [] |}.

Definition lock_file : Path := ["var"; "lib"; "ldap"; "lock.mdb"].

Definition leave_lock_file (backup_folder : Path) (s : Sys)
  : Sys * option Exn :=
  (set_fs (fun q => if path_eqb q lock_file then Some (File "")
                    else fs s q) s,
   Some boom).

(** The tree of [sys_ldap] once the backup folder has been made. *)
Definition ldap_tree_with_backup_folder : FS :=
  fun q =>
    match fs sys_ldap q with
    | Some n => Some n
    | None =>
        if is_under q (premigration "20210101-000000") then Some Dir
        else None
    end.


(** * Further parts of the program *)

(** ** First-time initialisation *)

(** [_skip_all_migrations], called by [tools_postinstall]: the state
    file is replaced by a mapping built from the discovered migrations
    alone. *)
Definition _skip_all_migrations (env : Env) : M unit :=
  let! all_migrations := _get_migrations_list env in
  let new_states :=
    foldl (fun new_states migration =>
             <[id_ migration := "skipped"]> new_states)
      (∅ : gmap string string) all_migrations in
  set_yaml new_states.

(** ** The hooks run on a restore *)

(** The optional attributes a [MyMigration] class may declare for the
    restore of a backup, found by [hasattr] on the object. *)
Record RestoreHooks := mkHooks {
  introduced_in_version : option string;
  run_after_system_restore : option (Sys -> Sys * option Exn);
  run_before_app_restore : option (string -> Sys -> Sys * option Exn);
}.

Section RestoreHooks.
(** [packaging.version]: [version.parse], which turns any string into a
    version, and the comparisons of the versions it returns. *)
Context {Version : Type}.
Variable parse : string -> Version.
Variables version_eqb version_gtb : Version -> Version -> bool.
(** The attributes of the object with the given id, and
    [ynh_packages_version()["yunohost"]["version"]]. *)
Variable hooks : string -> RestoreHooks.
Variable installed_version : string.

(** The loop of both functions, [hook] being the call of the method. *)
Fixpoint restore_loop
  (hook : RestoreHooks -> option (Sys -> Sys * option Exn))
  (backup_version : Version) (migrations : list Migration) : M unit :=
  match migrations with
  | [] => ret tt
  | migration :: rest =>
      match introduced_in_version (hooks (id_ migration)),
            hook (hooks (id_ migration)) with
      | Some v, Some method =>
          if version_gtb (parse v) backup_version then
            do! emit (LogInfo (m18n_n "migrations_running_forward"
                                 [("id", id_ migration)])) in
            let! raised := call_body method in
            match raised with
            | Some e =>
                do! emit (LogError
                            (m18n_n "migrations_migration_has_failed"
                               [("exception", exn_str e);
                                ("id", id_ migration)])) in
                raise e
            | None => restore_loop hook backup_version rest
            end
          else restore_loop hook backup_version rest
      | _, _ => restore_loop hook backup_version rest
      end
  end.

Definition _tools_migrations_run_after_system_restore (env : Env)
  (backup_version : string) : M unit :=
  let! all_migrations := _get_migrations_list env in
  let current_version := parse installed_version in
  let backup_version := parse backup_version in
  if version_eqb backup_version current_version then ret tt
  else restore_loop run_after_system_restore backup_version all_migrations.

Definition _tools_migrations_run_before_app_restore (env : Env)
  (backup_version app_id : string) : M unit :=
  let! all_migrations := _get_migrations_list env in
  let current_version := parse installed_version in
  let backup_version := parse backup_version in
  if version_eqb backup_version current_version then ret tt
  else restore_loop
         (fun h => match run_before_app_restore h with
                   | Some method => Some (method app_id)
                   | None => None
                   end)
         backup_version all_migrations.

End RestoreHooks.

(** ** The domains of a dyndns provider ([src/yunohost/dyndns.py]) *)

(** [s.split(c)] for a one-character separator: the pieces between the
    separators, at least one. *)
Fixpoint py_split (c : ascii) (s : string) : list string :=
  match s with
  | EmptyString => [EmptyString]
  | String a r =>
      if Ascii.eqb a c then EmptyString :: py_split c r
      else match py_split c r with
           | x :: l => String a x :: l
           | [] => [String a EmptyString]
           end
  end.

(** [sep.join(l)] *)
Fixpoint py_join (sep : string) (l : list string) : string :=
  match l with
  | [] => EmptyString
  | [x] => x
  | x :: r => x ++ sep ++ py_join sep r
  end.

Definition dot : ascii := "."%char.

(** [".".join(domain.split(".")[1:])] *)
Definition dyndomain_of (domain : string) : string :=
  py_join "." (tail (py_split dot domain)).

(** [_dyndns_provides].  [download_json] is the request to the provider:
    the list of domains it answers, or the text of the
    [MoulinetteError]. *)
Definition _dyndns_provides (download_json : string -> list string + string)
  (provider domain : string) : M bool :=
  do! emit (LogDebug ("Checking if %s is managed by %s ...",
                      [("", domain); ("", provider)])) in
  match download_json ("https://" ++ provider ++ "/domains")%string with
  | inr e =>
      do! emit (LogError (e, [])) in
      raise (YunohostError "dyndns_could_not_check_provide"
               [("domain", domain); ("provider", provider)])
  | inl dyndomains =>
      let dyndomain := dyndomain_of domain in
      ret (bool_decide (dyndomain ∈ dyndomains))
  end.

(** ** Vocabulary of the further properties *)

(** The migration objects without their [state], the only attribute the
    run loop assigns. *)
Definition unstated (l : list Migration) : list Migration :=
  map (set_state "") l.

(** The states of the objects are those the state file gives. *)
Definition coherent (l : list Migration) (w : World) : Prop :=
  forall j m, l !! j = Some m ->
              state m = default "pending" (tools_migrations_state w !! id_ m).

(** What a run of the loop may add to the world [w], for the migration
    objects [l0] it started from: log entries, among which a body is
    started only without [skip], for a target, and in automatic mode not
    for a manual one; and state entries "done" or "skipped" for the ids
    of targets. *)
Definition footprint (skip auto : bool) (l0 : list Migration)
  (targets : list nat) (w w' : World) : Prop :=
  exists evs,
    log w' = log w ++ evs /\
    (forall id, id ∈ executed evs ->
       skip = false /\
       exists i m, i ∈ targets /\ l0 !! i = Some m /\ id_ m = id /\
                   (auto = true -> mode m <> "manual")) /\
    (forall k,
       tools_migrations_state w' !! k = tools_migrations_state w !! k \/
       ((tools_migrations_state w' !! k = Some "done" \/
         tools_migrations_state w' !! k = Some "skipped") /\
        exists i m, i ∈ targets /\ l0 !! i = Some m /\ id_ m = k)).


(** A pending migration that depends on others. *)
Definition dependent (id nm : string) (n : N) (deps : list string)
  : Migration :=
  {| id_ := id; number := n; name := nm; mode := "auto"; dependencies := deps;
     disclaimer := None; run := succeed; state := "pending" |}.


(** The relation [Migration.__init__] sets up between id and name. *)
Definition named (m : Migration) : Prop :=
  snd (Py.split_first (id_ m)) = Some (name m).


(** A shell in which every [cp] fails without copying anything, while
    [rm] works. *)
Definition sh_cp_fails (c : Cmd) (f : FS) : FS :=
  match c with
  | RmR p => sh_ideal (RmR p) f
  | _ => f
  end.


(** The string has no dot. *)
Definition no_dot (s : string) : bool :=
  forallb (fun c => negb (Ascii.eqb c dot)) (list_ascii_of_string s).



(** * Properties *)

(** ** The state store *)

Lemma tools_migrations_state_set_yaml (y : gmap string string) (w : World) :
  tools_migrations_state (snd (set_yaml y w)) = y.
Proof. reflexivity. Qed.

(** C8: writing the state of one migration re-reads the persisted
    mapping and stores it back with the given id mapped to the given
    state; every other id keeps the entry (or the absence of an entry) it
    had in the file just before, and nothing else of the world changes. *)
Theorem write_migration_state_read_modify_write
  (w : World) (migration_id st : string) :
  fst (_write_migration_state migration_id st w) = Ok tt /\
  (forall k : string,
     tools_migrations_state (snd (_write_migration_state migration_id st w))
       !! k
     = if decide (migration_id = k) then Some st
       else tools_migrations_state w !! k) /\
  sys (snd (_write_migration_state migration_id st w)) = sys w /\
  log (snd (_write_migration_state migration_id st w)) = log w.
Proof.
  unfold _write_migration_state.
  rewrite tools_migrations_state_set_yaml.
  repeat split.
  intros k. apply lookup_insert.
Qed.

(** ** Discovery *)

Lemma _load_migration_raises env f w e w' :
  _load_migration env f w = (Raise e, w') -> load_failure e.
Proof.
  unfold _load_migration, bind, emit, ret, raise. simpl.
  destruct (import_module env (Py.drop_last3 f)) as [cls|]; simpl.
  - destruct (Migration_init cls (Py.drop_last3 f)); intros [= <- <-];
      eexists; reflexivity.
  - intros [= <- <-]. eexists; reflexivity.
Qed.

Lemma load_all_raises env states files acc w e w' :
  load_all env states files acc w = (Raise e, w') -> load_failure e.
Proof.
  revert acc w. induction files as [|f files IH]; intros acc w; simpl.
  - discriminate.
  - unfold bind at 1.
    destruct (_load_migration env f w) as [[m|e0] w0] eqn:E.
    + apply IH.
    + intros [= <- <-]. eapply _load_migration_raises; eauto.
Qed.

Lemma _get_migrations_list_raises env w e w' :
  _get_migrations_list env w = (Raise e, w') -> load_failure e.
Proof.
  unfold _get_migrations_list.
  destruct (data_migrations env) as [|path|files].
  - discriminate.
  - discriminate.
  - unfold bind, ret.
    destruct (load_all _ _ _ _ w) as [[ms|e0] w0] eqn:E.
    + discriminate.
    + intros [= <- <-]. eapply load_all_raises; eauto.
Qed.

(** ** Listing *)

Lemma filter_bool_ext {A} (p q : A -> bool) (l : list A) :
  (forall x, p x = q x) ->
  filter (fun x => p x = true) l = filter (fun x => q x = true) l.
Proof.
  intros H. apply list_filter_iff. intros x. by rewrite H.
Qed.

Lemma negb_false_filter {A} (p : A -> bool) (l : list A) :
  filter (fun x => p x = false) l = filter (fun x => negb (p x) = true) l.
Proof.
  apply list_filter_iff. intros x. destruct (p x); simpl; split; congruence.
Qed.

Lemma filter_all_true {A} (l : list A) :
  filter (fun _ : A => true = true) l = l.
Proof.
  induction l as [|x l IH]; [done|].
  rewrite filter_cons. case_decide; [by rewrite IH|done].
Qed.

(** C10: with both flags the call raises the conflict error before
    anything is loaded or logged; otherwise it never raises that error,
    and when discovery succeeds it returns the listing, filtered as the
    flags ask: [done] keeps exactly the entries whose state is not
    "pending", so a skipped migration is kept. *)
Theorem tools_migrations_list_flags (env : Env) (w : World)
  (pending done : bool) :
  if pending && done then
    tools_migrations_list env pending done w
    = (Raise (YunohostValidationError
                "migrations_list_conflict_pending_done" []), w)
  else
    match _get_migrations_list env w with
    | (Raise e, w') =>
        tools_migrations_list env pending done w = (Raise e, w') /\
        load_failure e
    | (Ok migrations, w') =>
        tools_migrations_list env pending done w
        = (Ok (filter (fun i => keeps pending done i = true)
                 (map to_info migrations)), w') /\
        (forall m, m ∈ migrations -> state m = "skipped" ->
                   keeps false true (to_info m) = true)
    end.
Proof.
  unfold tools_migrations_list.
  destruct (pending && done) eqn:Hpd; [reflexivity|].
  unfold bind.
  destruct (_get_migrations_list env w) as [[ms|e] w'] eqn:E.
  - split.
    + unfold ret. f_equal. f_equal.
      destruct pending, done; try discriminate; simpl.
      * apply filter_bool_ext. intros i. reflexivity.
      * rewrite negb_false_filter. apply filter_bool_ext. reflexivity.
      * unfold keeps. simpl. by rewrite filter_all_true.
    + intros m _ Hs. unfold keeps, to_info. simpl. by rewrite Hs.
  - split; [reflexivity|]. by eapply _get_migrations_list_raises.
Qed.

(** ** Resolving a target *)

Lemma find_index_Some {A} (p : A -> bool) (l : list A) (k i : nat) :
  find_index p l k = Some i ->
  exists j x, i = k + j /\ l !! j = Some x /\ p x = true /\
              forall j' y, j' < j -> l !! j' = Some y -> p y = false.
Proof.
  revert k. induction l as [|x l IH]; intros k; simpl; [discriminate|].
  destruct (p x) eqn:Hp.
  - intros [= <-]. exists 0, x. repeat split; [lia|done|lia].
  - intros H. destruct (IH _ H) as (j & y & -> & Hj & Hy & Hmin).
    exists (S j), y. repeat split; [lia|done|done|].
    intros [|j'] z Hlt; simpl.
    + by intros [= <-].
    + apply Hmin. lia.
Qed.

Lemma find_index_None {A} (p : A -> bool) (l : list A) (k : nat) :
  find_index p l k = None -> Forall (fun x => p x = false) l.
Proof.
  revert k. induction l as [|x l IH]; intros k; simpl; [constructor|].
  destruct (p x) eqn:Hp; [discriminate|]. intros H. constructor; eauto.
Qed.

Lemma filter_singleton_first {A} (p : A -> bool) (l : list A) (j : nat)
  (x x0 : A) :
  filter (fun y => p y = true) l = [x0] ->
  l !! j = Some x -> p x = true -> x = x0.
Proof.
  intros Hf Hj Hp.
  assert (x ∈ filter (fun y => p y = true) l) as Hin.
  { apply list_elem_of_filter. split; [done|].
    apply list_elem_of_lookup. eauto. }
  rewrite Hf in Hin. by apply list_elem_of_singleton in Hin.
Qed.

(** C3 fails as stated: with the files 0001_foo.py and 0002_foo.py the
    target "foo" designates two migrations, and resolution returns the
    first of them instead of raising. *)
Lemma get_matching_migration_two_matches :
  fst (_get_migrations_list env_two_foo world0)
  = Ok [plain "0001_foo" "foo" 1 "pending"; plain "0002_foo" "foo" 2 "pending"]
  /\ count_matches "foo"
       [plain "0001_foo" "foo" 1 "pending"; plain "0002_foo" "foo" 2 "pending"]
     = 2
  /\ get_matching_migration
       [plain "0001_foo" "foo" 1 "pending"; plain "0002_foo" "foo" 2 "pending"]
       "foo"
     = Ok 0.
Proof. repeat split; vm_compute; reflexivity. Qed.

(** C3, amended: resolution raises the "no such migration" error exactly
    when no migration has the target as id, name or number prefix;
    otherwise it returns the first migration of the list that has, which
    is the designated one when exactly one matches. *)
Theorem get_matching_migration_first_match
  (all_migrations : list Migration) (target : string) :
  match get_matching_migration all_migrations target with
  | Raise e =>
      e = YunohostValidationError "migrations_no_such_migration"
            [("id", target)] /\
      count_matches target all_migrations = 0
  | Ok i =>
      exists m,
        all_migrations !! i = Some m /\ matches target m = true /\
        0 < count_matches target all_migrations /\
        (forall j m', j < i -> all_migrations !! j = Some m' ->
                      matches target m' = false) /\
        (forall m0, filter (fun x => matches target x = true) all_migrations
                    = [m0] -> m = m0)
  end.
Proof.
  unfold get_matching_migration, count_matches.
  destruct (find_index (matches target) all_migrations 0) as [i|] eqn:E.
  - destruct (find_index_Some _ _ _ _ E) as (j & m & -> & Hj & Hm & Hmin).
    simpl. exists m. repeat split; try done.
    + assert (m ∈ filter (fun x => matches target x = true) all_migrations)
        as Hin.
      { apply list_elem_of_filter. split; [done|].
        apply list_elem_of_lookup. eauto. }
      destruct (filter _ all_migrations); [by apply elem_of_nil in Hin|].
      simpl. lia.
    + intros m0 Hf. eapply filter_singleton_first; eauto.
  - split; [reflexivity|].
    apply find_index_None in E.
    induction E as [|x l Hx _ IH]; [done|].
    rewrite filter_cons. case_decide; [congruence|done].
Qed.

(** ** The order of the listing *)

Section InsertionSort.
Context {A : Type} (key : A -> string).

Let le (a b : A) : Prop := String.leb (key a) (key b) = true.

Lemma ltb_leb (s t : string) : String.ltb s t = true -> String.leb s t = true.
Proof. unfold String.ltb, String.leb. by destruct (String.compare s t). Qed.

Lemma not_ltb_leb (s t : string) :
  String.ltb s t = false -> String.leb t s = true.
Proof.
  unfold String.ltb, String.leb. rewrite (String.compare_antisym t s).
  by destruct (String.compare s t).
Qed.

Lemma insert_sorted_elem (x y : A) (l : list A) :
  y ∈ Py.insert_sorted key x l <-> y = x \/ y ∈ l.
Proof.
  induction l as [|z l IH]; simpl.
  - rewrite list_elem_of_singleton. rewrite elem_of_nil. tauto.
  - destruct (String.ltb (key z) (key x)).
    + rewrite !elem_of_cons, IH. tauto.
    + rewrite !elem_of_cons. tauto.
Qed.

Lemma insert_sorted_HdRel (x y : A) (l : list A) :
  le y x -> HdRel le y l -> HdRel le y (Py.insert_sorted key x l).
Proof.
  intros Hyx Hl. destruct l as [|z l]; simpl.
  - by constructor.
  - destruct (String.ltb (key z) (key x)).
    + constructor. by inversion Hl.
    + by constructor.
Qed.

Lemma insert_sorted_Sorted (x : A) (l : list A) :
  Sorted le l -> Sorted le (Py.insert_sorted key x l).
Proof.
  induction 1 as [|z l Hs IH Hd]; simpl.
  - repeat constructor.
  - destruct (String.ltb (key z) (key x)) eqn:E.
    + constructor; [done|].
      apply insert_sorted_HdRel; [|done]. by apply ltb_leb.
    + constructor; [by constructor|]. constructor. by apply not_ltb_leb.
Qed.

Lemma sorted_Sorted (l : list A) : Sorted le (Py.sorted key l).
Proof.
  induction l as [|x l IH]; simpl; [constructor|].
  by apply insert_sorted_Sorted.
Qed.

Lemma sorted_elem (y : A) (l : list A) : y ∈ Py.sorted key l <-> y ∈ l.
Proof.
  induction l as [|x l IH]; simpl; [done|].
  rewrite insert_sorted_elem, elem_of_cons, IH. tauto.
Qed.
End InsertionSort.

(** Decimal numerals of the same width compare as their values. *)

Lemma int_acc_shift (s : string) (acc : N) :
  (Py.int_acc acc s = acc * 10 ^ N.of_nat (String.length s) + Py.int_acc 0 s)%N.
Proof.
  revert acc. induction s as [|c s IH]; intros acc; simpl String.length.
  - simpl. lia.
  - cbn [Py.int_acc]. rewrite IH. rewrite (IH (10 * 0 + _)%N).
    rewrite Nat2N.inj_succ, N.pow_succ_r'. ring.
Qed.

Lemma is_digit_val (c : ascii) :
  Py.is_digit c = true -> (48 <= N_of_ascii c /\ Py.digit_val c <= 9)%N.
Proof.
  unfold Py.is_digit, Py.digit_val. cbv zeta.
  rewrite andb_true_iff, !N.leb_le. lia.
Qed.

Lemma int_acc_bound (s : string) :
  Py.all_digits s = true ->
  (Py.int_acc 0 s < 10 ^ N.of_nat (String.length s))%N.
Proof.
  induction s as [|c s IH]; simpl String.length.
  - intros _. simpl. lia.
  - unfold Py.all_digits. simpl. intros [Hc Hs]%andb_true_iff.
    cbn [Py.int_acc]. rewrite int_acc_shift.
    specialize (IH Hs). apply is_digit_val in Hc.
    rewrite Nat2N.inj_succ, N.pow_succ_r'. nia.
Qed.

Lemma digits_compare (da db ra rb : string) :
  String.length da = String.length db ->
  Py.all_digits da = true -> Py.all_digits db = true ->
  String.leb (da ++ ra) (db ++ rb) = true ->
  (Py.int_acc 0 da <= Py.int_acc 0 db)%N.
Proof.
  revert db. induction da as [|c s IH]; intros [|c' s'] Hlen;
    simpl in Hlen; try discriminate Hlen.
  - intros _ _ _. simpl. lia.
  - injection Hlen as Hlen. unfold Py.all_digits. simpl.
    intros [Hc Hs]%andb_true_iff [Hc' Hs']%andb_true_iff.
    unfold String.leb. simpl String.compare.
    cbn [Py.int_acc]. rewrite (int_acc_shift s), (int_acc_shift s').
    rewrite Hlen.
    pose proof (int_acc_bound s Hs) as Hb. rewrite Hlen in Hb.
    pose proof (int_acc_bound s' Hs') as Hb'.
    apply is_digit_val in Hc, Hc'.
    unfold Ascii.compare.
    destruct (N.compare_spec (N_of_ascii c) (N_of_ascii c')) as [He|Hlt|Hgt].
    + intros Hle. specialize (IH s' Hlen Hs Hs' Hle).
      unfold Py.digit_val. rewrite He. lia.
    + intros _. unfold Py.digit_val. nia.
    + discriminate.
Qed.

Lemma split_first_prefix (s : string) :
  exists r, s = (fst (Py.split_first s) ++ r)%string.
Proof.
  induction s as [|c s [r IH]]; simpl.
  - by exists "".
  - destruct (Ascii.eqb c Py.underscore).
    + by exists (String c s).
    + destruct (Py.split_first s) as [a b]. simpl in *. exists r.
      rewrite IH at 1. reflexivity.
Qed.

Lemma int_Some (s : string) (n : N) :
  Py.int s = Some n -> Py.all_digits s = true /\ n = Py.int_acc 0 s.
Proof.
  unfold Py.int. destruct s as [|c s]; [discriminate|].
  destruct (Py.all_digits (String c s)); [|discriminate].
  by intros [= <-].
Qed.

Lemma numbered_le (a b : Migration) :
  numbered a -> numbered b -> ordinal_width a = ordinal_width b ->
  id_le a b -> number_le a b.
Proof.
  unfold numbered, ordinal_width, id_le, number_le.
  intros [Da ->]%int_Some [Db ->]%int_Some Hw Hle.
  destruct (split_first_prefix (id_ a)) as [ra Ha].
  destruct (split_first_prefix (id_ b)) as [rb Hb].
  rewrite Ha, Hb in Hle. eapply digits_compare; eauto.
Qed.

Lemma Migration_init_numbered cls id m :
  Migration_init cls id = Ok m -> numbered m.
Proof.
  unfold Migration_init, numbered.
  destruct (Py.int (fst (Py.split_first id))) as [n|] eqn:E; [|discriminate].
  destruct (snd (Py.split_first id)); [|discriminate].
  by intros [= <-].
Qed.

Lemma _load_migration_numbered env f w m w' :
  _load_migration env f w = (Ok m, w') -> numbered m.
Proof.
  unfold _load_migration, bind, emit, ret, raise. simpl.
  destruct (import_module env (Py.drop_last3 f)) as [cls|]; simpl;
    [|discriminate].
  destruct (Migration_init cls (Py.drop_last3 f)) eqn:E; [|discriminate].
  intros [= <- <-]. by eapply Migration_init_numbered.
Qed.

Lemma load_all_numbered env states files acc w ms w' :
  Forall numbered acc ->
  load_all env states files acc w = (Ok ms, w') -> Forall numbered ms.
Proof.
  revert acc w. induction files as [|f files IH]; intros acc w Hacc; simpl.
  - by intros [= <- <-].
  - unfold bind at 1.
    destruct (_load_migration env f w) as [[m|e0] w0] eqn:E; [|discriminate].
    apply IH. apply Forall_app. split; [done|].
    constructor; [|constructor].
    by apply _load_migration_numbered in E.
Qed.

Lemma _get_migrations_list_inv env w ms w' :
  _get_migrations_list env w = (Ok ms, w') ->
  Sorted id_le ms /\ Forall numbered ms.
Proof.
  unfold _get_migrations_list.
  destruct (data_migrations env) as [|path|files].
  - intros [= <- <-]. split; constructor.
  - unfold bind, emit, ret. intros [= <- <-]. split; constructor.
  - unfold bind, ret.
    destruct (load_all _ _ _ _ w) as [[l|e0] w0] eqn:E; [|discriminate].
    intros [= <- <-]. split.
    + apply (sorted_Sorted id_).
    + apply load_all_numbered in E; [|constructor].
      apply Forall_forall. intros m Hm. apply sorted_elem in Hm.
      rewrite Forall_forall in E. by apply E.
Qed.

Lemma Sorted_number_le (k : nat) (l : list Migration) :
  Sorted id_le l -> Forall numbered l ->
  Forall (fun m => ordinal_width m = k) l -> Sorted number_le l.
Proof.
  induction 1 as [|a l Hs IH Hd]; intros Hn Hw; [constructor|].
  apply Forall_cons in Hn as [Hna Hn]. apply Forall_cons in Hw as [Hwa Hw].
  constructor; [by apply IH|].
  destruct Hd as [|b l Hab]; constructor.
  apply Forall_cons in Hn as [Hnb _]. apply Forall_cons in Hw as [Hwb _].
  apply numbered_le; congruence.
Qed.

(** C1 fails as stated: with the files 9_a.py and 10_b.py the listing
    puts "10_b" first, so the ordinals come out as 10, 9. *)
Lemma _get_migrations_list_not_by_number :
  fst (_get_migrations_list env_9_10 world0)
  = Ok [plain "10_b" "b" 10 "pending"; plain "9_a" "a" 9 "pending"]
  /\ ~ Sorted number_le
         [plain "10_b" "b" 10 "pending"; plain "9_a" "a" 9 "pending"].
Proof.
  split; [vm_compute; reflexivity|].
  intros H. apply Sorted_inv in H as [_ H]. apply HdRel_inv in H.
  unfold number_le in H. simpl in H. lia.
Qed.

(** C1, amended: the listing is sorted in ascending order of the ids,
    compared as strings; when the numeric prefixes of the listed ids all
    have the same number of digits, this is the ascending order of the
    integer ordinals. *)
Theorem _get_migrations_list_sorted_by_id
  (env : Env) (w w' : World) (migrations : list Migration) :
  _get_migrations_list env w = (Ok migrations, w') ->
  Sorted id_le migrations /\
  (forall k, Forall (fun m => ordinal_width m = k) migrations ->
             Sorted number_le migrations).
Proof.
  intros H. apply _get_migrations_list_inv in H as [Hs Hn].
  split; [done|]. intros k Hk. by eapply Sorted_number_le.
Qed.

Lemma _get_migrations_list_sorted_by_id_witness :
  Sorted id_le
    [plain "0001_foo" "foo" 1 "pending"; plain "0002_foo" "foo" 2 "pending"] /\
  (forall k,
     Forall (fun m => ordinal_width m = k)
       [plain "0001_foo" "foo" 1 "pending"; plain "0002_foo" "foo" 2 "pending"] ->
     Sorted number_le
       [plain "0001_foo" "foo" 1 "pending"; plain "0002_foo" "foo" 2 "pending"]).
Proof.
  eapply (_get_migrations_list_sorted_by_id env_two_foo world0).
  vm_compute. reflexivity.
Defined.

(** ** The run loop, iteration by iteration *)

Lemma add_log_nil (w : World) : add_log [] w = w.
Proof. destruct w. unfold add_log. simpl. by rewrite app_nil_r. Qed.

Lemma perform_run (i : nat) (m : Migration) (loc : Locals) (w : World) :
  perform false i m loc w =
  match run m (sys w) with
  | (s, Some e) =>
      (Ok loc,
       after_body s [OpStart operation; running m; LogError (has_failed m e);
                     OpError operation (has_failed m e)] w)
  | (s, None) =>
      (Ok (store_state i "done" loc),
       after_write s (id_ m) "done"
         [OpStart operation; running m;
          LogSuccess (m18n_n "migrations_success_forward" [("id", id_ m)]);
          OpSuccess operation] w)
  end.
Proof.
  unfold perform, bind, emit, call_body, ret, _write_migration_state, set_yaml.
  simpl. destruct (run m (sys w)) as [s [e|]]; simpl.
  - unfold after_body. simpl. by rewrite <- !app_assoc.
  - unfold after_write, tools_migrations_state. simpl.
    by rewrite <- !app_assoc.
Qed.

Lemma perform_skip (i : nat) (m : Migration) (loc : Locals) (w : World) :
  perform true i m loc w =
  (Ok (store_state i "skipped" loc),
   after_write (sys w) (id_ m) "skipped"
     [OpStart operation;
      LogWarn (m18n_n "migrations_skip_migration" [("id", id_ m)]);
      OpSuccess operation] w).
Proof.
  unfold perform, bind, emit, ret, _write_migration_state, set_yaml.
  simpl. unfold after_write, tools_migrations_state. simpl.
  by rewrite <- !app_assoc.
Qed.

Lemma migrate_one_verdict (skip auto : bool) (i : nat) (loc : Locals)
  (w : World) :
  migrate_one skip auto i loc w =
  match verdict skip auto i loc with
  | NoSuchObject => (Ok loc, w)
  | UnknownDependency _ e => (Raise e, w)
  | Performed m loc' => perform skip i m loc' w
  | (ToBeRanManually m | DependenciesPending m _ | NeedAcceptance m) as v =>
      (Ok loc, add_log (refusal m v) w)
  end.
Proof.
  unfold migrate_one, verdict.
  destruct (all_migrations loc !! i) as [m|]; [|reflexivity].
  destruct (auto && String.eqb (mode m) "manual"); [reflexivity|].
  destruct skip; simpl.
  - unfold bind, ret. simpl. rewrite andb_false_r. reflexivity.
  - unfold check_dependencies, dependencies_pending, bind, lift.
    destruct (rmap _ (dependencies m)) as [deps|e]; simpl; [|reflexivity].
    destruct (map _ (filter _ deps)) as [|x ids]; simpl.
    + unfold ret. simpl. rewrite andb_true_r.
      destruct (Py.truthy (disclaimer m)); [|reflexivity].
      destruct (accept_disclaimer loc); reflexivity.
    + reflexivity.
Qed.

Lemma run_loop_app (skip auto : bool) (a b : list nat) (loc : Locals)
  (w : World) :
  run_loop skip auto (a ++ b) loc w =
  match run_loop skip auto a loc w with
  | (Ok loc', w') => run_loop skip auto b loc' w'
  | (Raise e, w') => (Raise e, w')
  end.
Proof.
  revert loc w. induction a as [|i a IH]; intros loc w; simpl; [done|].
  unfold bind. destruct (migrate_one skip auto i loc w) as [[loc'|e] w'];
    [apply IH|done].
Qed.

Lemma verdict_Performed skip auto i loc m loc' :
  verdict skip auto i loc = Performed m loc' ->
  all_migrations loc !! i = Some m /\
  all_migrations loc' = all_migrations loc /\
  (accept_disclaimer loc' = accept_disclaimer loc \/
   accept_disclaimer loc' = false).
Proof.
  unfold verdict.
  destruct (all_migrations loc !! i) as [m0|]; [|discriminate].
  destruct (auto && _); [discriminate|].
  destruct (if negb skip then _ else _) as [[|x ids]|e]; try discriminate.
  destruct (Py.truthy (disclaimer m0) && negb skip).
  - destruct (accept_disclaimer loc); [|discriminate].
    intros [= <- <-]. simpl. auto.
  - intros [= <- <-]. auto.
Qed.

(** C5: when the checks let a target through and its body raises, the
    iteration ends normally: the body's effects on the machine stay, the
    migration objects and the persisted mapping are as before, the
    unit-of-work is closed with [error], and the loop goes on with the
    remaining targets. *)
Theorem run_failure_is_caught (auto : bool) (before rest : list nat)
  (i : nat) (loc0 loc loc' : Locals) (w0 w : World) (m : Migration)
  (s : Sys) (e : Exn) :
  run_loop false auto before loc0 w0 = (Ok loc, w) ->
  verdict false auto i loc = Performed m loc' ->
  run m (sys w) = (s, Some e) ->
  let w' := after_body s [OpStart operation; running m;
                          LogError (has_failed m e);
                          OpError operation (has_failed m e)] w in
  migrate_one false auto i loc w = (Ok loc', w') /\
  all_migrations loc' = all_migrations loc /\
  migrations_yaml w' = migrations_yaml w /\
  run_loop false auto (before ++ i :: rest) loc0 w0
  = run_loop false auto rest loc' w'.
Proof.
  intros Hbefore Hv Hrun w'.
  assert (migrate_one false auto i loc w = (Ok loc', w')) as Hone.
  { rewrite migrate_one_verdict, Hv, perform_run, Hrun. reflexivity. }
  destruct (verdict_Performed _ _ _ _ _ _ Hv) as (_ & Hall & _).
  repeat split; try done.
  rewrite run_loop_app, Hbefore. simpl. unfold bind. by rewrite Hone.
Qed.

Lemma run_failure_is_caught_witness :
  run_loop false false ([] ++ 0 :: [1])
    (on_store [failing "0001_a" "a" 1 "pending";
               plain "0002_b" "b" 2 "pending"] false) world0
  = run_loop false false [1]
      (on_store [failing "0001_a" "a" 1 "pending";
                 plain "0002_b" "b" 2 "pending"] false)
      (after_body sys0
         [OpStart operation; running (failing "0001_a" "a" 1 "pending");
          LogError (has_failed (failing "0001_a" "a" 1 "pending") boom);
          OpError operation
            (has_failed (failing "0001_a" "a" 1 "pending") boom)]
         world0).
Proof.
  exact (proj2 (proj2 (proj2
    (run_failure_is_caught false [] [1] 0
       (on_store [failing "0001_a" "a" 1 "pending";
                  plain "0002_b" "b" 2 "pending"] false)
       (on_store [failing "0001_a" "a" 1 "pending";
                  plain "0002_b" "b" 2 "pending"] false)
       (on_store [failing "0001_a" "a" 1 "pending";
                  plain "0002_b" "b" 2 "pending"] false)
       world0 world0
       (failing "0001_a" "a" 1 "pending") sys0 boom
       eq_refl eq_refl eq_refl)))).
Defined.

(** ** Validation of explicit targets *)

Lemma _load_migration_log env f w r w' :
  _load_migration env f w = (r, w') ->
  w' = add_log [LogDebug (m18n_n "migrations_loading_migration"
                            [("id", Py.drop_last3 f)])] w.
Proof.
  unfold _load_migration, bind, emit, ret, raise. simpl.
  destruct (import_module env (Py.drop_last3 f)) as [cls|]; simpl.
  - destruct (Migration_init cls (Py.drop_last3 f)); by intros [= <- <-].
  - by intros [= <- <-].
Qed.

Lemma load_all_log env states files acc w r w' :
  load_all env states files acc w = (r, w') ->
  exists evs, w' = add_log evs w.
Proof.
  revert acc w. induction files as [|f files IH]; intros acc w; simpl.
  - intros [= <- <-]. exists []. by rewrite add_log_nil.
  - unfold bind at 1.
    destruct (_load_migration env f w) as [[m|e] w1] eqn:E;
      apply _load_migration_log in E as ->.
    + intros H. apply IH in H as [evs ->].
      eexists (_ ++ evs). unfold add_log. simpl. by rewrite <- app_assoc.
    + intros [= <- <-]. eexists. reflexivity.
Qed.

Lemma _get_migrations_list_log env w r w' :
  _get_migrations_list env w = (r, w') -> exists evs, w' = add_log evs w.
Proof.
  unfold _get_migrations_list.
  destruct (data_migrations env) as [|path|files].
  - intros [= <- <-]. exists []. by rewrite add_log_nil.
  - unfold bind, emit, ret. intros [= <- <-]. eexists. reflexivity.
  - unfold bind, ret.
    destruct (load_all _ _ _ _ w) as [[l|e0] w0] eqn:E;
      intros [= <- <-]; by eapply load_all_log.
Qed.

Lemma existsb_filter_nonempty {A B} (p : A -> bool) (f : A -> B)
  (l : list A) :
  existsb p l = true -> map f (filter (fun x => p x = true) l) <> [].
Proof.
  induction l as [|x l IH]; simpl; [discriminate|].
  rewrite filter_cons. destruct (p x) eqn:Hp; simpl.
  - by intros _.
  - done.
Qed.

(** C6: with explicit targets that all resolve, the call raises a
    validation error when [skip] is set and a target is not pending,
    when [force_rerun] is set and a target is pending, and when neither
    is set and a target is not pending.  The error leaves the world as
    discovery left it: the machine and the state file are untouched and
    no migration was started. *)
Theorem tools_migrations_run_rejects_targets (env : Env)
  (targets : list string) (skip auto force_rerun accept : bool)
  (w w1 : World) (all : list Migration) (resolved : list nat) :
  targets <> [] ->
  _get_migrations_list env w = (Ok all, w1) ->
  rmap (get_matching_migration all) targets = Ok resolved ->
  refused_targets skip force_rerun all resolved = true ->
  exists e,
    tools_migrations_run env targets skip auto force_rerun accept w
    = (Raise e, w1) /\
    state_validation_error e /\
    sys w1 = sys w /\ migrations_yaml w1 = migrations_yaml w.
Proof.
  intros Hne Hlist Hres Href.
  destruct (_get_migrations_list_log _ _ _ _ Hlist) as [evs ->].
  unfold tools_migrations_run, bind. rewrite Hlist.
  destruct (Nat.ltb 1 _) eqn:Hflags.
  - eexists. split; [reflexivity|]. split; [|done].
    eexists _, _. split; [reflexivity|]. set_solver.
  - unfold lift, select_targets.
    destruct targets as [|t targets]; [done|]. rewrite Hres. simpl rbind.
    unfold refused_targets in Href.
    assert (forall p : nat -> bool,
              existsb p resolved = true ->
              bool_decide (map (id_of all)
                             (filter (fun x => p x = true) resolved) = [])
              = false) as Hdec.
    { intros p Hp. apply bool_decide_eq_false.
      by apply existsb_filter_nonempty. }
    assert (filter (fun t0 => is_pending (state_of all t0) = false) resolved
            = filter (fun t0 => negb (is_pending (state_of all t0)) = true)
                resolved) as Hfilter.
    { apply negb_false_filter. }
    rewrite Hfilter.
    destruct skip, force_rerun, auto; simpl in Hflags; try discriminate;
      simpl in Href; rewrite ?orb_false_r in Href;
      rewrite ?(Hdec _ Href); simpl.
    all: eexists; (split; [reflexivity|]); (split; [|done]).
    all: eexists _, _; (split; [reflexivity|]); set_solver.
Qed.

Lemma tools_migrations_run_rejects_targets_witness :
  exists e,
    tools_migrations_run env_two_foo ["0001_foo"] true false false false
      world_foo_done
    = (Raise e, snd (_get_migrations_list env_two_foo world_foo_done)) /\
    state_validation_error e /\
    sys (snd (_get_migrations_list env_two_foo world_foo_done))
    = sys world_foo_done /\
    migrations_yaml (snd (_get_migrations_list env_two_foo world_foo_done))
    = migrations_yaml world_foo_done.
Proof.
  eapply (tools_migrations_run_rejects_targets env_two_foo ["0001_foo"]
            true false false false world_foo_done).
  - discriminate.
  - vm_compute. reflexivity.
  - vm_compute. reflexivity.
  - vm_compute. reflexivity.
Defined.

(** ** Disclaimers are accepted once *)

Lemma disclaimers_kept_refl (l : list Migration) : disclaimers_kept l l.
Proof. intros j. destruct (l !! j); auto. Qed.

Lemma disclaimers_kept_alter (l l' : list Migration) (i : nat) (st : string)
  (m : Migration) :
  disclaimers_kept l l' -> l' !! i = Some m ->
  Py.truthy (disclaimer m) = false ->
  disclaimers_kept l (alter (set_state st) i l').
Proof.
  intros Hk Hi Hd j. specialize (Hk j).
  destruct (decide (i = j)) as [<-|Hne].
  - rewrite list_lookup_alter_eq, Hi. rewrite Hi in Hk. simpl.
    destruct (l !! i) as [m0|]; [|done].
    destruct Hk as (Hid & Hdis & _). repeat split; try done.
    unfold carries_disclaimer. rewrite <- Hdis, Hd. discriminate.
  - by rewrite list_lookup_alter_ne.
Qed.

Lemma verdict_lookup (skip auto : bool) (i : nat) (loc : Locals) :
  match verdict skip auto i loc with
  | NoSuchObject => all_migrations loc !! i = None
  | ToBeRanManually m | UnknownDependency m _ | DependenciesPending m _
  | NeedAcceptance m | Performed m _ => all_migrations loc !! i = Some m
  end.
Proof.
  unfold verdict. destruct (all_migrations loc !! i) as [m|]; [|done].
  destruct (auto && _); [done|].
  destruct (if negb skip then _ else _) as [[|x ids]|e]; try done.
  destruct (Py.truthy (disclaimer m) && negb skip); [|done].
  by destruct (accept_disclaimer loc).
Qed.

Lemma verdict_no_acceptance (auto : bool) (i : nat) (loc loc' : Locals)
  (m : Migration) :
  accept_disclaimer loc = false ->
  verdict false auto i loc = Performed m loc' ->
  loc' = loc /\ Py.truthy (disclaimer m) = false.
Proof.
  intros Hacc. unfold verdict.
  destruct (all_migrations loc !! i) as [m0|]; [|discriminate].
  destruct (auto && _); [discriminate|].
  destruct (if negb false then _ else _) as [[|x ids]|e]; try discriminate.
  rewrite Hacc. simpl. rewrite andb_true_r.
  destruct (Py.truthy (disclaimer m0)) eqn:Hd; [discriminate|].
  by intros [= <- <-].
Qed.

Lemma verdict_consumed (auto : bool) (i : nat) (loc : Locals) (m : Migration) :
  accept_disclaimer loc = true ->
  verdict false auto i loc = Performed m (consume loc) ->
  carries_disclaimer m.
Proof.
  intros Hacc. unfold verdict, carries_disclaimer.
  destruct (all_migrations loc !! i) as [m0|]; [|discriminate].
  destruct (auto && _); [discriminate|].
  destruct (if negb false then _ else _) as [[|x ids]|e]; try discriminate.
  rewrite Hacc. simpl. rewrite andb_true_r.
  destruct (Py.truthy (disclaimer m0)) eqn:Hd.
  - by intros [= <-].
  - intros [= _ Hloc]. destruct loc as [l a]. simpl in *.
    unfold consume in Hloc. simpl in Hloc. congruence.
Qed.

Lemma gated_step (auto : bool) (i : nat) (l0 : list Migration)
  (loc : Locals) (w : World) (r : result Locals) (w1 : World) :
  accept_disclaimer loc = false ->
  disclaimers_kept l0 (all_migrations loc) ->
  migrate_one false auto i loc w = (r, w1) ->
  gated l0 [i] w r w1.
Proof.
  intros Hacc Hkept. rewrite migrate_one_verdict.
  pose proof (verdict_lookup false auto i loc) as Hlook.
  pose proof (Hkept i) as Hi.
  assert (forall m v (evs : list LogEvent),
            all_migrations loc !! i = Some m ->
            refusal m v <> [] -> refusal m v ⊆ evs ->
            forall j m0, j ∈ [i] -> l0 !! j = Some m0 ->
                         carries_disclaimer m0 -> refused_in m0 evs)
    as Hrefused.
  { intros m v evs Hm Hne Hsub j m0 ->%list_elem_of_singleton Hm0 Hc.
    rewrite Hm0, Hm in Hi. destruct Hi as (_ & _ & Heq).
    rewrite (Heq Hc) in *. by exists v. }
  assert (forall id : string, id ∈ @nil string ->
            exists m', m' ∈ l0 /\ id_ m' = id /\
                       Py.truthy (disclaimer m') = false) as Hnone.
  { intros id Hid. by apply elem_of_nil in Hid. }
  unfold gated.
  destruct (verdict false auto i loc) as [|m|m e|m ids|m|m loc1] eqn:Hv.
  - intros [= <- <-]. exists []. rewrite app_nil_r.
    split; [done|]. split; [done|]. split; [done|].
    intros loc' [= <-]. split; [done|]. split; [done|].
    intros j m0 ->%list_elem_of_singleton Hm0.
    by rewrite Hm0, Hlook in Hi.
  - intros [= <- <-]. eexists. split; [reflexivity|].
    split; [done|]. split; [done|].
    intros loc' [= <-]. split; [done|]. split; [done|].
    by eapply (Hrefused m (ToBeRanManually m)).
  - intros [= <- <-]. exists []. rewrite app_nil_r.
    split; [done|]. split; [done|]. split; [done|]. discriminate.
  - intros [= <- <-]. eexists. split; [reflexivity|].
    split; [done|]. split; [done|].
    intros loc' [= <-]. split; [done|]. split; [done|].
    by eapply (Hrefused m (DependenciesPending m ids)).
  - intros [= <- <-]. eexists. split; [reflexivity|].
    split; [done|]. split; [done|].
    intros loc' [= <-]. split; [done|]. split; [done|].
    by eapply (Hrefused m (NeedAcceptance m)).
  - destruct (verdict_no_acceptance _ _ _ _ _ Hacc Hv) as [-> Hd].
    rewrite Hlook in Hi.
    destruct (l0 !! i) as [m0|] eqn:Hm0; [|done].
    destruct Hi as (Hid & Hdis & _).
    assert (forall id, id ∈ [id_ m] ->
              exists m', m' ∈ l0 /\ id_ m' = id /\
                         Py.truthy (disclaimer m') = false) as Hexec.
    { intros id ->%list_elem_of_singleton. exists m0.
      split; [by eapply list_elem_of_lookup_2|]. split; [done|].
      by rewrite <- Hdis. }
    assert (~ carries_disclaimer m0) as Hnot.
    { unfold carries_disclaimer. rewrite <- Hdis, Hd. discriminate. }
    assert (forall (evs : list LogEvent) j m1,
              j ∈ [i] -> l0 !! j = Some m1 -> carries_disclaimer m1 ->
              refused_in m1 evs) as Hvoid.
    { intros evs j m1 ->%list_elem_of_singleton Hm1 Hc.
      rewrite Hm0 in Hm1. injection Hm1 as <-. by destruct Hnot. }
    rewrite perform_run. destruct (run m (sys w)) as [s [e|]].
    + intros [= <- <-]. eexists. split; [reflexivity|].
      split; [exact Hexec|]. split; [done|].
      intros loc' [= <-]. split; [done|]. split; [done|]. apply Hvoid.
    + intros [= <- <-]. eexists. split; [reflexivity|].
      split; [exact Hexec|]. split.
      * intros k Hk. unfold after_write, tools_migrations_state at 1. simpl.
        apply lookup_insert_ne. intros <-.
        destruct Hnot. apply Hk; [|done].
        by eapply list_elem_of_lookup_2.
      * intros loc' [= <-]. split; [done|].
        split; [by eapply disclaimers_kept_alter|]. apply Hvoid.
Qed.

Lemma refused_in_app (m : Migration) (evs1 evs2 : list LogEvent) :
  refused_in m evs1 \/ refused_in m evs2 -> refused_in m (evs1 ++ evs2).
Proof.
  intros [(v & Hne & Hsub)|(v & Hne & Hsub)]; exists v; (split; [done|]);
    intros ev Hev; apply elem_of_app; [left|right]; by apply Hsub.
Qed.

Lemma gated_loop (auto : bool) (l0 : list Migration) (targets : list nat) :
  forall (loc : Locals) (w : World) (r : result Locals) (w' : World),
    accept_disclaimer loc = false ->
    disclaimers_kept l0 (all_migrations loc) ->
    run_loop false auto targets loc w = (r, w') ->
    gated l0 targets w r w'.
Proof.
  induction targets as [|i rest IH]; intros loc w r w' Hacc Hkept; simpl.
  - intros [= <- <-]. exists []. rewrite app_nil_r.
    split; [done|]. split; [|split; [done|]].
    + intros id Hid. by apply elem_of_nil in Hid.
    + intros loc' [= <-]. split; [done|]. split; [done|].
      intros j m0 Hj. by apply elem_of_nil in Hj.
  - unfold bind.
    destruct (migrate_one false auto i loc w) as [[loc1|e] w1] eqn:E;
      apply gated_step with (l0 := l0) in E; try done;
      destruct E as (evs1 & Hlog1 & Hex1 & Hst1 & Hok1).
    + destruct (Hok1 loc1 eq_refl) as (Hacc1 & Hkept1 & Href1).
      intros Hrest. apply IH in Hrest; try done.
      destruct Hrest as (evs2 & Hlog2 & Hex2 & Hst2 & Hok2).
      exists (evs1 ++ evs2). split; [by rewrite Hlog2, Hlog1, app_assoc|].
      split; [|split].
      * intros id. unfold executed. rewrite omap_app, elem_of_app.
        intros [?|?]; [by apply Hex1|by apply Hex2].
      * intros k Hk. by rewrite Hst2, Hst1.
      * intros loc' Hr. destruct (Hok2 loc' Hr) as (Hacc2 & Hkept2 & Href2).
        split; [done|]. split; [done|].
        intros j m0 [->|Hj]%elem_of_cons Hm0 Hc; apply refused_in_app.
        -- left. eapply Href1; [|done..]. apply list_elem_of_singleton.
           reflexivity.
        -- right. by eapply Href2.
    + intros [= <- <-]. exists evs1. split; [done|]. split; [done|].
      split; [done|]. discriminate.
Qed.

(** C4: in a run without [skip], once a target carrying a disclaimer
    gets through the checks while the acceptance is still available, its
    body runs and the acceptance is gone; in the rest of the run no body
    of a migration carrying a disclaimer is started, the state entries
    and the objects of such migrations stay as they were, and each such
    target the loop comes to is left aside with a logged warning or
    error. *)
Theorem disclaimer_accepted_once (auto : bool) (before rest : list nat)
  (i : nat) (loc0 loc : Locals) (w0 w : World) (m : Migration) :
  run_loop false auto before loc0 w0 = (Ok loc, w) ->
  accept_disclaimer loc = true ->
  verdict false auto i loc = Performed m (consume loc) ->
  exists loc1 w1,
    carries_disclaimer m /\
    migrate_one false auto i loc w = (Ok loc1, w1) /\
    sys w1 = fst (run m (sys w)) /\
    running m ∈ log w1 /\
    accept_disclaimer loc1 = false /\
    run_loop false auto (before ++ i :: rest) loc0 w0
    = run_loop false auto rest loc1 w1 /\
    gated (all_migrations loc1) rest w1
      (fst (run_loop false auto rest loc1 w1))
      (snd (run_loop false auto rest loc1 w1)).
Proof.
  intros Hbefore Hacc Hv.
  pose proof (verdict_consumed _ _ _ _ Hacc Hv) as Hc.
  assert (exists loc1 w1,
            migrate_one false auto i loc w = (Ok loc1, w1) /\
            sys w1 = fst (run m (sys w)) /\ running m ∈ log w1 /\
            accept_disclaimer loc1 = false) as (loc1 & w1 & Hone & H1 & H2 & H3).
  { rewrite migrate_one_verdict, Hv, perform_run.
    destruct (run m (sys w)) as [s [e|]]; eexists _, _;
      (split; [reflexivity|]); simpl; (split; [done|]); (split; [|done]);
      apply elem_of_app; right; set_solver. }
  exists loc1, w1. repeat (split; [done|]). split.
  - rewrite run_loop_app, Hbefore. simpl. unfold bind. by rewrite Hone.
  - apply (gated_loop auto _ rest loc1 w1);
      [done|apply disclaimers_kept_refl|].
    by destruct (run_loop false auto rest loc1 w1).
Qed.

Lemma disclaimer_accepted_once_witness :
  exists loc1 w1,
    carries_disclaimer (warned "0001_a" "a" 1 "this will break the mail") /\
    migrate_one false false 0
      (on_store [warned "0001_a" "a" 1 "this will break the mail";
                 warned "0002_b" "b" 2 "this will take hours"] true) world0
    = (Ok loc1, w1) /\
    sys w1 = fst (run (warned "0001_a" "a" 1 "this will break the mail")
                    (sys world0)) /\
    running (warned "0001_a" "a" 1 "this will break the mail") ∈ log w1 /\
    accept_disclaimer loc1 = false /\
    run_loop false false ([] ++ 0 :: [1])
      (on_store [warned "0001_a" "a" 1 "this will break the mail";
                 warned "0002_b" "b" 2 "this will take hours"] true) world0
    = run_loop false false [1] loc1 w1 /\
    gated (all_migrations loc1) [1] w1
      (fst (run_loop false false [1] loc1 w1))
      (snd (run_loop false false [1] loc1 w1)).
Proof.
  apply (disclaimer_accepted_once false [] [1] 0
           (on_store [warned "0001_a" "a" 1 "this will break the mail";
                      warned "0002_b" "b" 2 "this will take hours"] true)
           (on_store [warned "0001_a" "a" 1 "this will break the mail";
                      warned "0002_b" "b" 2 "this will take hours"] true)
           world0 world0 (warned "0001_a" "a" 1 "this will break the mail")).
  - reflexivity.
  - reflexivity.
  - reflexivity.
Defined.

(** ** Running twice *)

Lemma _load_migration_any_world env f w r w' (w1 : World) :
  _load_migration env f w = (r, w') ->
  _load_migration env f w1
  = (r, add_log [LogDebug (m18n_n "migrations_loading_migration"
                             [("id", Py.drop_last3 f)])] w1).
Proof.
  unfold _load_migration, bind, emit, ret, raise. simpl.
  destruct (import_module env (Py.drop_last3 f)) as [cls|]; simpl.
  - destruct (Migration_init cls (Py.drop_last3 f)); by intros [= <- _].
  - by intros [= <- _].
Qed.

Lemma load_all_any_world env states files :
  forall acc w l w',
    load_all env states files acc w = (Ok l, w') ->
    exists evs,
      w' = add_log evs w /\
      forall states1 w1,
        load_all env states1 files (map (restate states1) acc) w1
        = (Ok (map (restate states1) l), add_log evs w1).
Proof.
  induction files as [|f files IH]; intros acc w l w'; simpl.
  - intros [= <- <-]. exists []. split; [by rewrite add_log_nil|].
    intros states1 w1. by rewrite add_log_nil.
  - unfold bind at 1.
    destruct (_load_migration env f w) as [[m|e] wf] eqn:E; [|discriminate].
    pose proof (_load_migration_log _ _ _ _ _ E) as ->.
    intros H. apply IH in H as (evs & -> & Hany).
    eexists (_ ++ evs). split.
    { unfold add_log. simpl. by rewrite <- app_assoc. }
    intros states1 w1. unfold bind.
    rewrite (_load_migration_any_world _ _ _ _ _ w1 E).
    specialize (Hany states1
      (add_log [LogDebug (m18n_n "migrations_loading_migration"
                            [("id", Py.drop_last3 f)])] w1)).
    rewrite map_app in Hany. etrans; [exact Hany|].
    unfold add_log. simpl. by rewrite <- app_assoc.
Qed.

Lemma insert_sorted_map (f : Migration -> Migration) x l :
  (forall m, id_ (f m) = id_ m) ->
  Py.insert_sorted id_ (f x) (map f l) = map f (Py.insert_sorted id_ x l).
Proof.
  intros Hf. induction l as [|y l IH]; simpl; [done|].
  rewrite !Hf. destruct (String.ltb (id_ y) (id_ x)); simpl; [|done].
  by rewrite IH.
Qed.

Lemma sorted_map (f : Migration -> Migration) l :
  (forall m, id_ (f m) = id_ m) ->
  Py.sorted id_ (map f l) = map f (Py.sorted id_ l).
Proof.
  intros Hf. unfold Py.sorted. induction l as [|x l IH]; simpl; [done|].
  rewrite IH. by apply insert_sorted_map.
Qed.

Lemma _get_migrations_list_any_world env w all w' :
  _get_migrations_list env w = (Ok all, w') ->
  exists evs,
    w' = add_log evs w /\
    forall w1,
      _get_migrations_list env w1
      = (Ok (map (restate (tools_migrations_state w1)) all), add_log evs w1).
Proof.
  unfold _get_migrations_list.
  destruct (data_migrations env) as [|path|files].
  - intros [= <- <-]. exists []. split; [by rewrite add_log_nil|].
    intros w1. by rewrite add_log_nil.
  - unfold bind, emit, ret. intros [= <- <-]. eexists. split; reflexivity.
  - unfold bind, ret.
    destruct (load_all _ _ _ _ w) as [[l|e0] w0] eqn:E; [|discriminate].
    intros [= <- <-].
    apply load_all_any_world in E as (evs & -> & Hany).
    exists evs. split; [done|]. intros w1.
    specialize (Hany (tools_migrations_state w1) w1). simpl in Hany.
    rewrite Hany. by rewrite sorted_map.
Qed.

Lemma settled_after_write s id st evs w k :
  is_pending st = false -> settled w k -> settled (after_write s id st evs w) k.
Proof.
  intros Hst (st0 & Hk & Hp). unfold settled, after_write.
  unfold tools_migrations_state at 1. simpl.
  destruct (decide (id = k)) as [<-|Hne].
  - exists st. by rewrite lookup_insert_eq.
  - exists st0. by rewrite lookup_insert_ne.
Qed.

Lemma migrate_one_settled skip auto i loc w r w' k :
  migrate_one skip auto i loc w = (r, w') -> settled w k -> settled w' k.
Proof.
  rewrite migrate_one_verdict.
  destruct (verdict skip auto i loc) as [|m|m e|m ids|m|m loc1];
    try (by intros [= <- <-]).
  destruct skip.
  - rewrite perform_skip. intros [= <- <-]. by apply settled_after_write.
  - rewrite perform_run. destruct (run m (sys w)) as [s [e|]];
      intros [= <- <-]; [done|]. by apply settled_after_write.
Qed.

Lemma run_loop_settled skip auto targets k :
  forall loc w r w',
    run_loop skip auto targets loc w = (r, w') -> settled w k -> settled w' k.
Proof.
  induction targets as [|i rest IH]; intros loc w r w'; simpl.
  - by intros [= <- <-].
  - unfold bind.
    destruct (migrate_one skip auto i loc w) as [[loc1|e] w1] eqn:E.
    + intros H Hs. eapply IH; [done|]. by eapply migrate_one_settled.
    + intros [= <- <-]. by eapply migrate_one_settled.
Qed.

Lemma indices_where_none {A} (p : A -> bool) (l : list A) (i : nat) :
  Forall (fun x => p x = false) l -> indices_where p l i = [].
Proof.
  intros H. revert i. induction H as [|x l Hx _ IH]; intros i; simpl; [done|].
  by rewrite Hx.
Qed.

Lemma tools_migrations_run_settled env targets skip auto force_rerun accept
  w r w' k :
  tools_migrations_run env targets skip auto force_rerun accept w = (r, w') ->
  settled w k -> settled w' k.
Proof.
  unfold tools_migrations_run, bind.
  destruct (_get_migrations_list env w) as [[all|e] wa] eqn:E.
  - destruct (_get_migrations_list_log _ _ _ _ E) as [evs ->].
    destruct (Nat.ltb 1 _); [by intros [= <- <-]|].
    unfold lift.
    destruct (select_targets all targets skip force_rerun) as [[|t ts]|e];
      try (by intros [= <- <-]).
    destruct (run_loop skip auto (t :: ts) _ (add_log evs w))
      as [[loc|e] w2] eqn:El; intros [= <- <-] Hs;
      eapply run_loop_settled; eauto.
  - destruct (_get_migrations_list_log _ _ _ _ E) as [evs ->].
    by intros [= <- <-].
Qed.

(** C9: after a run without targets that left every migration it found
    pending marked as done, a run without targets and without [skip] or
    [force_rerun] finds no pending migration: it reports that there is
    nothing to do and returns, and the world differs from the one it
    started in by the log only. *)
Theorem second_run_is_noop (env : Env) (auto accept auto' accept' : bool)
  (w wa w1 : World) (all : list Migration) :
  _get_migrations_list env w = (Ok all, wa) ->
  tools_migrations_run env [] false auto false accept w = (Ok tt, w1) ->
  Forall (fun m => is_pending (state m) = true ->
                   tools_migrations_state w1 !! id_ m = Some "done") all ->
  exists evs,
    wa = add_log evs w /\
    select_targets (map (restate (tools_migrations_state w1)) all) []
      false false = Ok [] /\
    tools_migrations_run env [] false auto' false accept' w1
    = (Ok tt, add_log (evs ++ [nothing_to_do]) w1).
Proof.
  intros Hlist Hrun Hdone.
  destruct (_get_migrations_list_any_world _ _ _ _ Hlist) as (evs & -> & Hany).
  exists evs. split; [done|].
  assert (Forall (fun m => is_pending (state m) = false)
            (map (restate (tools_migrations_state w1)) all)) as Hnone.
  { pose proof (Hany w) as Hw. rewrite Hlist in Hw. injection Hw as Hall.
    apply Forall_forall. intros m1 Hm1.
    apply list_elem_of_fmap in Hm1 as (m & -> & Hm).
    rewrite Forall_forall in Hdone. specialize (Hdone m Hm).
    simpl. destruct (is_pending (state m)) eqn:Hp.
    - by rewrite (Hdone eq_refl).
    - assert (settled w1 (id_ m)) as (st & Hst & Hst').
      { eapply tools_migrations_run_settled; [exact Hrun|].
        rewrite Hall in Hm.
        apply list_elem_of_fmap in Hm as (m0 & -> & Hm0).
        simpl in *.
        destruct (tools_migrations_state w !! id_ m0) as [st|] eqn:Hl;
          [by exists st|done]. }
      by rewrite Hst. }
  assert (select_targets (map (restate (tools_migrations_state w1)) all) []
            false false = Ok []) as Hsel.
  { simpl. by rewrite indices_where_none. }
  split; [done|].
  unfold tools_migrations_run, bind. rewrite (Hany w1).
  replace (Nat.ltb 1 (b2n auto' + b2n false + b2n false)) with false
    by by destruct auto'.
  unfold lift. rewrite Hsel. unfold emit, ret, add_log, nothing_to_do. simpl.
  by rewrite <- app_assoc.
Qed.

Lemma second_run_is_noop_witness :
  exists evs,
    snd (_get_migrations_list env_two_foo world0) = add_log evs world0 /\
    select_targets
      (map (restate
              (tools_migrations_state
                 (snd (tools_migrations_run env_two_foo [] false false false
                         false world0))))
         [plain "0001_foo" "foo" 1 "pending";
          plain "0002_foo" "foo" 2 "pending"]) [] false false = Ok [] /\
    tools_migrations_run env_two_foo [] false false false false
      (snd (tools_migrations_run env_two_foo [] false false false false
              world0))
    = (Ok tt,
       add_log (evs ++ [nothing_to_do])
         (snd (tools_migrations_run env_two_foo [] false false false false
                 world0))).
Proof.
  apply (second_run_is_noop env_two_foo false false false false world0
           (snd (_get_migrations_list env_two_foo world0))
           (snd (tools_migrations_run env_two_foo [] false false false false
                   world0))
           [plain "0001_foo" "foo" 1 "pending";
            plain "0002_foo" "foo" 2 "pending"]).
  - vm_compute. reflexivity.
  - vm_compute. reflexivity.
  - repeat constructor; intros _; vm_compute; reflexivity.
Defined.

(** ** The wrapper and the service *)

(** C7: whatever the file commands do, the wrapper's last action on the
    service is a start on every exit path.  When the backup folder
    cannot be made the start of the [finally] clause has run at the
    exit; the body begins with the service started; when the body
    raises, the rollback ends with the service started and the error of
    the body goes on; when the body returns, the wrapper does not touch
    the service any more. *)
Theorem ldap_migration_service_started (sh : Cmd -> FS -> FS)
  (run : Path -> Sys -> Sys * option Exn) (s : Sys) :
  match makedirs (premigration (clock s)) (fs s) with
  | Raise e0 =>
      slapd_started (fst (ldap_migration sh run s)) = true /\
      snd (ldap_migration sh run s)
      = Some (YunohostError "migration_ldap_can_not_backup_before_migration"
                [("error", exn_str e0)])
  | Ok f =>
      slapd_started (before_body sh f s) = true /\
      match run (premigration (clock s)) (before_body sh f s) with
      | (s2, Some e) =>
          slapd_started (fst (ldap_migration sh run s)) = true /\
          snd (ldap_migration sh run s) = Some e
      | (s2, None) =>
          slapd_started (fst (ldap_migration sh run s)) = slapd_started s2 /\
          snd (ldap_migration sh run s) = None
      end
  end.
Proof.
  unfold ldap_migration, before_body. simpl.
  destruct (makedirs (premigration (clock s)) (fs s)) as [f|e0]; simpl.
  - split; [reflexivity|].
    destruct (run _ _) as [s2 [e|]]; simpl; split; reflexivity.
  - split; reflexivity.
Qed.

(** ** Paths and trees *)

Lemma strip_prefix_Some (p q r : Path) :
  strip_prefix p q = Some r <-> q = p ++ r.
Proof.
  revert q. induction p as [|a p IH]; intros q; simpl.
  - split; [by intros [= ->]|by intros ->].
  - destruct q as [|b q]; [split; discriminate|].
    destruct (String.eqb_spec a b) as [->|Hne].
    + rewrite IH. split; [by intros ->|by intros [= ->]].
    + split; [discriminate|]. intros [= ? ?]. by destruct Hne.
Qed.

Lemma strip_prefix_app (p a b : Path) :
  strip_prefix (p ++ a) (p ++ b) = strip_prefix a b.
Proof.
  induction p as [|c p IH]; simpl; [done|]. by rewrite String.eqb_refl.
Qed.

Lemma strip_prefix_self (p r : Path) : strip_prefix p (p ++ r) = Some r.
Proof. by apply strip_prefix_Some. Qed.

Lemma is_under_longer (p : Path) (c : string) (r : Path) :
  is_under (p ++ c :: r) p = false.
Proof.
  unfold is_under.
  destruct (strip_prefix (p ++ c :: r) p) as [x|] eqn:E; [|done].
  apply strip_prefix_Some in E. apply (f_equal length) in E.
  rewrite !length_app in E. simpl in E. lia.
Qed.

Lemma fs_wf_absent (f : FS) (p r : Path) :
  fs_wf f -> f p = None -> f (p ++ r) = None.
Proof.
  intros Hwf Hp. induction r as [|c r IH] using rev_ind.
  - by rewrite app_nil_r.
  - destruct (f (p ++ r ++ [c])) as [n|] eqn:E; [|done].
    rewrite app_assoc in E. apply Hwf in E. congruence.
Qed.

Lemma makedirs_Ok (p : Path) (f f1 : FS) :
  makedirs p f = Ok f1 ->
  f p = None /\
  forall q, f1 q = match f q with
                   | Some n => Some n
                   | None => if is_under q p then Some Dir else None
                   end.
Proof.
  unfold makedirs. destruct (f p); [discriminate|].
  destruct (file_on_the_way f [] p); [discriminate|].
  by intros [= <-].
Qed.

(** The effect of the two forms of [cp] and of [rm] at one path. *)

Lemma cp_onto_fresh (src dst : Path) (f : FS) (q : Path) :
  f dst = None ->
  sh_ideal (CpR src dst) f q =
  match strip_prefix dst q with
  | Some r =>
      match f src with
      | None => f q
      | Some _ => match f (src ++ r) with Some n => Some n | None => f q end
      end
  | None => f q
  end.
Proof.
  intros Hdst. simpl. rewrite Hdst. unfold cp_merge.
  destruct (f src); destruct (strip_prefix dst q); reflexivity.
Qed.

Lemma cp_contents (src dst : Path) (f : FS) (q : Path) :
  sh_ideal (CpRContents src dst) f q =
  match strip_prefix dst q with
  | Some r =>
      match f src with
      | None => f q
      | Some _ => match f (src ++ r) with Some n => Some n | None => f q end
      end
  | None => f q
  end.
Proof.
  simpl. unfold cp_merge.
  destruct (f src); destruct (strip_prefix dst q); reflexivity.
Qed.

Lemma rm_r (p : Path) (f : FS) (q : Path) :
  sh_ideal (RmR p) f q = if is_under p q then None else f q.
Proof. reflexivity. Qed.

(** ** The backup taken before the body *)

Section Backup.
Variables (s : Sys) (f1 : FS).
Hypothesis Hwf : fs_wf (fs s).
Hypothesis Hmk : makedirs (premigration (clock s)) (fs s) = Ok f1.

Local Abbreviation bf := (premigration (clock s)).

Lemma fresh_below (c : string) (r : Path) : f1 (bf ++ c :: r) = None.
Proof.
  destruct (makedirs_Ok _ _ _ Hmk) as [Hbf Hf1]. rewrite Hf1.
  rewrite (fs_wf_absent _ _ _ Hwf Hbf). by rewrite is_under_longer.
Qed.

Lemma kept_at_roots (root r : Path) :
  is_under (root ++ r) bf = false -> f1 (root ++ r) = fs s (root ++ r).
Proof.
  intros Hu. destruct (makedirs_Ok _ _ _ Hmk) as [_ Hf1]. rewrite Hf1, Hu.
  by destruct (fs s (root ++ r)).
Qed.

(** One copy of the backup, into a folder that is not there yet. *)
Lemma backup_copy (g : FS) (root : Path) (c : string) (r : Path) :
  (forall x, g (bf ++ c :: x) = f1 (bf ++ c :: x)) ->
  (forall x, g (root ++ x) = f1 (root ++ x)) ->
  (forall x, is_under (root ++ x) bf = false) ->
  sh_ideal (CpR root (bf ++ [c])) g (bf ++ c :: r) = fs s (root ++ r).
Proof.
  intros Hg Hroot Hapart.
  rewrite cp_onto_fresh by (rewrite <- (fresh_below c []); apply Hg).
  rewrite (strip_prefix_app bf [c] (c :: r)).
  change (strip_prefix [c] (c :: r))
    with (if String.eqb c c then Some r else None).
  rewrite String.eqb_refl.
  pose proof (Hroot []) as H0. rewrite app_nil_r in H0.
  pose proof (kept_at_roots root [] (Hapart [])) as H1.
  rewrite app_nil_r in H1.
  rewrite H0, H1, Hroot, Hg, fresh_below, (kept_at_roots _ _ (Hapart r)).
  destruct (fs s root) eqn:E.
  - by destruct (fs s (root ++ r)).
  - by rewrite (fs_wf_absent _ _ _ Hwf E).
Qed.

Lemma backup_copy_elsewhere (g : FS) (root : Path) (c : string) (q : Path) :
  g (bf ++ [c]) = None ->
  strip_prefix (bf ++ [c]) q = None ->
  sh_ideal (CpR root (bf ++ [c])) g q = g q.
Proof. intros Hg Hq. by rewrite cp_onto_fresh, Hq. Qed.

End Backup.

Section BackupContent.
Variables (s : Sys) (f1 : FS).
Hypothesis Hwf : fs_wf (fs s).
Hypothesis Hmk : makedirs (premigration (clock s)) (fs s) = Ok f1.

Local Abbreviation bf := (premigration (clock s)).
Local Abbreviation copy1 :=
  (sh_ideal (CpR etc_ldap (bf ++ ["ldap_config"])) f1).
Local Abbreviation copy2 :=
  (sh_ideal (CpR var_lib_ldap (bf ++ ["ldap_db"])) copy1).

Lemma copy1_elsewhere (q : Path) :
  strip_prefix (bf ++ ["ldap_config"]) q = None -> copy1 q = f1 q.
Proof.
  apply (backup_copy_elsewhere s). apply (fresh_below s f1 Hwf Hmk).
Qed.

Lemma copy2_elsewhere (q : Path) :
  strip_prefix (bf ++ ["ldap_db"]) q = None -> copy2 q = copy1 q.
Proof.
  apply (backup_copy_elsewhere s).
  rewrite copy1_elsewhere by (by rewrite strip_prefix_app).
  apply (fresh_below s f1 Hwf Hmk).
Qed.

Lemma before_body_fs :
  fs (before_body sh_ideal f1 s)
  = sh_ideal (CpR etc_yunohost_apps (bf ++ ["apps_settings"])) copy2.
Proof. reflexivity. Qed.

Lemma copy3_elsewhere (q : Path) :
  strip_prefix (bf ++ ["apps_settings"]) q = None ->
  fs (before_body sh_ideal f1 s) q = copy2 q.
Proof.
  rewrite before_body_fs. apply (backup_copy_elsewhere s).
  rewrite copy2_elsewhere by (by rewrite strip_prefix_app).
  rewrite copy1_elsewhere by (by rewrite strip_prefix_app).
  apply (fresh_below s f1 Hwf Hmk).
Qed.

Lemma backup_ldap_config (r : Path) :
  fs (before_body sh_ideal f1 s) (bf ++ "ldap_config" :: r)
  = fs s (etc_ldap ++ r).
Proof.
  rewrite copy3_elsewhere by (by rewrite strip_prefix_app).
  rewrite copy2_elsewhere by (by rewrite strip_prefix_app).
  by apply (backup_copy s f1 Hwf Hmk).
Qed.

Lemma backup_ldap_db (r : Path) :
  fs (before_body sh_ideal f1 s) (bf ++ "ldap_db" :: r)
  = fs s (var_lib_ldap ++ r).
Proof.
  rewrite copy3_elsewhere by (by rewrite strip_prefix_app).
  apply (backup_copy s f1 Hwf Hmk); [| |done].
  - intros x. apply copy1_elsewhere. by rewrite strip_prefix_app.
  - intros x. by apply copy1_elsewhere.
Qed.

Lemma backup_apps_settings (r : Path) :
  fs (before_body sh_ideal f1 s) (bf ++ "apps_settings" :: r)
  = fs s (etc_yunohost_apps ++ r).
Proof.
  rewrite before_body_fs. apply (backup_copy s f1 Hwf Hmk); [| |done].
  - intros x. rewrite copy2_elsewhere by (by rewrite strip_prefix_app).
    apply copy1_elsewhere. by rewrite strip_prefix_app.
  - intros x. rewrite copy2_elsewhere by done. by apply copy1_elsewhere.
Qed.

End BackupContent.

(** ** The rollback *)

Lemma is_under_self (p r : Path) : is_under p (p ++ r) = true.
Proof. unfold is_under. by rewrite strip_prefix_self. Qed.

Lemma not_under_slapd_d (q : Path) :
  strip_prefix etc_ldap q = None -> is_under slapd_d q = false.
Proof.
  unfold is_under, slapd_d, etc_ldap.
  destruct q as [|a [|b q]]; cbn [strip_prefix].
  - done.
  - by destruct (String.eqb "etc" a).
  - destruct (String.eqb "etc" a); [|done].
    by destruct (String.eqb "ldap" b).
Qed.

Lemma watched_not_backup (ts : string) (q : Path) :
  watched q = true -> is_under (premigration ts) q = false.
Proof.
  unfold watched, is_under, premigration.
  destruct q as [|a q]; [done|]. cbn [strip_prefix].
  destruct (String.eqb_spec "home" a) as [<-|Hne]; [discriminate|done].
Qed.

Section Restore.
Variables (s s2 : Sys) (f1 : FS).
Hypothesis Hwf : fs_wf (fs s).
Hypothesis Hmk : makedirs (premigration (clock s)) (fs s) = Ok f1.

Local Abbreviation bf := (premigration (clock s)).

Hypothesis Hbody :
  forall q, is_under bf q = true ->
            fs s2 q = fs (before_body sh_ideal f1 s) q.

Local Abbreviation h1 := (sh_ideal (RmR slapd_d) (fs s2)).
Local Abbreviation h2 :=
  (sh_ideal (CpRContents (bf ++ ["ldap_config"]) etc_ldap) h1).
Local Abbreviation h3 :=
  (sh_ideal (CpRContents (bf ++ ["ldap_db"]) var_lib_ldap) h2).
Local Abbreviation h4 :=
  (sh_ideal (CpRContents (bf ++ ["apps_settings"]) etc_yunohost_apps) h3).

Lemma rollback_fs :
  fs (rollback sh_ideal bf s2) = sh_ideal (RmR bf) h4.
Proof. reflexivity. Qed.

Lemma h1_backup (x : Path) : h1 (bf ++ x) = fs (before_body sh_ideal f1 s) (bf ++ x).
Proof.
  rewrite rm_r.
  replace (is_under slapd_d (bf ++ x)) with false by reflexivity.
  apply Hbody, is_under_self.
Qed.

Lemma h2_backup (x : Path) : h2 (bf ++ x) = h1 (bf ++ x).
Proof.
  rewrite cp_contents.
  by replace (strip_prefix etc_ldap (bf ++ x)) with (@None Path)
    by reflexivity.
Qed.

Lemma h3_backup (x : Path) : h3 (bf ++ x) = h2 (bf ++ x).
Proof.
  rewrite cp_contents.
  by replace (strip_prefix var_lib_ldap (bf ++ x)) with (@None Path)
    by reflexivity.
Qed.

(** One copy of the rollback, from a folder of the backup that holds
    what was under [root] before the migration. *)
Lemma restore_copy (h : FS) (root : Path) (c : string) (q : Path) :
  (forall r, h (bf ++ c :: r) = fs s (root ++ r)) ->
  sh_ideal (CpRContents (bf ++ [c]) root) h q =
  match strip_prefix root q with
  | Some _ => match fs s q with Some n => Some n | None => h q end
  | None => h q
  end.
Proof.
  intros Hh. rewrite cp_contents.
  destruct (strip_prefix root q) as [r|] eqn:E; [|done].
  apply strip_prefix_Some in E as ->.
  rewrite <- (app_assoc bf [c] r). change ([c] ++ r) with (c :: r).
  rewrite (Hh r). pose proof (Hh []) as H0. rewrite app_nil_r in H0.
  rewrite H0.
  destruct (fs s root) eqn:Hroot; [done|].
  by rewrite (fs_wf_absent _ _ _ Hwf Hroot).
Qed.

Lemma rollback_tree (q : Path) :
  fs (rollback sh_ideal bf s2) q =
  if is_under bf q then None
  else if watched q then
    match fs s q with
    | Some n => Some n
    | None => if is_under slapd_d q then None else fs s2 q
    end
  else fs s2 q.
Proof.
  rewrite rollback_fs, rm_r. destruct (is_under bf q); [done|].
  rewrite (restore_copy h3 etc_yunohost_apps "apps_settings").
  2:{ intros r. rewrite h3_backup, h2_backup, h1_backup.
      by apply backup_apps_settings. }
  rewrite (restore_copy h2 var_lib_ldap "ldap_db").
  2:{ intros r. rewrite h2_backup, h1_backup. by apply backup_ldap_db. }
  rewrite (restore_copy h1 etc_ldap "ldap_config").
  2:{ intros r. rewrite h1_backup. by apply backup_ldap_config. }
  rewrite rm_r. unfold watched.
  pose proof (not_under_slapd_d q) as Hslapd. unfold is_under in *.
  destruct (strip_prefix etc_ldap q) eqn:E1;
    destruct (strip_prefix var_lib_ldap q) eqn:E2;
    destruct (strip_prefix etc_yunohost_apps q) eqn:E3; cbn [orb];
    destruct (fs s q); try reflexivity.
  all: by rewrite (Hslapd eq_refl).
Qed.

End Restore.

Lemma path_eqb_eq (p q : Path) : path_eqb p q = true -> p = q.
Proof.
  revert q. induction p as [|a p IH]; intros [|b q]; simpl; try done.
  intros [Hab Hpq]%andb_true_iff. apply String.eqb_eq in Hab.
  f_equal; [done|by apply IH].
Qed.

Lemma fs_of_list_In (l : list (Path * Node)) (q : Path) (n : Node) :
  fs_of_list l q = Some n -> In (q, n) l.
Proof.
  induction l as [|[p m] l IH]; simpl; [discriminate|].
  destruct (path_eqb p q) eqn:E.
  - intros [= ->]. left. by rewrite (path_eqb_eq _ _ E).
  - intros H. right. by apply IH.
Qed.

Lemma fs_of_list_wf (l : list (Path * Node)) :
  parents_listed l = true -> fs_wf (fs_of_list l).
Proof.
  intros H p c n Hn. apply fs_of_list_In in Hn.
  unfold parents_listed in H. rewrite forallb_forall in H.
  specialize (H _ Hn). simpl in H. rewrite removelast_last in H.
  destruct (p ++ [c]) eqn:E; [by destruct p|].
  by destruct (fs_of_list l p) as [[|?]|].
Qed.

Lemma lock_file_not_in_backup (ts : string) (q : Path) :
  is_under (premigration ts) q = true -> path_eqb q lock_file = false.
Proof.
  unfold is_under, premigration, lock_file.
  destruct q as [|a q]; [done|]. cbn [strip_prefix path_eqb].
  destruct (String.eqb_spec "home" a) as [<-|Hne]; [done|discriminate].
Qed.

(** C2 fails as stated: a body that drops a new file into /var/lib/ldap
    and raises leaves that file behind, since the rollback removes
    /etc/ldap/slapd.d only before it copies the backup back. *)
Lemma ldap_migration_rollback_keeps_new_files :
  snd (ldap_migration sh_ideal leave_lock_file sys_ldap) = Some boom /\
  watched lock_file = true /\
  fs sys_ldap lock_file = None /\
  fs (fst (ldap_migration sh_ideal leave_lock_file sys_ldap)) lock_file
  = Some (File "").
Proof. repeat split; vm_compute; reflexivity. Qed.

(** C2, amended: when the file commands succeed and the body raises
    after changing the watched trees, without touching the backup, the
    wrapper stops the service, removes /etc/ldap/slapd.d, copies the
    backup back over the three trees, starts the service, removes the
    backup and lets the error of the body through.  Afterwards every
    entry the watched trees had before the migration is there with its
    content of then, and /etc/ldap/slapd.d is as it was; what the body
    added elsewhere in the trees is still there. *)
Theorem ldap_migration_rollback_restores
  (run : Path -> Sys -> Sys * option Exn) (s s2 : Sys) (f1 : FS) (e : Exn) :
  fs_wf (fs s) ->
  makedirs (premigration (clock s)) (fs s) = Ok f1 ->
  run (premigration (clock s)) (before_body sh_ideal f1 s) = (s2, Some e) ->
  (forall q, is_under (premigration (clock s)) q = true ->
             fs s2 q = fs (before_body sh_ideal f1 s) q) ->
  snd (ldap_migration sh_ideal run s) = Some e /\
  slapd_started (fst (ldap_migration sh_ideal run s)) = true /\
  (forall q,
     fs (fst (ldap_migration sh_ideal run s)) q =
     if is_under (premigration (clock s)) q then None
     else if watched q then
       match fs s q with
       | Some n => Some n
       | None => if is_under slapd_d q then None else fs s2 q
       end
     else fs s2 q) /\
  (forall q n, watched q = true -> fs s q = Some n ->
               fs (fst (ldap_migration sh_ideal run s)) q = Some n) /\
  (forall q, is_under slapd_d q = true ->
             fs (fst (ldap_migration sh_ideal run s)) q = fs s q).
Proof.
  intros Hwf Hmk Hrun Hbody.
  assert (ldap_migration sh_ideal run s
          = (rollback sh_ideal (premigration (clock s)) s2, Some e)) as ->.
  { unfold ldap_migration.
    change (clock (logger _ s)) with (clock s).
    change (fs (logger _ s)) with (fs s). rewrite Hmk.
    change (os_system sh_ideal (SystemctlStart "slapd") _)
      with (before_body sh_ideal f1 s).
    by rewrite Hrun. }
  pose proof (rollback_tree s s2 f1 Hwf Hmk Hbody) as Htree.
  split; [done|]. split; [done|]. split; [exact Htree|]. split.
  - intros q n Hw Hq. change (fst (?a, ?b)) with a.
    by rewrite Htree, (watched_not_backup _ _ Hw), Hw, Hq.
  - intros q Hq. change (fst (?a, ?b)) with a.
    assert (watched q = true) as Hw.
    { unfold watched. destruct (is_under etc_ldap q) eqn:E; [done|].
      unfold is_under in E at 1.
      destruct (strip_prefix etc_ldap q) eqn:E1; [done|].
      by rewrite (not_under_slapd_d q E1) in Hq. }
    rewrite Htree, (watched_not_backup _ _ Hw), Hw, Hq.
    by destruct (fs s q).
Qed.

Lemma ldap_migration_rollback_restores_witness :
  snd (ldap_migration sh_ideal leave_lock_file sys_ldap) = Some boom /\
  slapd_started (fst (ldap_migration sh_ideal leave_lock_file sys_ldap))
  = true /\
  fs (fst (ldap_migration sh_ideal leave_lock_file sys_ldap))
    ["var"; "lib"; "ldap"; "data.mdb"]
  = Some (File "entries").
Proof.
  destruct (ldap_migration_rollback_restores leave_lock_file sys_ldap
              (fst (leave_lock_file (premigration (clock sys_ldap))
                      (before_body sh_ideal ldap_tree_with_backup_folder
                         sys_ldap)))
              ldap_tree_with_backup_folder boom)
    as (H1 & H2 & _ & H4 & _).
  - apply fs_of_list_wf. reflexivity.
  - reflexivity.
  - reflexivity.
  - intros q Hq. simpl. by rewrite (lock_file_not_in_backup _ _ Hq).
  - split; [exact H1|]. split; [exact H2|].
    apply H4; reflexivity.
Defined.

(** * Further properties *)

(** ** Misuse of the run command *)

Lemma count_matches_find_index (target : string) (l : list Migration) :
  count_matches target l = 0 <-> find_index (matches target) l 0 = None.
Proof.
  unfold count_matches. split.
  - intros H. destruct (find_index (matches target) l 0) as [i|] eqn:E; [|done].
    destruct (find_index_Some _ _ _ _ E) as (j & m & _ & Hj & Hm & _).
    assert (m ∈ filter (fun x => matches target x = true) l) as Hin.
    { apply list_elem_of_filter. split; [done|].
      by eapply list_elem_of_lookup_2. }
    destruct (filter _ l); [by apply elem_of_nil in Hin|discriminate].
  - intros H. apply find_index_None in H.
    induction H as [|x l Hx _ IH]; [done|].
    rewrite filter_cons. case_decide; [congruence|done].
Qed.

Lemma get_matching_migration_unknown (all : list Migration) (target : string) :
  count_matches target all = 0 ->
  get_matching_migration all target
  = Raise (YunohostValidationError "migrations_no_such_migration"
             [("id", target)]).
Proof.
  intros H. apply count_matches_find_index in H.
  unfold get_matching_migration. by rewrite H.
Qed.

Lemma get_matching_migration_known (all : list Migration) (target : string) :
  0 < count_matches target all ->
  exists i, get_matching_migration all target = Ok i.
Proof.
  intros H. unfold get_matching_migration.
  destruct (find_index (matches target) all 0) as [i|] eqn:E; [by exists i|].
  apply count_matches_find_index in E. lia.
Qed.

Lemma rmap_first_failure {A B} (f : A -> result B) (before after : list A)
  (x : A) (e : Exn) :
  Forall (fun y => exists z, f y = Ok z) before ->
  f x = Raise e ->
  rmap f (before ++ x :: after) = Raise e.
Proof.
  intros Hb Hx. induction Hb as [|y before [z Hy] _ IH]; simpl.
  - by rewrite Hx.
  - by rewrite Hy, IH.
Qed.

(** X1: once discovery has succeeded, more than one of [auto], [skip]
    and [force_rerun] is refused with "migrations_exclusive_options",
    and [skip] or [force_rerun] without targets with
    "migrations_must_provide_explicit_targets"; in both cases the machine
    and the state file are as before the call. *)
Theorem tools_migrations_run_flag_misuse (env : Env) (targets : list string)
  (skip auto force_rerun accept : bool) (w w1 : World)
  (all : list Migration) :
  _get_migrations_list env w = (Ok all, w1) ->
  (1 < b2n auto + b2n skip + b2n force_rerun ->
   tools_migrations_run env targets skip auto force_rerun accept w
   = (Raise (YunohostValidationError "migrations_exclusive_options" []),
      w1)) /\
  (b2n auto + b2n skip + b2n force_rerun <= 1 ->
   targets = [] -> skip || force_rerun = true ->
   tools_migrations_run env targets skip auto force_rerun accept w
   = (Raise (YunohostValidationError
               "migrations_must_provide_explicit_targets" []), w1)) /\
  sys w1 = sys w /\ migrations_yaml w1 = migrations_yaml w.
Proof.
  intros Hlist.
  destruct (_get_migrations_list_log _ _ _ _ Hlist) as [evs ->].
  unfold tools_migrations_run, bind. rewrite Hlist.
  split; [|split; [|done]].
  - intros Hsum. apply Nat.ltb_lt in Hsum. by rewrite Hsum.
  - intros Hsum -> Hflag.
    replace (Nat.ltb 1 (b2n auto + b2n skip + b2n force_rerun)) with false
      by (symmetry; apply Nat.ltb_ge; lia).
    unfold lift, select_targets. by rewrite Hflag.
Qed.

Lemma tools_migrations_run_flag_misuse_witness :
  tools_migrations_run env_two_foo ["0001_foo"] true true false false world0
  = (Raise (YunohostValidationError "migrations_exclusive_options" []),
     snd (_get_migrations_list env_two_foo world0)).
Proof.
  refine (proj1 (tools_migrations_run_flag_misuse env_two_foo ["0001_foo"]
                   true true false false world0
                   (snd (_get_migrations_list env_two_foo world0))
                   [plain "0001_foo" "foo" 1 "pending";
                    plain "0002_foo" "foo" 2 "pending"] _) _).
  - vm_compute. reflexivity.
  - simpl. lia.
Defined.

(** X2: a target that designates no migration makes the whole call fail
    with "migrations_no_such_migration" for the first such target, before
    anything is run: the machine and the state file are as before, also
    when other targets are valid. *)
Theorem tools_migrations_run_unknown_target (env : Env)
  (before after : list string) (target : string)
  (skip auto force_rerun accept : bool) (w w1 : World)
  (all : list Migration) :
  _get_migrations_list env w = (Ok all, w1) ->
  b2n auto + b2n skip + b2n force_rerun <= 1 ->
  Forall (fun t => 0 < count_matches t all) before ->
  count_matches target all = 0 ->
  tools_migrations_run env (before ++ target :: after) skip auto force_rerun
    accept w
  = (Raise (YunohostValidationError "migrations_no_such_migration"
              [("id", target)]), w1) /\
  sys w1 = sys w /\ migrations_yaml w1 = migrations_yaml w.
Proof.
  intros Hlist Hsum Hbefore Htarget.
  destruct (_get_migrations_list_log _ _ _ _ Hlist) as [evs ->].
  split; [|done].
  unfold tools_migrations_run, bind. rewrite Hlist.
  replace (Nat.ltb 1 (b2n auto + b2n skip + b2n force_rerun)) with false
    by (symmetry; apply Nat.ltb_ge; lia).
  unfold lift, select_targets.
  rewrite (rmap_first_failure _ before after target
             (YunohostValidationError "migrations_no_such_migration"
                [("id", target)])).
  - by destruct before.
  - eapply Forall_impl; [exact Hbefore|]. intros t Ht.
    by apply get_matching_migration_known.
  - by apply get_matching_migration_unknown.
Qed.

Lemma tools_migrations_run_unknown_target_witness :
  tools_migrations_run env_two_foo (["0001_foo"] ++ "0003_bar" :: ["foo"])
    false false false false world0
  = (Raise (YunohostValidationError "migrations_no_such_migration"
              [("id", "0003_bar")]),
     snd (_get_migrations_list env_two_foo world0)).
Proof.
  refine (proj1 (tools_migrations_run_unknown_target env_two_foo
                   ["0001_foo"] ["foo"] "0003_bar" false false false false
                   world0 (snd (_get_migrations_list env_two_foo world0))
                   [plain "0001_foo" "foo" 1 "pending";
                    plain "0002_foo" "foo" 2 "pending"] _ _ _ _)).
  - vm_compute. reflexivity.
  - simpl. lia.
  - repeat constructor.
  - vm_compute. reflexivity.
Defined.

(** ** Dependencies *)

Lemma verdict_blocked (auto : bool) (i : nat) (loc : Locals)
  (m : Migration) (deps : list nat) :
  all_migrations loc !! i = Some m ->
  rmap (get_matching_migration (all_migrations loc)) (dependencies m)
  = Ok deps ->
  existsb (fun d => is_pending (state_of (all_migrations loc) d)) deps
  = true ->
  verdict false auto i loc = ToBeRanManually m \/
  exists x ids, verdict false auto i loc = DependenciesPending m (x :: ids).
Proof.
  intros Hm Hdeps Hpending. unfold verdict.
  rewrite Hm. destruct (auto && String.eqb (mode m) "manual"); [by left|].
  right. simpl. unfold dependencies_pending. rewrite Hdeps. simpl.
  pose proof (existsb_filter_nonempty _ (id_of (all_migrations loc)) deps
                Hpending) as Hne.
  destruct (map _ (filter _ deps)) as [|x ids]; [done|]. by eexists _, _.
Qed.

Lemma migrate_one_blocked (auto : bool) (i : nat) (loc : Locals)
  (w : World) (m : Migration) (deps : list nat) :
  all_migrations loc !! i = Some m ->
  rmap (get_matching_migration (all_migrations loc)) (dependencies m)
  = Ok deps ->
  existsb (fun d => is_pending (state_of (all_migrations loc) d)) deps
  = true ->
  exists ev,
    migrate_one false auto i loc w = (Ok loc, add_log [ev] w) /\
    started_id ev = None.
Proof.
  intros Hm Hdeps Hpending. rewrite migrate_one_verdict.
  destruct (verdict_blocked auto i loc m deps Hm Hdeps Hpending)
    as [->|(x & ids & ->)]; eexists; split; reflexivity.
Qed.

(** X3: without [skip], a target one of whose dependencies is pending is
    left aside: the iteration ends normally with the migration objects,
    the machine and the state file unchanged, and logs one message, a
    warning for a manual migration in automatic mode and else the error
    naming the pending dependencies; no body is started. *)
Theorem pending_dependency_blocks (auto : bool) (i : nat) (loc : Locals)
  (w : World) (m : Migration) (deps : list nat) :
  all_migrations loc !! i = Some m ->
  rmap (get_matching_migration (all_migrations loc)) (dependencies m)
  = Ok deps ->
  existsb (fun d => is_pending (state_of (all_migrations loc) d)) deps
  = true ->
  exists ev,
    migrate_one false auto i loc w = (Ok loc, add_log [ev] w) /\
    started_id ev = None /\
    (ev = LogWarn (m18n_n "migrations_to_be_ran_manually" [("id", id_ m)]) \/
     exists ids,
       ids <> [] /\
       ev = LogError (m18n_n "migrations_dependencies_not_satisfied"
                        [("id", id_ m);
                         ("dependencies_id", Py.join_comma ids)])).
Proof.
  intros Hm Hdeps Hpending. rewrite migrate_one_verdict.
  destruct (verdict_blocked auto i loc m deps Hm Hdeps Hpending)
    as [->|(x & ids & ->)]; eexists; (split; [reflexivity|]);
    (split; [reflexivity|]).
  - by left.
  - right. by exists (x :: ids).
Qed.

Lemma pending_dependency_blocks_witness :
  exists ev,
    migrate_one false false 1
      (on_store [plain "0001_a" "a" 1 "pending";
                 dependent "0002_b" "b" 2 ["0001_a"]] false) world0
    = (Ok (on_store [plain "0001_a" "a" 1 "pending";
                     dependent "0002_b" "b" 2 ["0001_a"]] false),
       add_log [ev] world0) /\
    started_id ev = None /\
    (ev = LogWarn (m18n_n "migrations_to_be_ran_manually"
                     [("id", id_ (dependent "0002_b" "b" 2 ["0001_a"]))]) \/
     exists ids,
       ids <> [] /\
       ev = LogError (m18n_n "migrations_dependencies_not_satisfied"
                        [("id", id_ (dependent "0002_b" "b" 2 ["0001_a"]));
                         ("dependencies_id", Py.join_comma ids)])).
Proof.
  apply (pending_dependency_blocks false 1 _ world0
           (dependent "0002_b" "b" 2 ["0001_a"]) [0]);
    reflexivity.
Defined.

(** X4: without [skip], a dependency that designates no migration is
    not caught in the loop: unless the target is a manual one in
    automatic mode, the loop ends there with "migrations_no_such_migration"
    for the first such dependency, and the remaining targets are not
    processed. *)
Theorem unknown_dependency_aborts (auto : bool) (i : nat) (rest : list nat)
  (loc : Locals) (w : World) (m : Migration)
  (before after : list string) (dep : string) :
  all_migrations loc !! i = Some m ->
  auto && String.eqb (mode m) "manual" = false ->
  dependencies m = before ++ dep :: after ->
  Forall (fun d => 0 < count_matches d (all_migrations loc)) before ->
  count_matches dep (all_migrations loc) = 0 ->
  run_loop false auto (i :: rest) loc w
  = (Raise (YunohostValidationError "migrations_no_such_migration"
              [("id", dep)]), w).
Proof.
  intros Hm Hmode Hdeps Hbefore Hdep. simpl. unfold bind.
  rewrite migrate_one_verdict. unfold verdict. rewrite Hm, Hmode. simpl.
  unfold dependencies_pending. rewrite Hdeps.
  rewrite (rmap_first_failure _ before after dep
             (YunohostValidationError "migrations_no_such_migration"
                [("id", dep)])); [done| |].
  - eapply Forall_impl; [exact Hbefore|]. intros t Ht.
    by apply get_matching_migration_known.
  - by apply get_matching_migration_unknown.
Qed.

Lemma unknown_dependency_aborts_witness :
  run_loop false false (0 :: [1])
    (on_store [{| id_ := "0017_postgresql_9p6_to_11"; number := 17;
                  name := "postgresql_9p6_to_11"; mode := "auto";
                  dependencies := ["migrate_to_buster"]; disclaimer := None;
                  run := succeed; state := "pending" |};
               plain "0018_x" "x" 18 "pending"] false) world0
  = (Raise (YunohostValidationError "migrations_no_such_migration"
              [("id", "migrate_to_buster")]), world0).
Proof.
  apply (unknown_dependency_aborts false 0 [1] _ world0
           {| id_ := "0017_postgresql_9p6_to_11"; number := 17;
              name := "postgresql_9p6_to_11"; mode := "auto";
              dependencies := ["migrate_to_buster"]; disclaimer := None;
              run := succeed; state := "pending" |}
           [] [] "migrate_to_buster");
    try reflexivity.
  constructor.
Defined.

(** ** What the loop touches *)

Lemma unstated_alter (l : list Migration) (i : nat) (st : string) :
  unstated (alter (set_state st) i l) = unstated l.
Proof.
  unfold unstated. revert i. induction l as [|m l IH]; intros [|i]; simpl;
    try done.
  f_equal. apply IH.
Qed.

Lemma unstated_lookup (l l' : list Migration) (j : nat) (m' : Migration) :
  unstated l' = unstated l -> l' !! j = Some m' ->
  exists m, l !! j = Some m /\ id_ m = id_ m' /\ mode m = mode m' /\
            dependencies m = dependencies m' /\
            disclaimer m = disclaimer m'.
Proof.
  intros Hu Hj.
  assert (unstated l !! j = Some (set_state "" m')) as H.
  { rewrite <- Hu. unfold unstated. by rewrite list_lookup_fmap, Hj. }
  unfold unstated in H. rewrite list_lookup_fmap in H.
  destruct (l !! j) as [m|]; [|discriminate]. simpl in H.
  exists m. split; [done|]. by injection H as ? ? ? ? ? ? ?.
Qed.

Lemma verdict_Performed_mode skip auto i loc m loc1 :
  verdict skip auto i loc = Performed m loc1 ->
  auto && String.eqb (mode m) "manual" = false.
Proof.
  unfold verdict.
  destruct (all_migrations loc !! i) as [m0|]; [|discriminate].
  destruct (auto && String.eqb (mode m0) "manual") eqn:E; [discriminate|].
  destruct (if negb skip then _ else _) as [[|x ids]|e]; try discriminate.
  destruct (Py.truthy (disclaimer m0) && negb skip).
  - destruct (accept_disclaimer loc); [|discriminate]. by intros [= <- _].
  - by intros [= <- _].
Qed.

Lemma footprint_nothing skip auto l0 targets w evs :
  executed evs = [] -> footprint skip auto l0 targets w (add_log evs w).
Proof.
  intros He. exists evs. split; [done|]. split.
  - intros id Hid. rewrite He in Hid. by apply elem_of_nil in Hid.
  - intros k. by left.
Qed.

Lemma after_write_state s id st evs w (k : string) :
  tools_migrations_state (after_write s id st evs w) !! k
  = if decide (id = k) then Some st else tools_migrations_state w !! k.
Proof. unfold after_write, tools_migrations_state at 1. apply lookup_insert. Qed.

Lemma migrate_one_footprint (skip auto : bool) (i : nat)
  (l0 : list Migration) (loc : Locals) (w : World) (r : result Locals)
  (w1 : World) :
  unstated (all_migrations loc) = unstated l0 ->
  migrate_one skip auto i loc w = (r, w1) ->
  footprint skip auto l0 [i] w w1 /\
  forall loc1, r = Ok loc1 -> unstated (all_migrations loc1) = unstated l0.
Proof.
  intros Hu. rewrite migrate_one_verdict.
  pose proof (verdict_lookup skip auto i loc) as Hlook.
  destruct (verdict skip auto i loc) as [|m|m e|m ids|m|m loc1] eqn:Hv.
  - intros [= <- <-]. split; [|by intros ? [= <-]].
    rewrite <- (add_log_nil w) at 2. by apply footprint_nothing.
  - intros [= <- <-]. split; [|by intros ? [= <-]].
    by apply footprint_nothing.
  - intros [= <- <-]. split; [|discriminate].
    rewrite <- (add_log_nil w) at 2. by apply footprint_nothing.
  - intros [= <- <-]. split; [|by intros ? [= <-]].
    by apply footprint_nothing.
  - intros [= <- <-]. split; [|by intros ? [= <-]].
    by apply footprint_nothing.
  - pose proof (verdict_Performed_mode _ _ _ _ _ _ Hv) as Hmode.
    destruct (verdict_Performed _ _ _ _ _ _ Hv) as (_ & Hall & _).
    destruct (unstated_lookup _ _ _ _ Hu Hlook)
      as (m0 & Hm0 & Hid & Hmd & _).
    assert (exists i0 m1, i0 ∈ [i] /\ l0 !! i0 = Some m1 /\ id_ m1 = id_ m /\
                          (auto = true -> mode m1 <> "manual")) as Htarget.
    { exists i, m0. split; [apply list_elem_of_singleton; reflexivity|].
      split; [done|]. split; [done|]. intros ->. rewrite Hmd.
      simpl in Hmode. by apply String.eqb_neq. }
    assert (exists i0 m1, i0 ∈ [i] /\ l0 !! i0 = Some m1 /\ id_ m1 = id_ m)
      as Hwritten.
    { destruct Htarget as (i0 & m1 & ? & ? & ? & _). eauto. }
    destruct skip.
    + rewrite perform_skip. intros [= <- <-]. split.
      * eexists. split; [reflexivity|]. split.
        -- intros id Hin. by apply elem_of_nil in Hin.
        -- intros k. rewrite !after_write_state.
           destruct (decide (id_ m = k)) as [<-|Hne]; [|by left].
           right. split; [by right|done].
      * intros ? [= <-]. simpl. by rewrite unstated_alter, Hall.
    + rewrite perform_run. destruct (run m (sys w)) as [s [e|]];
        intros [= <- <-]; split.
      * eexists. split; [reflexivity|]. split; [|by left].
        intros id ->%list_elem_of_singleton. by split.
      * intros ? [= <-]. by rewrite Hall.
      * eexists. split; [reflexivity|]. split.
        -- intros id ->%list_elem_of_singleton. by split.
        -- intros k. rewrite !after_write_state.
           destruct (decide (id_ m = k)) as [<-|Hne]; [|by left].
           right. split; [by left|done].
      * intros ? [= <-]. simpl. by rewrite unstated_alter, Hall.
Qed.

Lemma footprint_weaken skip auto l0 targets targets' w w' :
  targets ⊆ targets' ->
  footprint skip auto l0 targets w w' -> footprint skip auto l0 targets' w w'.
Proof.
  intros Hsub (evs & Hlog & Hex & Hst). exists evs. split; [done|]. split.
  - intros id Hid. destruct (Hex id Hid) as (Hs & i & m & Hi & H).
    split; [done|]. exists i, m. split; [by apply Hsub|done].
  - intros k. destruct (Hst k) as [H|[H (i & m & Hi & H')]]; [by left|].
    right. split; [done|]. exists i, m. split; [by apply Hsub|done].
Qed.

Lemma footprint_trans skip auto l0 targets w w1 w2 :
  footprint skip auto l0 targets w w1 ->
  footprint skip auto l0 targets w1 w2 ->
  footprint skip auto l0 targets w w2.
Proof.
  intros (evs1 & Hlog1 & Hex1 & Hst1) (evs2 & Hlog2 & Hex2 & Hst2).
  exists (evs1 ++ evs2). split; [by rewrite Hlog2, Hlog1, app_assoc|]. split.
  - intros id. unfold executed. rewrite omap_app, elem_of_app.
    intros [?|?]; [by apply Hex1|by apply Hex2].
  - intros k. destruct (Hst2 k) as [H2|H2]; [|by right].
    rewrite H2. apply Hst1.
Qed.

Lemma run_loop_footprint (skip auto : bool) (l0 : list Migration)
  (targets : list nat) :
  forall loc w r w',
    unstated (all_migrations loc) = unstated l0 ->
    run_loop skip auto targets loc w = (r, w') ->
    footprint skip auto l0 targets w w' /\
    forall loc', r = Ok loc' -> unstated (all_migrations loc') = unstated l0.
Proof.
  induction targets as [|i rest IH]; intros loc w r w' Hu; simpl.
  - intros [= <- <-]. split; [|by intros ? [= <-]].
    rewrite <- (add_log_nil w) at 2. by apply footprint_nothing.
  - unfold bind.
    destruct (migrate_one skip auto i loc w) as [[loc1|e] w1] eqn:E;
      destruct (migrate_one_footprint _ _ _ l0 _ _ _ _ Hu E) as [Hf1 Hu1].
    + intros Hrest. destruct (IH _ _ _ _ (Hu1 _ eq_refl) Hrest) as [Hf2 Hu2].
      split; [|done].
      apply (footprint_trans _ _ _ _ w w1 w').
      * apply (footprint_weaken _ _ _ [i]); [|done].
        intros x ->%list_elem_of_singleton. by left.
      * apply (footprint_weaken _ _ _ rest); [|done].
        intros x Hx. by right.
    + intros [= <- <-]. split; [|discriminate].
      apply (footprint_weaken _ _ _ [i]); [|done].
      intros x ->%list_elem_of_singleton. by left.
Qed.

(** X5: the loop starts bodies of targets only, never with [skip], and
    in automatic mode never the body of a manual migration. *)
Theorem run_loop_starts_targets_only (skip auto : bool) (targets : list nat)
  (loc : Locals) (w : World) :
  exists evs,
    log (snd (run_loop skip auto targets loc w)) = log w ++ evs /\
    forall id, id ∈ executed evs ->
      skip = false /\
      exists i m, i ∈ targets /\ all_migrations loc !! i = Some m /\
                  id_ m = id /\ (auto = true -> mode m <> "manual").
Proof.
  destruct (run_loop skip auto targets loc w) as [r w'] eqn:E.
  destruct (run_loop_footprint _ _ (all_migrations loc) _ _ _ _ _ eq_refl E)
    as [(evs & Hlog & Hex & _) _].
  by exists evs.
Qed.

(** X6: the loop never removes or alters a state entry other than by
    setting the id of a target to "done" or "skipped". *)
Theorem run_loop_state_entries (skip auto : bool) (targets : list nat)
  (loc : Locals) (w : World) (k : string) :
  tools_migrations_state (snd (run_loop skip auto targets loc w)) !! k
  = tools_migrations_state w !! k \/
  ((tools_migrations_state (snd (run_loop skip auto targets loc w)) !! k
    = Some "done" \/
    tools_migrations_state (snd (run_loop skip auto targets loc w)) !! k
    = Some "skipped") /\
   exists i m, i ∈ targets /\ all_migrations loc !! i = Some m /\ id_ m = k).
Proof.
  destruct (run_loop skip auto targets loc w) as [r w'] eqn:E.
  destruct (run_loop_footprint _ _ (all_migrations loc) _ _ _ _ _ eq_refl E)
    as [(evs & _ & _ & Hst) _].
  apply Hst.
Qed.

(** ** Skipping *)

Lemma migrate_one_skip (i : nat) (loc : Locals) (w : World) :
  migrate_one true false i loc w =
  match all_migrations loc !! i with
  | None => (Ok loc, w)
  | Some m =>
      (Ok (store_state i "skipped" loc),
       after_write (sys w) (id_ m) "skipped"
         [OpStart operation;
          LogWarn (m18n_n "migrations_skip_migration" [("id", id_ m)]);
          OpSuccess operation] w)
  end.
Proof.
  rewrite migrate_one_verdict. unfold verdict.
  destruct (all_migrations loc !! i) as [m|]; [|done]. simpl.
  rewrite andb_false_r. apply perform_skip.
Qed.

Lemma state_of_alter (l : list Migration) (i j : nat) (st : string) :
  state_of (alter (set_state st) i l) j =
  if decide (i = j) then from_option (fun _ => st) "" (l !! j)
  else state_of l j.
Proof.
  unfold state_of. destruct (decide (i = j)) as [<-|Hne].
  - rewrite list_lookup_alter_eq. by destruct (l !! i).
  - by rewrite list_lookup_alter_ne.
Qed.

Lemma state_of_alter_same (l : list Migration) (i j : nat) (st : string) :
  state_of l j = st -> st <> "" ->
  state_of (alter (set_state st) i l) j = st.
Proof.
  intros Hj Hst. rewrite state_of_alter. case_decide; [|done].
  unfold state_of in Hj. by destruct (l !! j).
Qed.

Lemma run_loop_skip_inv (targets : list nat) :
  forall loc w,
  exists loc' w',
    run_loop true false targets loc w = (Ok loc', w') /\
    sys w' = sys w /\
    accept_disclaimer loc' = accept_disclaimer loc /\
    unstated (all_migrations loc') = unstated (all_migrations loc) /\
    (forall k, tools_migrations_state w !! k = Some "skipped" ->
               tools_migrations_state w' !! k = Some "skipped") /\
    (forall i, state_of (all_migrations loc) i = "skipped" ->
               state_of (all_migrations loc') i = "skipped") /\
    (forall i m, i ∈ targets -> all_migrations loc !! i = Some m ->
       tools_migrations_state w' !! id_ m = Some "skipped" /\
       state_of (all_migrations loc') i = "skipped").
Proof.
  induction targets as [|i0 rest IH]; intros loc w; simpl.
  - exists loc, w. repeat (split; [done|]).
    intros i m Hi. by apply elem_of_nil in Hi.
  - unfold bind. rewrite migrate_one_skip.
    destruct (all_migrations loc !! i0) as [m0|] eqn:Hm0.
    + destruct (IH (store_state i0 "skipped" loc)
                  (after_write (sys w) (id_ m0) "skipped"
                     [OpStart operation;
                      LogWarn (m18n_n "migrations_skip_migration"
                                 [("id", id_ m0)]);
                      OpSuccess operation] w))
        as (loc' & w' & Hrun & Hsys & Hacc & Hu & Hkeep & Hkeep' & Hall).
      exists loc', w'. split; [done|]. split; [done|]. split; [done|].
      split; [by rewrite Hu; apply unstated_alter|].
      split; [|split].
      * intros k Hk. apply Hkeep. rewrite after_write_state.
        by case_decide.
      * intros i Hi. apply Hkeep'. simpl. by apply state_of_alter_same.
      * intros i m [->|Hi]%elem_of_cons Hm.
        -- rewrite Hm0 in Hm. injection Hm as <-. split.
           ++ apply Hkeep. rewrite after_write_state. by case_decide.
           ++ apply Hkeep'. simpl. rewrite state_of_alter.
              case_decide; [|done]. by rewrite Hm0.
        -- destruct (decide (i0 = i)) as [<-|Hne].
           ++ rewrite Hm0 in Hm. injection Hm as <-.
              destruct (Hall i0 (set_state "skipped" m0) Hi) as [H1 H2];
                [|done].
              simpl. by rewrite list_lookup_alter_eq, Hm0.
           ++ apply (Hall i m Hi). simpl.
              by rewrite list_lookup_alter_ne.
    + destruct (IH loc w)
        as (loc' & w' & Hrun & Hsys & Hacc & Hu & Hkeep & Hkeep' & Hall).
      exists loc', w'. repeat (split; [done|]).
      intros i m [->|Hi]%elem_of_cons Hm; [congruence|by apply Hall].
Qed.

(** X7: with [skip], which excludes the automatic mode, the loop runs no
    body and cannot fail: it leaves the machine as it was, and sets every
    target to "skipped", in the state file and on the migration object,
    without looking at dependencies or disclaimers. *)
Theorem run_loop_skip_marks_all (targets : list nat) (loc : Locals)
  (w : World) :
  exists loc' w',
    run_loop true false targets loc w = (Ok loc', w') /\
    sys w' = sys w /\
    forall i m, i ∈ targets -> all_migrations loc !! i = Some m ->
      tools_migrations_state w' !! id_ m = Some "skipped" /\
      state_of (all_migrations loc') i = "skipped".
Proof.
  destruct (run_loop_skip_inv targets loc w)
    as (loc' & w' & Hrun & Hsys & _ & _ & _ & _ & Hall).
  by exists loc', w'.
Qed.

(** ** The objects and the state file agree *)

Lemma unstated_ids (l l' : list Migration) :
  unstated l' = unstated l -> map id_ l' = map id_ l.
Proof.
  intros H. apply (f_equal (map id_)) in H. unfold unstated in H.
  rewrite !map_map in H. exact H.
Qed.

(** X8: discovery gives each migration the state the file records for
    its id, and "pending" when the file has no entry for it. *)
Theorem _get_migrations_list_states (env : Env) (w w1 : World)
  (all : list Migration) :
  _get_migrations_list env w = (Ok all, w1) ->
  coherent all w /\ coherent all w1.
Proof.
  intros Hlist.
  destruct (_get_migrations_list_any_world _ _ _ _ Hlist) as (evs & -> & Hany).
  assert (coherent all w) as Hc.
  { pose proof (Hany w) as Hw. rewrite Hlist in Hw. injection Hw as Hall.
    intros j m Hj. rewrite Hall, list_lookup_fmap in Hj.
    destruct (all !! j) as [m0|]; [|discriminate].
    injection Hj as <-. reflexivity. }
  split; [done|]. intros j m Hj. by apply Hc in Hj.
Qed.

Lemma _get_migrations_list_states_witness :
  coherent [plain "0001_foo" "foo" 1 "done"; plain "0002_foo" "foo" 2 "pending"]
    world_foo_done /\
  coherent [plain "0001_foo" "foo" 1 "done"; plain "0002_foo" "foo" 2 "pending"]
    (snd (_get_migrations_list env_two_foo world_foo_done)).
Proof.
  apply (_get_migrations_list_states env_two_foo world_foo_done).
  vm_compute. reflexivity.
Defined.

Lemma migrate_one_coherent skip auto i loc w loc1 w1 :
  NoDup (map id_ (all_migrations loc)) ->
  coherent (all_migrations loc) w ->
  migrate_one skip auto i loc w = (Ok loc1, w1) ->
  coherent (all_migrations loc1) w1.
Proof.
  intros Hnd Hc. rewrite migrate_one_verdict.
  pose proof (verdict_lookup skip auto i loc) as Hlook.
  destruct (verdict skip auto i loc) as [|m|m e|m ids|m|m loc0] eqn:Hv;
    try (by intros [= <- <-]).
  destruct (verdict_Performed _ _ _ _ _ _ Hv) as (_ & Hall & _).
  assert (forall s st evs,
            coherent (all_migrations (store_state i st loc0))
              (after_write s (id_ m) st evs w)) as Hwrite.
  { intros s st evs j m' Hj. simpl in Hj. rewrite Hall in Hj.
    rewrite after_write_state.
    destruct (decide (i = j)) as [<-|Hne].
    - rewrite list_lookup_alter_eq, Hlook in Hj. injection Hj as <-.
      simpl. by case_decide.
    - rewrite list_lookup_alter_ne in Hj by done.
      case_decide as Hid; [|by apply Hc in Hj].
      destruct Hne. apply (NoDup_lookup _ i j (id_ m) Hnd).
      + by rewrite list_lookup_fmap, Hlook.
      + by rewrite list_lookup_fmap, Hj, Hid. }
  destruct skip.
  - rewrite perform_skip. intros [= <- <-]. apply Hwrite.
  - rewrite perform_run. destruct (run m (sys w)) as [s [e|]];
      intros [= <- <-]; [|apply Hwrite].
    rewrite Hall. intros j m' Hj. by apply Hc in Hj.
Qed.

(** X9: when no two migration objects bear the same id and their states
    are those of the state file, a run of the loop that comes to its end
    leaves them so: each object's state is the one the file records for
    its id, "pending" when there is none. *)
Theorem run_loop_keeps_coherent (skip auto : bool) (targets : list nat)
  (loc loc' : Locals) (w w' : World) :
  NoDup (map id_ (all_migrations loc)) ->
  coherent (all_migrations loc) w ->
  run_loop skip auto targets loc w = (Ok loc', w') ->
  coherent (all_migrations loc') w' /\
  map id_ (all_migrations loc') = map id_ (all_migrations loc).
Proof.
  revert loc w. induction targets as [|i rest IH]; intros loc w Hnd Hc; simpl.
  - by intros [= <- <-].
  - unfold bind.
    destruct (migrate_one skip auto i loc w) as [[loc1|e] w1] eqn:E;
      [|discriminate].
    pose proof (migrate_one_coherent _ _ _ _ _ _ _ Hnd Hc E) as Hc1.
    destruct (migrate_one_footprint _ _ _ (all_migrations loc) _ _ _ _
                eq_refl E) as [_ Hu].
    pose proof (unstated_ids _ _ (Hu _ eq_refl)) as Hids.
    intros Hrest. rewrite <- Hids in Hnd.
    destruct (IH _ _ Hnd Hc1 Hrest) as [Hc' Hids']. split; [done|].
    by rewrite Hids'.
Qed.

Lemma run_loop_keeps_coherent_witness :
  coherent
    (all_migrations
       (on_store [plain "0001_foo" "foo" 1 "done";
                  plain "0002_foo" "foo" 2 "done"] false))
    (snd (run_loop false false [0; 1]
            (on_store [plain "0001_foo" "foo" 1 "pending";
                       plain "0002_foo" "foo" 2 "pending"] false) world0)) /\
  map id_ (all_migrations
             (on_store [plain "0001_foo" "foo" 1 "done";
                        plain "0002_foo" "foo" 2 "done"] false))
  = map id_ (all_migrations
               (on_store [plain "0001_foo" "foo" 1 "pending";
                          plain "0002_foo" "foo" 2 "pending"] false)).
Proof.
  apply (run_loop_keeps_coherent false false [0; 1]
           (on_store [plain "0001_foo" "foo" 1 "pending";
                      plain "0002_foo" "foo" 2 "pending"] false) _ world0).
  - compute_done.
  - intros [|[|j]] m; simpl; intros [= <-]; reflexivity.
  - vm_compute. reflexivity.
Defined.

(** ** Dependencies within one run *)

Lemma state_of_lookup (l : list Migration) (i : nat) (m : Migration) :
  l !! i = Some m -> state_of l i = state m.
Proof. unfold state_of. by intros ->. Qed.

(** X10: a failure reaches the dependents: when the body of a pending
    target raises, a later target of the same run that depends on it is
    left aside, so after both iterations only the first body has run
    and neither the objects nor the state file have changed. *)
Theorem failed_dependency_blocks_dependent (auto : bool) (i j : nat)
  (loc loc1 : Locals) (w : World) (m mj : Migration) (s : Sys) (e : Exn)
  (deps : list nat) :
  verdict false auto i loc = Performed m loc1 ->
  is_pending (state m) = true ->
  run m (sys w) = (s, Some e) ->
  all_migrations loc !! j = Some mj ->
  rmap (get_matching_migration (all_migrations loc)) (dependencies mj)
  = Ok deps ->
  existsb (Nat.eqb i) deps = true ->
  exists ev,
    run_loop false auto [i; j] loc w
    = (Ok loc1,
       add_log [ev]
         (after_body s [OpStart operation; running m;
                        LogError (has_failed m e);
                        OpError operation (has_failed m e)] w)) /\
    started_id ev = None /\
    all_migrations loc1 = all_migrations loc.
Proof.
  intros Hv Hp Hrun Hj Hdeps Hin.
  destruct (verdict_Performed _ _ _ _ _ _ Hv) as (Hi & Hall & _).
  destruct (migrate_one_blocked auto j loc1
              (after_body s [OpStart operation; running m;
                             LogError (has_failed m e);
                             OpError operation (has_failed m e)] w)
              mj deps) as (ev & Hstep & Hev).
  - by rewrite Hall.
  - by rewrite Hall.
  - rewrite Hall. apply existsb_exists.
    apply existsb_exists in Hin as (d & Hd & Heq%Nat.eqb_eq). subst d.
    exists i. split; [done|]. by rewrite (state_of_lookup _ _ _ Hi).
  - exists ev. split; [|done]. simpl. unfold bind.
    rewrite migrate_one_verdict, Hv, perform_run, Hrun, Hstep. reflexivity.
Qed.

Lemma failed_dependency_blocks_dependent_witness :
  exists ev,
    run_loop false false [0; 1]
      (on_store [failing "0001_a" "a" 1 "pending";
                 {| id_ := "0002_b"; number := 2; name := "b"; mode := "auto";
                    dependencies := ["0001_a"]; disclaimer := None;
                    run := succeed; state := "pending" |}] false) world0
    = (Ok (on_store [failing "0001_a" "a" 1 "pending";
                     {| id_ := "0002_b"; number := 2; name := "b";
                        mode := "auto"; dependencies := ["0001_a"];
                        disclaimer := None; run := succeed;
                        state := "pending" |}] false),
       add_log [ev]
         (after_body sys0
            [OpStart operation; running (failing "0001_a" "a" 1 "pending");
             LogError (has_failed (failing "0001_a" "a" 1 "pending") boom);
             OpError operation
               (has_failed (failing "0001_a" "a" 1 "pending") boom)]
            world0)) /\
    started_id ev = None /\
    all_migrations
      (on_store [failing "0001_a" "a" 1 "pending";
                 {| id_ := "0002_b"; number := 2; name := "b"; mode := "auto";
                    dependencies := ["0001_a"]; disclaimer := None;
                    run := succeed; state := "pending" |}] false)
    = all_migrations
        (on_store [failing "0001_a" "a" 1 "pending";
                   {| id_ := "0002_b"; number := 2; name := "b";
                      mode := "auto"; dependencies := ["0001_a"];
                      disclaimer := None; run := succeed;
                      state := "pending" |}] false).
Proof.
  apply (failed_dependency_blocks_dependent false 0 1 _ _ world0
           (failing "0001_a" "a" 1 "pending")
           {| id_ := "0002_b"; number := 2; name := "b"; mode := "auto";
              dependencies := ["0001_a"]; disclaimer := None;
              run := succeed; state := "pending" |} sys0 boom [0]);
    reflexivity.
Defined.

Lemma find_index_alter (target : string) (l : list Migration) (i k : nat)
  (st : string) :
  find_index (matches target) (alter (set_state st) i l) k
  = find_index (matches target) l k.
Proof.
  revert i k. induction l as [|m l IH]; intros [|i] k; simpl; try done.
  destruct (matches target m); [done|]. apply IH.
Qed.

Lemma get_matching_migration_alter (l : list Migration) (i : nat)
  (st target : string) :
  get_matching_migration (alter (set_state st) i l) target
  = get_matching_migration l target.
Proof. unfold get_matching_migration. by rewrite find_index_alter. Qed.

Lemma rmap_ext {A B} (f g : A -> result B) (l : list A) :
  (forall x, f x = g x) -> rmap f l = rmap g l.
Proof.
  intros H. induction l as [|x l IH]; simpl; [done|]. by rewrite H, IH.
Qed.

Lemma filter_none {A} (p : A -> bool) (l : list A) :
  Forall (fun x => p x = false) l -> filter (fun x => p x = true) l = [].
Proof.
  induction 1 as [|x l Hx _ IH]; [done|].
  rewrite filter_cons. case_decide; [congruence|done].
Qed.

(** X11: a success reaches the dependents: the loop sets the state of a
    migration object as soon as its body has returned, so a later target
    of the same run whose other dependencies are decided, and which
    carries no disclaimer, is run in its turn; when its body returns as
    well, both are "done" in the state file and on the objects. *)
Theorem successful_dependency_enables_dependent (auto : bool) (i j : nat)
  (loc loc1 : Locals) (w : World) (m mj : Migration) (s1 s2 : Sys)
  (deps : list nat) :
  i <> j ->
  verdict false auto i loc = Performed m loc1 ->
  run m (sys w) = (s1, None) ->
  all_migrations loc !! j = Some mj ->
  auto && String.eqb (mode mj) "manual" = false ->
  Py.truthy (disclaimer mj) = false ->
  rmap (get_matching_migration (all_migrations loc)) (dependencies mj)
  = Ok deps ->
  forallb (fun d => Nat.eqb d i
                    || negb (is_pending (state_of (all_migrations loc) d)))
    deps = true ->
  run mj s1 = (s2, None) ->
  exists loc' w',
    run_loop false auto [i; j] loc w = (Ok loc', w') /\
    sys w' = s2 /\
    tools_migrations_state w' !! id_ m = Some "done" /\
    tools_migrations_state w' !! id_ mj = Some "done" /\
    state_of (all_migrations loc') i = "done" /\
    state_of (all_migrations loc') j = "done".
Proof.
  intros Hij Hv Hrun Hj Hmode Hdis Hdeps Hok Hrunj.
  destruct (verdict_Performed _ _ _ _ _ _ Hv) as (Hi & Hall & _).
  set (loc2 := store_state i "done" loc1).
  assert (all_migrations loc2 = alter (set_state "done") i (all_migrations loc))
    as Hall2 by (by simpl; rewrite Hall).
  assert (verdict false auto j loc2 = Performed mj loc2) as Hvj.
  { unfold verdict. rewrite Hall2, list_lookup_alter_ne, Hj, Hmode by done.
    simpl. unfold dependencies_pending. rewrite Hall2.
    rewrite (rmap_ext _ (get_matching_migration (all_migrations loc)))
      by (intros t; apply get_matching_migration_alter).
    rewrite Hdeps. simpl. rewrite filter_none; [by rewrite Hdis|].
    apply Forall_forall. intros d Hd%list_elem_of_In.
    rewrite forallb_forall in Hok. specialize (Hok d Hd).
    rewrite state_of_alter. case_decide as Hdi.
    - subst d. by rewrite Hi.
    - apply orb_true_iff in Hok as [Heq%Nat.eqb_eq|Hnp]; [congruence|].
      by apply negb_true_iff. }
  eexists _, _. split.
  { simpl. unfold bind.
    rewrite migrate_one_verdict, Hv, perform_run, Hrun.
    fold loc2. rewrite migrate_one_verdict, Hvj, perform_run.
    unfold after_write at 2. simpl. rewrite Hrunj. reflexivity. }
  split; [done|]. rewrite !after_write_state. simpl.
  rewrite !state_of_alter, Hall, Hi.
  rewrite list_lookup_alter_eq, Hi, list_lookup_alter_ne, Hj by done.
  repeat split; repeat case_decide; done.
Qed.

Lemma successful_dependency_enables_dependent_witness :
  exists loc' w',
    run_loop false false [0; 1]
      (on_store [plain "0001_a" "a" 1 "pending";
                 dependent "0002_b" "b" 2 ["0001_a"]] false) world0
    = (Ok loc', w') /\
    sys w' = sys0 /\
    tools_migrations_state w' !! id_ (plain "0001_a" "a" 1 "pending")
    = Some "done" /\
    tools_migrations_state w' !! id_ (dependent "0002_b" "b" 2 ["0001_a"])
    = Some "done" /\
    state_of (all_migrations loc') 0 = "done" /\
    state_of (all_migrations loc') 1 = "done".
Proof.
  apply (successful_dependency_enables_dependent false 0 1
           (on_store [plain "0001_a" "a" 1 "pending";
                      dependent "0002_b" "b" 2 ["0001_a"]] false)
           (on_store [plain "0001_a" "a" 1 "pending";
                      dependent "0002_b" "b" 2 ["0001_a"]] false)
           world0 (plain "0001_a" "a" 1 "pending")
           (dependent "0002_b" "b" 2 ["0001_a"]) sys0 sys0 [0]);
    try reflexivity.
  lia.
Defined.

(** ** Skipping everything at installation *)

Lemma foldl_skipped (l : list Migration) (init : gmap string string)
  (k : string) :
  foldl (fun new_states migration =>
           <[id_ migration := "skipped"]> new_states) init l !! k
  = if decide (k ∈ map id_ l) then Some "skipped" else init !! k.
Proof.
  revert init. induction l as [|m l IH]; intros init; simpl.
  - done.
  - rewrite IH. rewrite lookup_insert.
    destruct (decide (k ∈ map id_ l)) as [Hin|Hnin].
    + rewrite decide_True; [done|]. by right.
    + destruct (decide (id_ m = k)) as [<-|Hne].
      * rewrite decide_True; [done|]. by left.
      * rewrite decide_False; [done|].
        intros [?|?]%elem_of_cons; congruence.
Qed.

(** X12: [_skip_all_migrations] replaces the state file by one that
    records "skipped" for exactly the discovered migrations: entries the
    file had for other ids are gone, and the machine is untouched. *)
Theorem _skip_all_migrations_state (env : Env) (w w1 : World)
  (all : list Migration) :
  _get_migrations_list env w = (Ok all, w1) ->
  fst (_skip_all_migrations env w) = Ok tt /\
  sys (snd (_skip_all_migrations env w)) = sys w /\
  forall k,
    tools_migrations_state (snd (_skip_all_migrations env w)) !! k
    = if decide (k ∈ map id_ all) then Some "skipped" else None.
Proof.
  intros Hlist.
  destruct (_get_migrations_list_log _ _ _ _ Hlist) as [evs ->].
  unfold _skip_all_migrations, bind. rewrite Hlist.
  split; [done|]. split; [done|]. intros k.
  rewrite tools_migrations_state_set_yaml, foldl_skipped.
  by rewrite lookup_empty.
Qed.

Lemma _skip_all_migrations_state_witness :
  fst (_skip_all_migrations env_two_foo world_foo_done) = Ok tt /\
  sys (snd (_skip_all_migrations env_two_foo world_foo_done))
  = sys world_foo_done /\
  forall k,
    tools_migrations_state
      (snd (_skip_all_migrations env_two_foo world_foo_done)) !! k
    = if decide (k ∈ map id_ [plain "0001_foo" "foo" 1 "done";
                              plain "0002_foo" "foo" 2 "pending"])
      then Some "skipped" else None.
Proof.
  apply (_skip_all_migrations_state env_two_foo world_foo_done
           (snd (_get_migrations_list env_two_foo world_foo_done))).
  vm_compute. reflexivity.
Defined.

(** X13: after [_skip_all_migrations] nothing is pending: the listing of
    the pending migrations is empty, and a run without targets reports
    that there is nothing to do and leaves the machine and the state
    file as they are. *)
Theorem _skip_all_migrations_then_run (env : Env) (auto accept : bool)
  (w w2 : World) :
  _skip_all_migrations env w = (Ok tt, w2) ->
  exists evs,
    tools_migrations_list env true false w2 = (Ok [], add_log evs w2) /\
    tools_migrations_run env [] false auto false accept w2
    = (Ok tt, add_log (evs ++ [nothing_to_do]) w2).
Proof.
  unfold _skip_all_migrations, bind.
  destruct (_get_migrations_list env w) as [[all|e] w1] eqn:Hlist;
    [|discriminate].
  intros [= Hw2].
  destruct (_get_migrations_list_any_world _ _ _ _ Hlist) as (evs & -> & Hany).
  exists evs.
  assert (tools_migrations_state w2
          = foldl (fun new_states migration =>
                     <[id_ migration := "skipped"]> new_states)
              (∅ : gmap string string) all) as Hst
    by (by rewrite <- Hw2).
  assert (Forall (fun m => is_pending (state m) = false)
            (map (restate (tools_migrations_state w2)) all)) as Hnone.
  { apply Forall_forall. intros m1 Hm1.
    apply list_elem_of_fmap in Hm1 as (m & -> & Hm). simpl.
    rewrite Hst, foldl_skipped.
    rewrite decide_True; [done|]. apply list_elem_of_fmap. eauto. }
  split.
  - unfold tools_migrations_list, bind. simpl. rewrite (Hany w2).
    unfold ret. f_equal. f_equal.
    induction Hnone as [|m l Hm _ IH]; [done|]. simpl.
    rewrite filter_cons. case_decide as Hp; [|done].
    unfold to_info in Hp. simpl in Hp. congruence.
  - unfold tools_migrations_run, bind. rewrite (Hany w2).
    replace (Nat.ltb 1 (b2n auto + b2n false + b2n false)) with false
      by by destruct auto.
    unfold lift. simpl select_targets. rewrite indices_where_none by done.
    unfold emit, ret, add_log, nothing_to_do. simpl.
    by rewrite <- app_assoc.
Qed.

Lemma _skip_all_migrations_then_run_witness :
  exists evs,
    tools_migrations_list env_two_foo true false
      (snd (_skip_all_migrations env_two_foo world0))
    = (Ok [], add_log evs (snd (_skip_all_migrations env_two_foo world0))) /\
    tools_migrations_run env_two_foo [] false false false false
      (snd (_skip_all_migrations env_two_foo world0))
    = (Ok tt,
       add_log (evs ++ [nothing_to_do])
         (snd (_skip_all_migrations env_two_foo world0))).
Proof.
  apply (_skip_all_migrations_then_run env_two_foo false false world0).
  vm_compute. reflexivity.
Defined.

(** ** What is listed *)

Lemma filter_partition {A} (p : A -> bool) (l : list A) :
  filter (fun x => p x = true) l ++ filter (fun x => p x = false) l ≡ₚ l.
Proof.
  induction l as [|x l IH]; [done|].
  rewrite !filter_cons. destruct (p x) eqn:Hp.
  - rewrite decide_True, decide_False by done. simpl. by rewrite IH.
  - rewrite decide_False, decide_True by done.
    rewrite <- Permutation_middle. by rewrite IH.
Qed.

(** X14: the listing of the pending migrations and the listing of the
    done ones split the full listing: together they hold every listed
    migration once, the first those whose state is "pending" and the
    second all the others. *)
Theorem tools_migrations_list_partition (env : Env) (w w' : World)
  (listed : list MigrationInfo) :
  tools_migrations_list env false false w = (Ok listed, w') ->
  exists pending done,
    tools_migrations_list env true false w = (Ok pending, w') /\
    tools_migrations_list env false true w = (Ok done, w') /\
    pending ++ done ≡ₚ listed /\
    Forall (fun i => info_state i = "pending") pending /\
    Forall (fun i => info_state i <> "pending") done.
Proof.
  unfold tools_migrations_list, bind. simpl.
  destruct (_get_migrations_list env w) as [[ms|e] w1]; [|discriminate].
  unfold ret. intros [= <- <-].
  eexists _, _. split; [reflexivity|]. split; [reflexivity|]. split; [|split].
  - apply filter_partition.
  - apply Forall_forall. intros i [Hi _]%list_elem_of_filter.
    by apply String.eqb_eq.
  - apply Forall_forall. intros i [Hi _]%list_elem_of_filter.
    by apply String.eqb_neq.
Qed.

Lemma tools_migrations_list_partition_witness :
  exists pending done,
    tools_migrations_list env_two_foo true false world_foo_done
    = (Ok pending,
       snd (tools_migrations_list env_two_foo false false world_foo_done)) /\
    tools_migrations_list env_two_foo false true world_foo_done
    = (Ok done,
       snd (tools_migrations_list env_two_foo false false world_foo_done)) /\
    pending ++ done
    ≡ₚ map to_info [plain "0001_foo" "foo" 1 "done";
                    plain "0002_foo" "foo" 2 "pending"] /\
    Forall (fun i => info_state i = "pending") pending /\
    Forall (fun i => info_state i <> "pending") done.
Proof.
  apply (tools_migrations_list_partition env_two_foo world_foo_done).
  vm_compute. reflexivity.
Defined.

Lemma insert_sorted_perm {A} (key : A -> string) (x : A) (l : list A) :
  Py.insert_sorted key x l ≡ₚ x :: l.
Proof.
  induction l as [|y l IH]; simpl; [done|].
  destruct (String.ltb (key y) (key x)); [|done].
  rewrite IH. apply perm_swap.
Qed.

Lemma sorted_perm {A} (key : A -> string) (l : list A) :
  Py.sorted key l ≡ₚ l.
Proof.
  induction l as [|x l IH]; simpl; [done|].
  rewrite insert_sorted_perm. by rewrite IH.
Qed.

Lemma _load_migration_id env f w m w' :
  _load_migration env f w = (Ok m, w') -> id_ m = Py.drop_last3 f.
Proof.
  unfold _load_migration, bind, emit, ret, raise. simpl.
  destruct (import_module env (Py.drop_last3 f)) as [cls|]; simpl;
    [|discriminate].
  unfold Migration_init.
  destruct (Py.int _); [|discriminate].
  destruct (snd _); [|discriminate]. by intros [= <- _].
Qed.

Lemma load_all_ids env states files :
  forall acc w l w',
    load_all env states files acc w = (Ok l, w') ->
    map id_ l = map id_ acc ++ map Py.drop_last3 files.
Proof.
  induction files as [|f files IH]; intros acc w l w'; simpl.
  - intros [= <- _]. by rewrite app_nil_r.
  - unfold bind at 1.
    destruct (_load_migration env f w) as [[m|e] w0] eqn:E; [|discriminate].
    intros H. apply IH in H. rewrite H, map_app. simpl.
    rewrite (_load_migration_id _ _ _ _ _ E). by rewrite <- app_assoc.
Qed.

(** X15: when the migrations directory is listed, the registry holds one
    migration per file whose name matches the pattern, with the file name
    less its last three characters as id; the other files are ignored. *)
Theorem _get_migrations_list_ids (env : Env) (files : list string)
  (w w' : World) (migrations : list Migration) :
  data_migrations env = Listing files ->
  _get_migrations_list env w = (Ok migrations, w') ->
  map id_ migrations
  ≡ₚ map Py.drop_last3 (filter (fun x => migration_file_re x = true) files).
Proof.
  unfold _get_migrations_list. intros ->. unfold bind, ret.
  destruct (load_all _ _ _ _ w) as [[l|e] w0] eqn:E; [|discriminate].
  intros [= <- _]. apply load_all_ids in E. simpl in E.
  rewrite <- E. apply fmap_Permutation, sorted_perm.
Qed.

Lemma _get_migrations_list_ids_witness :
  map id_ [plain "0001_foo" "foo" 1 "pending";
           plain "0002_foo" "foo" 2 "pending"]
  ≡ₚ map Py.drop_last3
       (filter (fun x => migration_file_re x = true)
          ["0002_foo.py"; "README.md"; "0001_foo.py"]).
Proof.
  apply (_get_migrations_list_ids env_two_foo _ world0
           (snd (_get_migrations_list env_two_foo world0))).
  - reflexivity.
  - vm_compute. reflexivity.
Defined.

Lemma load_all_fails env states files :
  forall acc w,
    (exists f, f ∈ files /\ import_module env (Py.drop_last3 f) = None) ->
    exists e w', load_all env states files acc w = (Raise e, w').
Proof.
  induction files as [|f files IH]; intros acc w (f0 & Hin & Himp).
  - by apply elem_of_nil in Hin.
  - simpl. unfold bind at 1.
    destruct (_load_migration env f w) as [[m|e] w0] eqn:E; [|eauto].
    apply IH. exists f0. split; [|done].
    apply elem_of_cons in Hin as [->|Hin]; [|done].
    unfold _load_migration, bind, emit, raise in E. simpl in E.
    rewrite Himp in E. discriminate.
Qed.

(** X16: a file that matches the pattern but cannot be imported makes
    discovery fail with "migrations_failed_to_load_migration", and with
    it the listing, the run and the initial skip; the machine and the
    state file are left as they were. *)
Theorem discovery_failure_is_fatal (env : Env) (files : list string)
  (f : string) (w : World) (targets : list string)
  (skip auto force_rerun accept : bool) :
  data_migrations env = Listing files ->
  f ∈ files -> migration_file_re f = true ->
  import_module env (Py.drop_last3 f) = None ->
  exists e w',
    load_failure e /\
    sys w' = sys w /\ migrations_yaml w' = migrations_yaml w /\
    _get_migrations_list env w = (Raise e, w') /\
    tools_migrations_list env false false w = (Raise e, w') /\
    tools_migrations_run env targets skip auto force_rerun accept w
    = (Raise e, w') /\
    _skip_all_migrations env w = (Raise e, w').
Proof.
  intros Hdir Hin Hre Himp.
  assert (exists e w', _get_migrations_list env w = (Raise e, w'))
    as (e & w' & Hlist).
  { unfold _get_migrations_list. rewrite Hdir. unfold bind.
    destruct (load_all_fails env (tools_migrations_state w)
                (filter (fun x => migration_file_re x = true) files) [] w)
      as (e & w' & ->); [|eauto].
    exists f. split; [|done]. by apply list_elem_of_filter. }
  exists e, w'.
  destruct (_get_migrations_list_log _ _ _ _ Hlist) as [evs Hw'].
  split; [by eapply _get_migrations_list_raises|].
  split; [by rewrite Hw'|]. split; [by rewrite Hw'|]. split; [done|].
  unfold tools_migrations_list, tools_migrations_run, _skip_all_migrations,
    bind. simpl. by rewrite Hlist.
Qed.

Lemma discovery_failure_is_fatal_witness :
  exists e w',
    load_failure e /\
    sys w' = sys world_foo_done /\
    migrations_yaml w' = migrations_yaml world_foo_done /\
    _get_migrations_list
      {| data_migrations := Listing ["0001_foo.py"; "0002_broken.py"];
         import_module := fun id => if String.eqb id "0001_foo"
                                    then Some plain_class else None |}
      world_foo_done = (Raise e, w') /\
    tools_migrations_list
      {| data_migrations := Listing ["0001_foo.py"; "0002_broken.py"];
         import_module := fun id => if String.eqb id "0001_foo"
                                    then Some plain_class else None |}
      false false world_foo_done = (Raise e, w') /\
    tools_migrations_run
      {| data_migrations := Listing ["0001_foo.py"; "0002_broken.py"];
         import_module := fun id => if String.eqb id "0001_foo"
                                    then Some plain_class else None |}
      ["0001_foo"] false false true false world_foo_done = (Raise e, w') /\
    _skip_all_migrations
      {| data_migrations := Listing ["0001_foo.py"; "0002_broken.py"];
         import_module := fun id => if String.eqb id "0001_foo"
                                    then Some plain_class else None |}
      world_foo_done = (Raise e, w').
Proof.
  apply (discovery_failure_is_fatal _ ["0001_foo.py"; "0002_broken.py"]
           "0002_broken.py").
  - reflexivity.
  - compute_done.
  - reflexivity.
  - reflexivity.
Defined.

(** ** How a listed migration can be designated *)

Lemma load_all_Forall (P : Migration -> Prop) env states files :
  (forall f w m w', _load_migration env f w = (Ok m, w') -> P m) ->
  (forall st m, P m -> P (set_state st m)) ->
  forall acc w l w',
    Forall P acc -> load_all env states files acc w = (Ok l, w') ->
    Forall P l.
Proof.
  intros Hload Hset. induction files as [|f files IH];
    intros acc w l w' Hacc; simpl.
  - by intros [= <- _].
  - unfold bind at 1.
    destruct (_load_migration env f w) as [[m|e] w0] eqn:E; [|discriminate].
    apply IH. apply Forall_app. split; [done|].
    constructor; [|constructor]. apply Hset. by eapply Hload.
Qed.

Lemma _load_migration_named env f w m w' :
  _load_migration env f w = (Ok m, w') -> named m.
Proof.
  unfold _load_migration, bind, emit, ret, raise. simpl.
  destruct (import_module env (Py.drop_last3 f)) as [cls|]; simpl;
    [|discriminate].
  unfold Migration_init, named.
  destruct (Py.int _); [|discriminate].
  destruct (snd (Py.split_first (Py.drop_last3 f))) eqn:E; [|discriminate].
  by intros [= <- _].
Qed.

Lemma _get_migrations_list_Forall (P : Migration -> Prop) env w ms w' :
  (forall f w m w', _load_migration env f w = (Ok m, w') -> P m) ->
  (forall st m, P m -> P (set_state st m)) ->
  _get_migrations_list env w = (Ok ms, w') -> Forall P ms.
Proof.
  intros Hload Hset. unfold _get_migrations_list.
  destruct (data_migrations env) as [|path|files].
  - intros [= <- _]. constructor.
  - unfold bind, emit, ret. intros [= <- _]. constructor.
  - unfold bind, ret.
    destruct (load_all _ _ _ _ w) as [[l|e0] w0] eqn:E; [|discriminate].
    intros [= <- _].
    apply (load_all_Forall P) in E; [|done..|constructor].
    apply Forall_forall. intros m Hm%sorted_elem.
    rewrite Forall_forall in E. by apply E.
Qed.

Lemma split_first_name (s r : string) :
  snd (Py.split_first s) = Some r ->
  s = (fst (Py.split_first s) ++ "_" ++ r)%string.
Proof.
  revert r. induction s as [|c s IH]; intros r; simpl; [discriminate|].
  destruct (Ascii.eqb_spec c Py.underscore) as [->|Hne]; simpl.
  - by intros [= ->].
  - destruct (Py.split_first s) as [a b]. simpl in *.
    intros Hb. by rewrite (IH r Hb) at 1.
Qed.

(** X17: the id of a listed migration is a non-empty run of digits, an
    underscore and its name, and its number is the value of the digits;
    the id, the name and the digits as written each designate a listed
    migration, so none of the three is refused as a target. *)
Theorem listed_migration_can_be_designated (env : Env) (w w' : World)
  (migrations : list Migration) (m : Migration) :
  _get_migrations_list env w = (Ok migrations, w') ->
  m ∈ migrations ->
  exists digits,
    id_ m = (digits ++ "_" ++ name m)%string /\
    Py.int digits = Some (number m) /\
    (exists i, get_matching_migration migrations (id_ m) = Ok i) /\
    (exists i, get_matching_migration migrations (name m) = Ok i) /\
    (exists i, get_matching_migration migrations digits = Ok i).
Proof.
  intros Hlist Hm.
  pose proof (_get_migrations_list_Forall numbered _ _ _ _
                (_load_migration_numbered env) (fun _ _ H => H) Hlist) as Hn.
  pose proof (_get_migrations_list_Forall named _ _ _ _
                (_load_migration_named env) (fun _ _ H => H) Hlist) as Hnm.
  rewrite Forall_forall in Hn, Hnm.
  specialize (Hn m Hm). specialize (Hnm m Hm).
  exists (fst (Py.split_first (id_ m))).
  split; [by apply split_first_name|]. split; [done|].
  assert (forall t, matches t m = true ->
                    exists i, get_matching_migration migrations t = Ok i)
    as Hfound.
  { intros t Ht. apply get_matching_migration_known.
    unfold count_matches.
    assert (m ∈ filter (fun x => matches t x = true) migrations) as Hin
      by (by apply list_elem_of_filter).
    destruct (filter _ migrations); [by apply elem_of_nil in Hin|].
    simpl. lia. }
  unfold matches in Hfound.
  split; [|split]; apply Hfound; rewrite String.eqb_refl;
    by rewrite ?orb_true_r.
Qed.

Lemma listed_migration_can_be_designated_witness :
  exists digits,
    id_ (plain "0002_foo" "foo" 2 "pending")
    = (digits ++ "_" ++ name (plain "0002_foo" "foo" 2 "pending"))%string /\
    Py.int digits = Some (number (plain "0002_foo" "foo" 2 "pending")) /\
    (exists i, get_matching_migration
                 [plain "0001_foo" "foo" 1 "pending";
                  plain "0002_foo" "foo" 2 "pending"]
                 (id_ (plain "0002_foo" "foo" 2 "pending")) = Ok i) /\
    (exists i, get_matching_migration
                 [plain "0001_foo" "foo" 1 "pending";
                  plain "0002_foo" "foo" 2 "pending"]
                 (name (plain "0002_foo" "foo" 2 "pending")) = Ok i) /\
    (exists i, get_matching_migration
                 [plain "0001_foo" "foo" 1 "pending";
                  plain "0002_foo" "foo" 2 "pending"] digits = Ok i).
Proof.
  apply (listed_migration_can_be_designated env_two_foo world0
           (snd (_get_migrations_list env_two_foo world0))).
  - vm_compute. reflexivity.
  - right. left.
Defined.

(** ** More on the backup and rollback wrapper *)

Lemma strip_prefix_extension (p x q : Path) :
  is_under p q = false -> strip_prefix (p ++ x) q = None.
Proof.
  unfold is_under. intros H.
  destruct (strip_prefix (p ++ x) q) as [r|] eqn:E; [|done].
  apply strip_prefix_Some in E. subst q.
  by rewrite <- app_assoc, strip_prefix_self in H.
Qed.

Lemma watched_not_above (ts : string) (q : Path) :
  watched q = true -> is_under q (premigration ts) = false.
Proof.
  unfold watched, is_under at 1 2 3.
  destruct (strip_prefix etc_ldap q) as [r|] eqn:E1.
  { intros _. apply strip_prefix_Some in E1 as ->. reflexivity. }
  destruct (strip_prefix var_lib_ldap q) as [r|] eqn:E2.
  { intros _. apply strip_prefix_Some in E2 as ->. reflexivity. }
  destruct (strip_prefix etc_yunohost_apps q) as [r|] eqn:E3; [|done].
  intros _. apply strip_prefix_Some in E3 as ->. reflexivity.
Qed.

(** X18: when the file commands succeed and the backup folder is new,
    the body starts with the service started, the three watched trees as
    they were, and in the backup folder a copy of each of them, entry by
    entry. *)
Theorem backup_is_a_copy (s : Sys) (f1 : FS) :
  fs_wf (fs s) ->
  makedirs (premigration (clock s)) (fs s) = Ok f1 ->
  slapd_started (before_body sh_ideal f1 s) = true /\
  (forall r, fs (before_body sh_ideal f1 s)
               (premigration (clock s) ++ "ldap_config" :: r)
             = fs s (etc_ldap ++ r)) /\
  (forall r, fs (before_body sh_ideal f1 s)
               (premigration (clock s) ++ "ldap_db" :: r)
             = fs s (var_lib_ldap ++ r)) /\
  (forall r, fs (before_body sh_ideal f1 s)
               (premigration (clock s) ++ "apps_settings" :: r)
             = fs s (etc_yunohost_apps ++ r)) /\
  (forall q, watched q = true -> fs (before_body sh_ideal f1 s) q = fs s q).
Proof.
  intros Hwf Hmk. split; [reflexivity|].
  split; [intros r; by apply backup_ldap_config|].
  split; [intros r; by apply backup_ldap_db|].
  split; [intros r; by apply backup_apps_settings|].
  intros q Hq.
  pose proof (watched_not_backup (clock s) q Hq) as Hout.
  rewrite (copy3_elsewhere s f1 Hwf Hmk) by (by apply strip_prefix_extension).
  rewrite (copy2_elsewhere s f1 Hwf Hmk) by (by apply strip_prefix_extension).
  rewrite (copy1_elsewhere s f1 Hwf Hmk) by (by apply strip_prefix_extension).
  destruct (makedirs_Ok _ _ _ Hmk) as [_ Hf1].
  rewrite Hf1, (watched_not_above _ _ Hq). by destruct (fs s q).
Qed.

Lemma backup_is_a_copy_witness :
  fs (before_body sh_ideal ldap_tree_with_backup_folder sys_ldap)
    (premigration (clock sys_ldap) ++ "ldap_db" :: ["data.mdb"])
  = fs sys_ldap (var_lib_ldap ++ ["data.mdb"]).
Proof.
  refine (proj1 (proj2 (proj2 (backup_is_a_copy sys_ldap
                                 ldap_tree_with_backup_folder _ _))) _).
  - apply fs_of_list_wf. reflexivity.
  - reflexivity.
Defined.

(** X19: when the backup folder named after the current second exists
    already, the wrapper fails with
    "migration_ldap_can_not_backup_before_migration" whatever the body
    and the shell: no command but the start of the service is issued,
    the body is not run and the tree is untouched. *)
Theorem ldap_migration_backup_folder_exists (sh : Cmd -> FS -> FS)
  (run : Path -> Sys -> Sys * option Exn) (s : Sys) (n : Node) :
  fs s (premigration (clock s)) = Some n ->
  fst (ldap_migration sh run s)
  = set_slapd true
      (logger (LogInfo (m18n_n "migration_ldap_backup_before_migration" []))
         s) /\
  exists msg,
    snd (ldap_migration sh run s)
    = Some (YunohostError "migration_ldap_can_not_backup_before_migration"
              [("error", msg)]).
Proof.
  intros Hn. unfold ldap_migration, makedirs.
  change (clock (logger _ s)) with (clock s).
  change (fs (logger _ s)) with (fs s). rewrite Hn. split; [done|].
  by eexists.
Qed.

Lemma ldap_migration_backup_folder_exists_witness :
  fst (ldap_migration sh_ideal leave_lock_file
         (set_fs ldap_tree_with_backup_folder sys_ldap))
  = set_slapd true
      (logger (LogInfo (m18n_n "migration_ldap_backup_before_migration" []))
         (set_fs ldap_tree_with_backup_folder sys_ldap)) /\
  exists msg,
    snd (ldap_migration sh_ideal leave_lock_file
           (set_fs ldap_tree_with_backup_folder sys_ldap))
    = Some (YunohostError "migration_ldap_can_not_backup_before_migration"
              [("error", msg)]).
Proof.
  apply (ldap_migration_backup_folder_exists sh_ideal leave_lock_file
           (set_fs ldap_tree_with_backup_folder sys_ldap) Dir).
  reflexivity.
Defined.

(** X20: when the body returns, nothing is restored: the wrapper removes
    the backup folder and leaves the rest of the tree, and the service,
    as the body left them. *)
Theorem ldap_migration_success (run : Path -> Sys -> Sys * option Exn)
  (s s2 : Sys) (f1 : FS) :
  makedirs (premigration (clock s)) (fs s) = Ok f1 ->
  run (premigration (clock s)) (before_body sh_ideal f1 s) = (s2, None) ->
  snd (ldap_migration sh_ideal run s) = None /\
  slapd_started (fst (ldap_migration sh_ideal run s)) = slapd_started s2 /\
  forall q,
    fs (fst (ldap_migration sh_ideal run s)) q
    = if is_under (premigration (clock s)) q then None else fs s2 q.
Proof.
  intros Hmk Hrun. unfold ldap_migration.
  change (clock (logger _ s)) with (clock s).
  change (fs (logger _ s)) with (fs s). rewrite Hmk.
  change (os_system sh_ideal (SystemctlStart "slapd") _)
    with (before_body sh_ideal f1 s).
  by rewrite Hrun.
Qed.

Lemma ldap_migration_success_witness :
  snd (ldap_migration sh_ideal (fun _ s => (s, None)) sys_ldap) = None /\
  slapd_started (fst (ldap_migration sh_ideal (fun _ s => (s, None)) sys_ldap))
  = slapd_started (before_body sh_ideal ldap_tree_with_backup_folder sys_ldap)
  /\
  forall q,
    fs (fst (ldap_migration sh_ideal (fun _ s => (s, None)) sys_ldap)) q
    = if is_under (premigration (clock sys_ldap)) q then None
      else fs (before_body sh_ideal ldap_tree_with_backup_folder sys_ldap) q.
Proof.
  apply (ldap_migration_success (fun _ s => (s, None)) sys_ldap _
           ldap_tree_with_backup_folder); reflexivity.
Defined.

(** X21: the exit status of the backup copies is not looked at.  When
    every [cp] fails and copies nothing, the body is run all the same on
    an empty backup folder, and if it raises, the rollback removes
    /etc/ldap/slapd.d and the backup folder and restores nothing. *)
Theorem ldap_migration_backup_failure_unnoticed
  (run : Path -> Sys -> Sys * option Exn) (s s2 : Sys) (f1 : FS) (e : Exn) :
  makedirs (premigration (clock s)) (fs s) = Ok f1 ->
  run (premigration (clock s)) (before_body sh_cp_fails f1 s) = (s2, Some e) ->
  fs (before_body sh_cp_fails f1 s) = f1 /\
  snd (ldap_migration sh_cp_fails run s) = Some e /\
  forall q,
    fs (fst (ldap_migration sh_cp_fails run s)) q
    = if is_under (premigration (clock s)) q || is_under slapd_d q then None
      else fs s2 q.
Proof.
  intros Hmk Hrun. split; [reflexivity|]. unfold ldap_migration.
  change (clock (logger _ s)) with (clock s).
  change (fs (logger _ s)) with (fs s). rewrite Hmk.
  change (os_system sh_cp_fails (SystemctlStart "slapd") _)
    with (before_body sh_cp_fails f1 s).
  rewrite Hrun. split; [done|]. intros q.
  change (fs (fst (rollback sh_cp_fails (premigration (clock s)) s2, Some e)) q)
    with (if is_under (premigration (clock s)) q then None
          else if is_under slapd_d q then None else fs s2 q).
  by destruct (is_under (premigration (clock s)) q).
Qed.

Lemma ldap_migration_backup_failure_unnoticed_witness :
  fs (before_body sh_cp_fails ldap_tree_with_backup_folder sys_ldap)
  = ldap_tree_with_backup_folder /\
  snd (ldap_migration sh_cp_fails leave_lock_file sys_ldap) = Some boom /\
  forall q,
    fs (fst (ldap_migration sh_cp_fails leave_lock_file sys_ldap)) q
    = if is_under (premigration (clock sys_ldap)) q || is_under slapd_d q
      then None
      else fs (fst (leave_lock_file (premigration (clock sys_ldap))
                      (before_body sh_cp_fails ldap_tree_with_backup_folder
                         sys_ldap))) q.
Proof.
  apply (ldap_migration_backup_failure_unnoticed leave_lock_file sys_ldap _
           ldap_tree_with_backup_folder boom); reflexivity.
Defined.

(** ** The hooks run on a restore *)

Section RestoreHooksProperties.
Context {Version : Type}.
Variable parse : string -> Version.
Variables version_eqb version_gtb : Version -> Version -> bool.
Variable hooks : string -> RestoreHooks.
Variable installed_version : string.

Local Abbreviation loop :=
  (restore_loop parse version_gtb hooks).

Lemma restore_loop_app hook bv (a b : list Migration) (w : World) :
  loop hook bv (a ++ b) w =
  match loop hook bv a w with
  | (Ok _, w') => loop hook bv b w'
  | (Raise e, w') => (Raise e, w')
  end.
Proof.
  revert w. induction a as [|m a IH]; intros w; simpl; [done|].
  destruct (introduced_in_version (hooks (id_ m))) as [v|]; [|apply IH].
  destruct (hook (hooks (id_ m))) as [method|]; [|apply IH].
  destruct (version_gtb (parse v) bv); [|apply IH].
  unfold bind, emit, call_body. simpl.
  destruct (method (sys w)) as [s [e|]]; simpl; [done|]. apply IH.
Qed.

Lemma restore_loop_state_file hook bv (l : list Migration) (w : World) :
  migrations_yaml (snd (loop hook bv l w)) = migrations_yaml w.
Proof.
  revert w. induction l as [|m l IH]; intros w; simpl; [done|].
  destruct (introduced_in_version (hooks (id_ m))) as [v|]; [|apply IH].
  destruct (hook (hooks (id_ m))) as [method|]; [|apply IH].
  destruct (version_gtb (parse v) bv); [|apply IH].
  unfold bind, emit, call_body. simpl.
  destruct (method (sys w)) as [s [e|]]; simpl; [done|]. by rewrite IH.
Qed.

(** X22: the hooks of a restore are all or nothing: when the hook of a
    migration introduced after the version of the backup raises, the
    loop stops there and the error goes on to the caller; the hooks of
    the migrations that follow are not run. *)
Theorem restore_loop_stops_at_first_failure
  (hook : RestoreHooks -> option (Sys -> Sys * option Exn))
  (backup_version : Version) (before after : list Migration)
  (m : Migration) (w w1 : World) (v : string)
  (method : Sys -> Sys * option Exn) (s : Sys) (e : Exn) :
  loop hook backup_version before w = (Ok tt, w1) ->
  introduced_in_version (hooks (id_ m)) = Some v ->
  hook (hooks (id_ m)) = Some method ->
  version_gtb (parse v) backup_version = true ->
  method (sys w1) = (s, Some e) ->
  loop hook backup_version (before ++ m :: after) w
  = (Raise e, after_body s [running m; LogError (has_failed m e)] w1).
Proof.
  intros Hbefore Hv Hhook Hgt Hrun.
  rewrite restore_loop_app, Hbefore. simpl.
  rewrite Hv, Hhook, Hgt. unfold bind, emit, call_body, raise. simpl.
  rewrite Hrun. simpl. unfold after_body. simpl.
  by rewrite <- app_assoc.
Qed.

(** X23: the functions run on a restore never write the state file, and
    when the backup was made with the installed version they run no hook
    at all: the machine is as discovery left it. *)
Theorem restore_hooks_leave_state_file (env : Env)
  (backup_version app_id : string) (w : World) :
  migrations_yaml
    (snd (_tools_migrations_run_after_system_restore parse version_eqb
            version_gtb hooks installed_version env backup_version w))
  = migrations_yaml w /\
  migrations_yaml
    (snd (_tools_migrations_run_before_app_restore parse version_eqb
            version_gtb hooks installed_version env backup_version app_id w))
  = migrations_yaml w /\
  (version_eqb (parse backup_version) (parse installed_version) = true ->
   sys (snd (_tools_migrations_run_after_system_restore parse version_eqb
               version_gtb hooks installed_version env backup_version w))
   = sys w /\
   sys (snd (_tools_migrations_run_before_app_restore parse version_eqb
               version_gtb hooks installed_version env backup_version app_id
               w))
   = sys w).
Proof.
  unfold _tools_migrations_run_after_system_restore,
    _tools_migrations_run_before_app_restore, bind.
  destruct (_get_migrations_list env w) as [[all|e] w1] eqn:Hlist;
    destruct (_get_migrations_list_log _ _ _ _ Hlist) as [evs ->].
  - destruct (version_eqb (parse backup_version) (parse installed_version)).
    + repeat split.
    + split; [by rewrite restore_loop_state_file|].
      split; [by rewrite restore_loop_state_file|]. discriminate.
  - repeat split.
Qed.

End RestoreHooksProperties.

Lemma restore_loop_stops_at_first_failure_witness :
  restore_loop (fun v => v) (fun a b => String.ltb b a)
    (fun _ => {| introduced_in_version := Some "4.1";
                 run_after_system_restore := Some (fail_with boom);
                 run_before_app_restore := None |})
    run_after_system_restore "4.0"
    ([] ++ plain "0019_a" "a" 19 "done" :: [plain "0020_b" "b" 20 "done"])
    world0
  = (Raise boom,
     after_body sys0
       [running (plain "0019_a" "a" 19 "done");
        LogError (has_failed (plain "0019_a" "a" 19 "done") boom)] world0).
Proof.
  apply (restore_loop_stops_at_first_failure (fun v => v)
           (fun a b => String.ltb b a) _ run_after_system_restore "4.0" []
           [plain "0020_b" "b" 20 "done"] (plain "0019_a" "a" 19 "done")
           world0 world0 "4.1" (fail_with boom) sys0 boom);
    reflexivity.
Defined.

(** ** The domain asked from a dyndns provider *)

Lemma py_split_cons (c : ascii) (s : string) :
  exists x l, py_split c s = x :: l.
Proof.
  destruct s as [|a r]; simpl; [by eexists _, _|].
  destruct (Ascii.eqb a c); [by eexists _, _|].
  destruct (py_split c r); by eexists _, _.
Qed.

Lemma py_join_cons (sep x y : string) (l : list string) :
  py_join sep (x :: y :: l) = (x ++ sep ++ py_join sep (y :: l))%string.
Proof. reflexivity. Qed.

Lemma py_join_split (s : string) : py_join "." (py_split dot s) = s.
Proof.
  induction s as [|a r IH]; [done|]. simpl py_split.
  destruct (py_split_cons dot r) as (x & l & Hr). rewrite Hr in *.
  destruct (Ascii.eqb_spec a dot) as [->|Hne].
  - rewrite py_join_cons, IH. reflexivity.
  - destruct l as [|y l].
    + change (String a x = String a r). f_equal. exact IH.
    + rewrite py_join_cons. rewrite py_join_cons in IH.
      change (String a (x ++ "." ++ py_join "." (y :: l))%string = String a r).
      f_equal. exact IH.
Qed.

Lemma py_split_label (label rest : string) :
  no_dot label = true ->
  py_split dot (label ++ "." ++ rest) = label :: py_split dot rest.
Proof.
  unfold no_dot. induction label as [|a r IH]; simpl.
  - intros _. reflexivity.
  - intros [Ha Hr]%andb_true_iff. apply negb_true_iff in Ha.
    rewrite Ha. by rewrite (IH Hr).
Qed.

Lemma py_split_no_dot (s : string) :
  no_dot s = true -> py_split dot s = [s].
Proof.
  unfold no_dot. induction s as [|a r IH]; simpl; [done|].
  intros [Ha Hr]%andb_true_iff. apply negb_true_iff in Ha.
  rewrite Ha. by rewrite (IH Hr).
Qed.

(** X24: the domain looked up in the provider's list is what follows the
    first dot of the domain asked for: "foo.nohost.me" is provided
    exactly when the provider lists "nohost.me", and a domain without
    dot exactly when it lists the empty string. *)
Theorem _dyndns_provides_parent_domain
  (download_json : string -> list string + string)
  (provider label : string) (dyndomains : list string) (w : World) :
  no_dot label = true ->
  download_json ("https://" ++ provider ++ "/domains")%string
  = inl dyndomains ->
  (forall rest,
     fst (_dyndns_provides download_json provider
            (label ++ "." ++ rest)%string w)
     = Ok (bool_decide (rest ∈ dyndomains))) /\
  fst (_dyndns_provides download_json provider label w)
  = Ok (bool_decide ("" ∈ dyndomains)).
Proof.
  intros Hlabel Hjson. unfold _dyndns_provides, bind, emit, ret. simpl.
  rewrite Hjson. unfold dyndomain_of. split.
  - intros rest. rewrite (py_split_label label rest Hlabel). simpl tail.
    by rewrite py_join_split.
  - by rewrite (py_split_no_dot label Hlabel).
Qed.

Lemma _dyndns_provides_parent_domain_witness :
  (forall rest,
     fst (_dyndns_provides (fun _ => inl ["nohost.me"; "noho.st"])
            "dyndns.yunohost.org" ("foo" ++ "." ++ rest)%string world0)
     = Ok (bool_decide (rest ∈ ["nohost.me"; "noho.st"]))) /\
  fst (_dyndns_provides (fun _ => inl ["nohost.me"; "noho.st"])
         "dyndns.yunohost.org" "foo" world0)
  = Ok (bool_decide ("" ∈ ["nohost.me"; "noho.st"])).
Proof.
  apply (_dyndns_provides_parent_domain
           (fun _ => inl ["nohost.me"; "noho.st"]) "dyndns.yunohost.org"
           "foo" ["nohost.me"; "noho.st"] world0);
    reflexivity.
Defined.

(** ** File names and ids *)

Lemma span_spec (p : ascii -> bool) (s : string) :
  s = (fst (Py.span p s) ++ snd (Py.span p s))%string /\
  forallb p (list_ascii_of_string (fst (Py.span p s))) = true.
Proof.
  induction s as [|c s [IH1 IH2]]; simpl; [done|].
  destruct (p c) eqn:Hp; [|done].
  destruct (Py.span p s) as [a b]. simpl in *. split.
  - by rewrite IH1 at 1.
  - by rewrite Hp.
Qed.

Lemma length_append (a b : string) :
  String.length (a ++ b) = String.length a + String.length b.
Proof. induction a as [|c a IH]; simpl; [done|]. by rewrite IH. Qed.

Lemma substring_past_prefix (a b : string) (k : nat) :
  substring 0 (String.length a + k) (a ++ b) = (a ++ substring 0 k b)%string.
Proof.
  induction a as [|c a IH]; simpl; [done|]. by rewrite IH.
Qed.

Lemma split_first_digits (ds x : string) :
  Py.all_digits ds = true ->
  Py.split_first (ds ++ String Py.underscore x) = (ds, Some x).
Proof.
  unfold Py.all_digits. induction ds as [|c ds IH]; simpl; [done|].
  intros [Hc Hds]%andb_true_iff.
  assert (Ascii.eqb c Py.underscore = false) as ->.
  { apply Ascii.eqb_neq. intros ->. discriminate. }
  by rewrite (IH Hds).
Qed.

Lemma migration_file_re_shape (f : string) :
  migration_file_re f = true ->
  exists ds rest,
    f = (ds ++ String Py.underscore rest)%string /\
    ds <> "" /\ Py.all_digits ds = true /\ 3 <= String.length rest.
Proof.
  unfold migration_file_re.
  destruct (span_spec Py.is_digit f) as [Hf Hds].
  destruct (Py.span Py.is_digit f) as [ds r1]. simpl in *.
  destruct ds as [|d ds]; [discriminate|].
  destruct r1 as [|c r2]; [discriminate|].
  intros [Hc Hrest]%andb_true_iff. apply Ascii.eqb_eq in Hc as ->.
  exists (String d ds), r2. split; [done|]. split; [done|]. split; [done|].
  destruct (span_spec Py.is_word r2) as [Hr2 _].
  destruct (Py.span Py.is_word r2) as [ws r3]. simpl in *.
  destruct ws as [|x ws]; [discriminate|].
  rewrite Hr2. simpl. rewrite length_append.
  apply orb_true_iff in Hrest as [->%String.eqb_eq| ->%String.eqb_eq];
    simpl; lia.
Qed.

(** X25: [Migration.__init__] accepts the id of every file whose name
    matches the pattern of discovery: the digits before the first
    underscore are the number and the rest is the name.  So loading such
    a file fails exactly when its module cannot be imported. *)
Theorem matching_file_loads_unless_import_fails (env : Env) (f : string)
  (w : World) :
  migration_file_re f = true ->
  match import_module env (Py.drop_last3 f) with
  | None => exists e, fst (_load_migration env f w) = Raise e
  | Some cls =>
      exists m,
        fst (_load_migration env f w) = Ok m /\
        id_ m = Py.drop_last3 f /\
        id_ m = (fst (Py.split_first (id_ m)) ++ "_" ++ name m)%string /\
        Py.int (fst (Py.split_first (id_ m))) = Some (number m) /\
        mode m = cls_mode cls /\
        dependencies m = cls_dependencies cls /\
        disclaimer m = cls_disclaimer cls
  end.
Proof.
  intros Hre.
  destruct (migration_file_re_shape f Hre) as (ds & rest & -> & Hne & Hds & Hlen).
  unfold _load_migration, bind, emit, ret, raise. simpl.
  destruct (import_module env _) as [cls|]; simpl; [|by eexists].
  assert (Py.drop_last3 (ds ++ String Py.underscore rest)
          = (ds ++ String Py.underscore
                     (substring 0 (String.length rest - 3) rest))%string)
    as Hid.
  { unfold Py.drop_last3. rewrite length_append. simpl String.length.
    replace (String.length ds + S (String.length rest) - 3)
      with (String.length ds + S (String.length rest - 3)) by lia.
    by rewrite substring_past_prefix. }
  rewrite Hid. unfold Migration_init.
  rewrite (split_first_digits _ _ Hds). simpl fst. simpl snd.
  assert (Py.int ds = Some (Py.int_acc 0 ds)) as Hint.
  { unfold Py.int. destruct ds; [done|]. by rewrite Hds. }
  rewrite Hint. eexists. split; [reflexivity|]. simpl.
  rewrite (split_first_digits _ _ Hds). by repeat split.
Qed.

Lemma matching_file_loads_unless_import_fails_witness :
  exists m,
    fst (_load_migration env_two_foo "0017_postgresql_9p6_to_11.py" world0)
    = Ok m /\
    id_ m = Py.drop_last3 "0017_postgresql_9p6_to_11.py" /\
    id_ m = (fst (Py.split_first (id_ m)) ++ "_" ++ name m)%string /\
    Py.int (fst (Py.split_first (id_ m))) = Some (number m) /\
    mode m = cls_mode plain_class /\
    dependencies m = cls_dependencies plain_class /\
    disclaimer m = cls_disclaimer plain_class.
Proof.
  apply (matching_file_loads_unless_import_fails env_two_foo
           "0017_postgresql_9p6_to_11.py" world0).
  reflexivity.
Defined.

(** ** The errors of the run command *)





